(** * auto-finance: the categorisation and rule-persistence engine of main.py

    A shallow embedding of [src/main.py] (a Streamlit script over pandas)
    and the properties of its specification.

    What the embedding covers and how.

    - Python [str] is [string]; [lower] and [strip] act on ASCII letters
      and ASCII white space, other characters are left alone.
    - The category store [st.session_state.categories] is a Python dict
      whose iteration order is its insertion order: an association list,
      oldest key first.
    - A pandas [DataFrame] is an index (row labels) and a list of named,
      typed columns. Object columns hold Python objects ([cell]s); a
      float64 column holds floats; a datetime64 column holds dates.
      The missing values None and NaT are not part of the model.
    - A float64 is the primitive binary64 [float], with IEEE addition
      and comparison, signed zeros, infinities and NaN. [float(s)] gives
      the float64 nearest to the decimal literal. The two sums that the
      program asks of pandas are parameters of the embedding ([Pandas]):
      the rounding of a float64 sum depends on the order in which the
      terms are added, and that order is pandas's, not the repository's.
    - Exceptions are values: a computation returns [Ok] or [Raise].
      Session state, the category file and what [st.error] / [st.write]
      put on the page are fields of an explicit [State]. *)

From Stdlib Require Import String Ascii List Bool Arith ZArith QArith Lia.
From Stdlib Require Import Floats.
From Stdlib Require Import Permutation Sorted OrderedTypeEx.
Import ListNotations.

Open Scope string_scope.
Open Scope list_scope.

(** ** Python strings *)

Module Str.

(** [str.isspace] on an ASCII character: TAB, LF, VT, FF, CR, the four
    separators FS..US and the space. *)
Definition is_space (c : ascii) : bool :=
  let n := nat_of_ascii c in
  ((9 <=? n) && (n <=? 13) || (28 <=? n) && (n <=? 32))%nat.

Definition lower_char (c : ascii) : ascii :=
  let n := nat_of_ascii c in
  if ((65 <=? n) && (n <=? 90))%nat then ascii_of_nat (n + 32) else c.

(** [s.lower()] *)
Fixpoint lower (s : string) : string :=
  match s with
  | EmptyString => EmptyString
  | String c s' => String (lower_char c) (lower s')
  end.

Fixpoint lstrip (s : string) : string :=
  match s with
  | EmptyString => EmptyString
  | String c s' => if is_space c then lstrip s' else s
  end.

Fixpoint rstrip (s : string) : string :=
  match s with
  | EmptyString => EmptyString
  | String c s' =>
      match rstrip s' with
      | EmptyString => if is_space c then EmptyString else String c EmptyString
      | r => String c r
      end
  end.

(** [s.strip()] *)
Definition strip (s : string) : string := rstrip (lstrip s).

(** [s.replace(",", "")] *)
Fixpoint remove_commas (s : string) : string :=
  match s with
  | EmptyString => EmptyString
  | String c s' =>
      if (c =? ",")%char then remove_commas s' else String c (remove_commas s')
  end.

(** Truth value of a string: [bool(s)] *)
Definition truthy (s : string) : bool :=
  match s with EmptyString => false | _ => true end.

(** [x in l] for a list of strings *)
Definition mem (x : string) (l : list string) : bool :=
  existsb (String.eqb x) l.

End Str.

(** ** float64 *)

Module F64.

(** An integer as a floating-point number with a mantissa of any
    length. *)
Definition SF_of_Z (z : Z) : spec_float :=
  match z with
  | Z0 => S754_zero false
  | Zpos p => S754_finite false p 0
  | Zneg p => S754_finite true p 0
  end.

(** The float64 nearest to a rational, ties to the even mantissa; beyond
    the largest float64 it is an infinity. *)
Definition of_Q (q : Q) : float :=
  SF2Prim (SFdiv prec emax (SF_of_Z (Qnum q)) (SF_of_Z (Zpos (Qden q)))).

(** [x == n] for a float and an int: Python compares the exact values. *)
Definition eqb_Z (x : float) (n : Z) : bool :=
  match Prim2SF x with
  | S754_zero _ => (n =? 0)%Z
  | S754_finite s m e =>
      let v := if s then Zneg m else Zpos m in
      if (0 <=? e)%Z then (v * 2 ^ e =? n)%Z else (v =? n * 2 ^ (- e))%Z
  | _ => false
  end.

End F64.

(** ** Exceptions *)

(** A calendar date, as [pd.to_datetime] produces it from day, month and
    year. *)
Record date := mkDate { year : nat; month : nat; day : nat }.

(** A Python object in a cell of a frame. *)
Inductive cell :=
| CStr (s : string)
| CInt (n : Z)
| CNum (x : float)
| CDate (d : date).

Inductive exn :=
| KeyError (key : cell)
| AttributeError (what : string)
| ValueError (what : string)
| RerunException.

Inductive outcome (A : Type) :=
| Ok (a : A)
| Raise (e : exn).
Arguments Ok {A} a.
Arguments Raise {A} e.

Definition obind {A B} (m : outcome A) (k : A -> outcome B) : outcome B :=
  match m with
  | Ok a => k a
  | Raise e => Raise e
  end.

Declare Scope outcome_scope.
Delimit Scope outcome_scope with outcome.
Notation "x <- m ;; k" := (obind m (fun x => k))
  (at level 61, m at next level, right associativity) : outcome_scope.
Notation "' p <- m ;; k" := (obind m (fun p => k))
  (at level 61, p pattern, m at next level, right associativity) : outcome_scope.

(** A [for] loop whose body may raise: the frame (or any accumulator) is
    threaded through the iterations, the first exception ends the loop. *)
Fixpoint for_each {X S} (xs : list X) (s : S) (body : X -> S -> outcome S)
  : outcome S :=
  match xs with
  | [] => Ok s
  | x :: xs' => obind (body x s) (fun s' => for_each xs' s' body)
  end.

(** [mapM] *)
Fixpoint traverse {X Y} (f : X -> outcome Y) (xs : list X) : outcome (list Y) :=
  match xs with
  | [] => Ok []
  | x :: xs' =>
      obind (f x) (fun y => obind (traverse f xs') (fun ys => Ok (y :: ys)))
  end.

(** ** The category store: an insertion-ordered dict *)

Definition dict := list (string * list string).

Definition Uncategorized : string := "Uncategorized".

(** [d.keys()] *)
Definition keys (d : dict) : list string := map fst d.

(** [k in d] *)
Definition dict_contains (d : dict) (k : string) : bool := Str.mem k (keys d).

(** [d[k]] as an expression; a missing key raises [KeyError]. *)
Fixpoint dict_lookup (d : dict) (k : string) : option (list string) :=
  match d with
  | [] => None
  | (k', v) :: d' => if (k' =? k)%string then Some v else dict_lookup d' k
  end.

Definition dict_getitem (d : dict) (k : string) : outcome (list string) :=
  match dict_lookup d k with
  | Some v => Ok v
  | None => Raise (KeyError (CStr k))
  end.

(** [d[k] = v]: an existing key keeps its place, a new key goes last. *)
Fixpoint dict_setitem (d : dict) (k : string) (v : list string) : dict :=
  match d with
  | [] => [(k, v)]
  | (k', v') :: d' =>
      if (k' =? k)%string then (k', v) :: d' else (k', v') :: dict_setitem d' k v
  end.

(** A Python dict has no repeated key. *)
Definition dict_wf (d : dict) : Prop := NoDup (keys d).

(** ** pandas frames *)

Inductive column :=
| ObjCol (vals : list cell)
| NumCol (vals : list float)
| DateCol (vals : list date).

Record DataFrame := mkFrame {
  index : list nat;
  columns : list (string * column)
}.

(** A row as [iterrows] yields it: the cell of every column. *)
Definition Series := list (string * cell).

Definition cells (c : column) : list cell :=
  match c with
  | ObjCol l => l
  | NumCol l => map CNum l
  | DateCol l => map CDate l
  end.

Definition nrows (df : DataFrame) : nat := length (index df).

Fixpoint find_column (cols : list (string * column)) (name : string)
  : option column :=
  match cols with
  | [] => None
  | (n, c) :: cols' => if (n =? name)%string then Some c else find_column cols' name
  end.

(** [df[name]] *)
Definition getitem (df : DataFrame) (name : string) : outcome column :=
  match find_column (columns df) name with
  | Some c => Ok c
  | None => Raise (KeyError (CStr name))
  end.

Fixpoint set_column (cols : list (string * column)) (name : string) (c : column)
  : list (string * column) :=
  match cols with
  | [] => [(name, c)]
  | (n, c') :: cols' =>
      if (n =? name)%string then (n, c) :: cols'
      else (n, c') :: set_column cols' name c
  end.

(** [df[name] = c]: an existing column is replaced where it stands, a new
    one is added last. *)
Definition setitem (df : DataFrame) (name : string) (c : column) : DataFrame :=
  mkFrame (index df) (set_column (columns df) name c).

Definition row_at (df : DataFrame) (pos : nat) : Series :=
  flat_map (fun nc : string * column =>
              match nth_error (cells (snd nc)) pos with
              | Some v => [(fst nc, v)]
              | None => []
              end) (columns df).

(** [df.iterrows()]: label and row, in index order. *)
Definition iterrows (df : DataFrame) : list (nat * Series) :=
  combine (index df) (map (row_at df) (seq 0 (nrows df))).

Fixpoint series_lookup (row : Series) (name : string) : option cell :=
  match row with
  | [] => None
  | (n, v) :: row' => if (n =? name)%string then Some v else series_lookup row' name
  end.

(** [row[name]] *)
Definition series_getitem (row : Series) (name : string) : outcome cell :=
  match series_lookup row name with
  | Some v => Ok v
  | None => Raise (KeyError (CStr name))
  end.

(** Position of a row label in the index. *)
Fixpoint label_pos (idx : list nat) (l : nat) : option nat :=
  match idx with
  | [] => None
  | l' :: idx' =>
      if (l' =? l)%nat then Some 0%nat else option_map S (label_pos idx' l)
  end.

Definition label_key (l : nat) : cell := CInt (Z.of_nat l).

(** [df.at[l, name]] read. *)
Definition at_get (df : DataFrame) (l : nat) (name : string) : outcome cell :=
  match label_pos (index df) l with
  | None => Raise (KeyError (label_key l))
  | Some pos =>
      obind (getitem df name) (fun c =>
        match nth_error (cells c) pos with
        | Some v => Ok v
        | None => Raise (KeyError (label_key l))
        end)
  end.

Fixpoint list_set {A} (l : list A) (pos : nat) (v : A) : list A :=
  match l, pos with
  | [], _ => []
  | _ :: l', O => v :: l'
  | x :: l', S p => x :: list_set l' p v
  end.

(** Writing one cell. A value of the column's own type keeps the column's
    type; any other value turns the column into an object column. *)
Definition set_cell (c : column) (pos : nat) (v : cell) : column :=
  match c, v with
  | ObjCol l, _ => ObjCol (list_set l pos v)
  | NumCol l, CNum x => NumCol (list_set l pos x)
  | DateCol l, CDate d => DateCol (list_set l pos d)
  | _, _ => ObjCol (list_set (cells c) pos v)
  end.

Fixpoint update_column (cols : list (string * column)) (name : string)
  (f : column -> column) : list (string * column) :=
  match cols with
  | [] => []
  | (n, c) :: cols' =>
      if (n =? name)%string then (n, f c) :: cols'
      else (n, c) :: update_column cols' name f
  end.

(** [df.at[l, name] = v]. The program writes only under labels it has
    taken from the same index and only to the Category column, which
    exists by then; for a label or a column that is absent (where pandas
    would enlarge the frame) the model leaves the frame as it is. *)
Definition at_set (df : DataFrame) (l : nat) (name : string) (v : cell)
  : DataFrame :=
  match label_pos (index df) l with
  | None => df
  | Some pos =>
      mkFrame (index df) (update_column (columns df) name (fun c => set_cell c pos v))
  end.

(** A frame is well formed when its labels are distinct and every column
    has one cell per label. [pd.read_csv] returns such frames (labels
    0, 1, 2, ...), and row selection keeps the property. *)
Definition frame_wf (df : DataFrame) : Prop :=
  NoDup (index df) /\
  Forall (fun nc : string * column => length (cells (snd nc)) = nrows df) (columns df).

(** ** Classification: [categories_transactions] (main.py lines 24-37) *)

(** [x.lower()] on a Python object: only [str] has the method. *)
Definition cell_lower (v : cell) : outcome string :=
  match v with
  | CStr s => Ok (Str.lower s)
  | _ => Raise (AttributeError "lower")
  end.

Definition is_nil {A} (l : list A) : bool :=
  match l with [] => true | _ => false end.

Definition categories_transactions (categories : dict) (df : DataFrame)
  : outcome DataFrame :=
  let df := setitem df "Category" (ObjCol (repeat (CStr Uncategorized) (nrows df))) in
  for_each categories df (fun '(category, keywords) df =>
    if (category =? Uncategorized)%string || is_nil keywords then Ok df
    else
      let lowered_keywords := map (fun keyword => Str.strip (Str.lower keyword)) keywords in
      for_each (iterrows df) df (fun '(idx, row) df =>
        (d <- series_getitem row "Details" ;;
         d <- cell_lower d ;;
         let details := Str.strip d in
         if Str.mem details lowered_keywords
         then Ok (at_set df idx "Category" (CStr category))
         else Ok df)%outcome)).

(** The same decision for a single description: the category that the
    loops leave on a row whose Details is [details]. *)
Definition normalize (s : string) : string := Str.strip (Str.lower s).

Definition rule_active (category : string) (keywords : list string) : bool :=
  negb ((category =? Uncategorized)%string || is_nil keywords).

Definition rule_matches (details : string) (category : string)
  (keywords : list string) : bool :=
  rule_active category keywords
  && Str.mem (normalize details) (map normalize keywords).

Definition classify_details (categories : dict) (details : string) : string :=
  fold_left (fun current '(category, keywords) =>
               if rule_matches details category keywords then category else current)
            categories Uncategorized.


(** Notions used to state what the loops compute. *)

(** The frame as it stands while the loops run: the input with a
    Category column holding [cs]. *)
Definition labelled (df : DataFrame) (cs : list cell) : DataFrame :=
  setitem df "Category" (ObjCol cs).

(** One pass of the inner loop on one row. *)
Definition relabel (category : string) (lowered : list string)
  (dc : string * cell) : cell :=
  if Str.mem (Str.strip (Str.lower (fst dc))) lowered then CStr category else snd dc.

Definition row_body (category : string) (lowered : list string)
  (idx : nat) (d : string) (f : DataFrame) : outcome DataFrame :=
  if Str.mem (Str.strip (Str.lower d)) lowered
  then Ok (at_set f idx "Category" (CStr category))
  else Ok f.


(** ** Parsing the Amount and Date cells *)

Module Parse.

Definition digit_val (c : ascii) : option Z :=
  let n := nat_of_ascii c in
  if ((48 <=? n) && (n <=? 57))%nat then Some (Z.of_nat (n - 48)) else None.

Definition is_digit (c : ascii) : bool :=
  match digit_val c with Some _ => true | None => false end.

(** Digits of a numeric literal, read into [acc]; [n] counts them. A
    single underscore may stand between two digits. Returns the value,
    the count and the unread rest. *)
Fixpoint digits_from (s : string) (acc : Z) (n : nat) : Z * nat * string :=
  match s with
  | EmptyString => (acc, n, s)
  | String c s' =>
      match digit_val c with
      | Some d => digits_from s' (10 * acc + d)%Z (S n)
      | None =>
          if (c =? "_")%char && negb (n =? 0)%nat then
            match s' with
            | String c' _ => if is_digit c' then digits_from s' acc n else (acc, n, s)
            | EmptyString => (acc, n, s)
            end
          else (acc, n, s)
      end
  end.

(** A digit part: at least one digit, starting with a digit. *)
Definition digitpart (s : string) : option (Z * nat * string) :=
  match s with
  | String c _ =>
      if is_digit c then Some (digits_from s 0%Z 0%nat) else None
  | EmptyString => None
  end.

Definition sign (s : string) : bool * string :=
  match s with
  | String "-" s' => (true, s')
  | String "+" s' => (false, s')
  | _ => (false, s)
  end.

(** Mantissa: [digits], [digits.], [digits.digits] or [.digits]; the
    result is the integer made of all digits and the number of digits
    after the point. *)
Definition mantissa (s : string) : option (Z * nat * string) :=
  match digitpart s with
  | Some (i, _, String "." rest) =>
      match digitpart rest with
      | Some (f, nf, rest') => Some ((i * 10 ^ Z.of_nat nf + f)%Z, nf, rest')
      | None => Some (i, 0%nat, rest)
      end
  | Some (i, _, rest) => Some (i, 0%nat, rest)
  | None =>
      match s with
      | String "." rest =>
          match digitpart rest with
          | Some (f, nf, rest') => Some (f, nf, rest')
          | None => None
          end
      | _ => None
      end
  end.

(** Exponent: nothing, or [e] / [E], an optional sign and a digit part. *)
Definition exponent (s : string) : option (Z * string) :=
  match s with
  | String c rest =>
      if (c =? "e")%char || (c =? "E")%char then
        let '(neg, rest) := sign rest in
        match digitpart rest with
        | Some (e, _, rest') => Some (if neg then (- e)%Z else e, rest')
        | None => None
        end
      else Some (0%Z, s)
  | EmptyString => Some (0%Z, s)
  end.

(** The rational [m * 10 ^ e], in lowest terms. *)
Definition scale10 (m e : Z) : Q :=
  if (0 <=? e)%Z then inject_Z (m * 10 ^ e)
  else Qred (Qmake m (Z.to_pos (10 ^ (- e)))).

(** White space for [float]: TAB, LF, VT, FF, CR and the space. The
    separators FS..US, which [str.strip] drops, are not among them. *)
Definition is_blank (c : ascii) : bool :=
  let n := nat_of_ascii c in
  ((9 <=? n) && (n <=? 13) || (n =? 32))%nat.

Fixpoint drop_blanks (s : string) : string :=
  match s with
  | EmptyString => EmptyString
  | String c s' => if is_blank c then drop_blanks s' else s
  end.

Fixpoint drop_blanks_end (s : string) : string :=
  match s with
  | EmptyString => EmptyString
  | String c s' =>
      match drop_blanks_end s' with
      | EmptyString => if is_blank c then EmptyString else String c EmptyString
      | r => String c r
      end
  end.

(** The names [inf], [infinity] and [nan], in any case. *)
Definition special (s : string) : option float :=
  let s := Str.lower s in
  if (s =? "inf") || (s =? "infinity") then Some infinity
  else if s =? "nan" then Some nan
  else None.

(** A decimal literal: its value, rounded to the nearest float64. *)
Definition decimal (s : string) : option float :=
  match mantissa s with
  | Some (m, nf, rest) =>
      match exponent rest with
      | Some (e, EmptyString) => Some (F64.of_Q (scale10 m (e - Z.of_nat nf)))
      | _ => None
      end
  | None => None
  end.

(** [float(s)]: white space around the text is dropped; a sign may come
    first; then comes a special name or a decimal literal. The sign is
    applied to the float, so that [-0] is the negative zero. *)
Definition parse_float (s : string) : option float :=
  let '(neg, s) := sign (drop_blanks_end (drop_blanks s)) in
  let magnitude :=
    match special s with
    | Some x => Some x
    | None => decimal s
    end in
  option_map (fun x => if neg then (- x)%float else x) magnitude.

(** Day of the month under [%d]: two digits 01..31, one digit 1..9, or a
    space and one digit 1..9. *)
Definition day_field (s : string) : option (nat * string) :=
  match s with
  | String c1 (String c2 rest) =>
      match digit_val c1, digit_val c2 with
      | Some d1, Some d2 =>
          let d := Z.to_nat (10 * d1 + d2) in
          if ((1 <=? d) && (d <=? 31))%nat then Some (d, rest) else None
      | Some d1, None =>
          if (1 <=? d1)%Z then Some (Z.to_nat d1, String c2 rest) else None
      | None, Some d2 =>
          if (c1 =? " ")%char && (1 <=? d2)%Z then Some (Z.to_nat d2, rest) else None
      | None, None => None
      end
  | String c1 EmptyString =>
      match digit_val c1 with
      | Some d1 => if (1 <=? d1)%Z then Some (Z.to_nat d1, EmptyString) else None
      | None => None
      end
  | EmptyString => None
  end.

(** One or more white-space characters, as a blank of the format
    matches. *)
Definition spaces1 (s : string) : option string :=
  match s with
  | String c rest => if Str.is_space c then Some (Str.lstrip rest) else None
  | EmptyString => None
  end.

Definition month_names : list string :=
  ["jan"; "feb"; "mar"; "apr"; "may"; "jun";
   "jul"; "aug"; "sep"; "oct"; "nov"; "dec"].

Fixpoint month_number (names : list string) (n : nat) (m : string) : option nat :=
  match names with
  | [] => None
  | name :: names' =>
      if (name =? m)%string then Some n else month_number names' (S n) m
  end.

(** Month under [%b]: an abbreviated English month name, in any case. *)
Definition month_field (s : string) : option (nat * string) :=
  match s with
  | String c1 (String c2 (String c3 rest)) =>
      match month_number month_names 1
              (Str.lower (String c1 (String c2 (String c3 EmptyString)))) with
      | Some m => Some (m, rest)
      | None => None
      end
  | _ => None
  end.

(** Year under [%Y]: four digits. *)
Definition year_field (s : string) : option (nat * string) :=
  match s with
  | String c1 (String c2 (String c3 (String c4 rest))) =>
      match digit_val c1, digit_val c2, digit_val c3, digit_val c4 with
      | Some d1, Some d2, Some d3, Some d4 =>
          Some (Z.to_nat (1000 * d1 + 100 * d2 + 10 * d3 + d4), rest)
      | _, _, _, _ => None
      end
  | _ => None
  end.

Definition is_leap (y : nat) : bool :=
  ((y mod 4 =? 0) && (negb (y mod 100 =? 0) || (y mod 400 =? 0)))%nat.

Definition days_in_month (y m : nat) : nat :=
  match m with
  | 2 => if is_leap y then 29 else 28
  | 4 | 6 | 9 | 11 => 30
  | _ => 31
  end%nat.

(** One cell under the format ["%d %b %Y"]: the whole text must match
    and the day must exist in that month. The range limits of
    datetime64 are not modelled. *)
Definition parse_date (s : string) : option date :=
  match day_field s with
  | Some (d, s1) =>
    match spaces1 s1 with
    | Some s2 =>
      match month_field s2 with
      | Some (m, s3) =>
        match spaces1 s3 with
        | Some s4 =>
          match year_field s4 with
          | Some (y, EmptyString) =>
              if ((1 <=? y) && (d <=? days_in_month y m))%nat
              then Some (mkDate y m d) else None
          | _ => None
          end
        | None => None
        end
      | None => None
      end
    | None => None
    end
  | None => None
  end.

End Parse.

(** ** Session state, the category file and the page *)

Inductive ui_event :=
| StWrite (df : DataFrame)
| StError (e : exn)
| StDataframe (df : DataFrame)
| StMetric (total : float).

Record State := mkState {
  ss_categories : option dict;      (* st.session_state.categories *)
  ss_debits_df : option DataFrame;  (* st.session_state.debits_df *)
  ss_credits_df : option DataFrame; (* st.session_state.credits_df *)
  category_file : option dict;      (* categories.json, [None]: no such file *)
  page : list ui_event              (* what the run has displayed so far *)
}.

(** A statement of the script: it changes the state and returns or
    raises. The state reached when an exception leaves the script is the
    state the next run starts from. *)
Definition M (A : Type) : Type := State -> State * outcome A.

Definition ret {A} (a : A) : M A := fun s => (s, Ok a).

Definition bind {A B} (m : M A) (k : A -> M B) : M B :=
  fun s =>
    match m s with
    | (s', Ok a) => k a s'
    | (s', Raise e) => (s', Raise e)
    end.

Definition lift {A} (o : outcome A) : M A := fun s => (s, o).

Declare Scope script_scope.
Delimit Scope script_scope with script.
Notation "x <- m ;; k" := (bind m (fun x => k))
  (at level 61, m at next level, right associativity) : script_scope.
Notation "' p <- m ;; k" := (bind m (fun p => k))
  (at level 61, p pattern, m at next level, right associativity) : script_scope.
Notation "m ;; k" := (bind m (fun _ => k))
  (at level 61, right associativity) : script_scope.
Open Scope script_scope.

(** [try: m except Exception as e: handler e]. Streamlit's rerun signal
    is not an [Exception] and passes through. *)
Definition try_except {A} (m : M A) (handler : exn -> M A) : M A :=
  fun s =>
    match m s with
    | (s', Ok a) => (s', Ok a)
    | (s', Raise RerunException) => (s', Raise RerunException)
    | (s', Raise e) => handler e s'
    end.

Fixpoint for_M {X} (xs : list X) (body : X -> M unit) : M unit :=
  match xs with
  | [] => ret tt
  | x :: xs' => body x ;; for_M xs' body
  end.

Definition get_categories : M dict :=
  fun s =>
    match ss_categories s with
    | Some d => (s, Ok d)
    | None => (s, Raise (AttributeError "categories"))
    end.

Definition put_categories (d : dict) : M unit :=
  fun s => (mkState (Some d) (ss_debits_df s) (ss_credits_df s)
                    (category_file s) (page s), Ok tt).

Definition get_debits_df : M DataFrame :=
  fun s =>
    match ss_debits_df s with
    | Some df => (s, Ok df)
    | None => (s, Raise (AttributeError "debits_df"))
    end.

Definition put_debits_df (df : DataFrame) : M unit :=
  fun s => (mkState (ss_categories s) (Some df) (ss_credits_df s)
                    (category_file s) (page s), Ok tt).

Definition put_credits_df (df : DataFrame) : M unit :=
  fun s => (mkState (ss_categories s) (ss_debits_df s) (Some df)
                    (category_file s) (page s), Ok tt).

Definition write_file (d : dict) : M unit :=
  fun s => (mkState (ss_categories s) (ss_debits_df s) (ss_credits_df s)
                    (Some d) (page s), Ok tt).

Definition show (e : ui_event) : M unit :=
  fun s => (mkState (ss_categories s) (ss_debits_df s) (ss_credits_df s)
                    (category_file s) (page s ++ [e]), Ok tt).

(** ** The script *)

(** Lines 11-18, run at the start of every run of the script. The file
    holds what [json.dump] wrote, a mapping from names to lists of
    strings, which [json.load] gives back with its order. *)
Definition init : M unit :=
  fun s =>
    let s1 :=
      match ss_categories s with
      | None => fst (put_categories [(Uncategorized, [])] s)
      | Some _ => s
      end in
    match category_file s1 with
    | Some d => put_categories d s1
    | None => (s1, Ok tt)
    end.

(** Lines 20-22. *)
Definition save_categories : M unit :=
  d <- get_categories ;; write_file d.

(** [x.strip()] on a Python object. *)
Definition cell_strip (v : cell) : outcome string :=
  match v with
  | CStr s => Ok (Str.strip s)
  | _ => Raise (AttributeError "strip")
  end.

(** [d[k]] for any Python object [k]; the keys of the store are strings. *)
Definition dict_getitem_cell (d : dict) (k : cell) : outcome (string * list string) :=
  match k with
  | CStr name =>
      match dict_lookup d name with
      | Some v => Ok (name, v)
      | None => Raise (KeyError k)
      end
  | _ => Raise (KeyError k)
  end.

(** Lines 52-58. *)
Definition add_keyword_to_category (category keyword : cell) : M bool :=
  keyword <- lift (cell_strip keyword) ;;
  if Str.truthy keyword then
    d <- get_categories ;;
    '(name, keywords) <- lift (dict_getitem_cell d category) ;;
    if negb (Str.mem keyword keywords) then
      put_categories (dict_setitem d name (keywords ++ [keyword])) ;;
      save_categories ;;
      ret true
    else ret false
  else ret false.

(** [.str] on a column: only for a column of strings. (For an object
    column that mixes strings with other objects pandas goes on with a
    missing value in the place of each other object; the model has no
    missing value among objects and raises there too.) *)
Fixpoint all_strings (l : list cell) : option (list string) :=
  match l with
  | [] => Some []
  | CStr s :: l' => option_map (cons s) (all_strings l')
  | _ :: _ => None
  end.

Definition str_accessor (c : column) : outcome (list string) :=
  match c with
  | ObjCol l =>
      match all_strings l with
      | Some ss => Ok ss
      | None => Raise (AttributeError "str")
      end
  | _ => Raise (AttributeError "str")
  end.

(** [.astype(float)] on strings. *)
Definition astype_float (l : list string) : outcome (list float) :=
  traverse (fun s => match Parse.parse_float s with
                     | Some x => Ok x
                     | None => Raise (ValueError s)
                     end) l.

(** [pd.to_datetime(c, format="%d %b %Y")]. A number never has the shape
    of the format. *)
Definition to_datetime (c : column) : outcome (list date) :=
  match c with
  | DateCol l => Ok l
  | _ =>
      traverse (fun v => match v with
                         | CStr s =>
                             match Parse.parse_date s with
                             | Some d => Ok d
                             | None => Raise (ValueError s)
                             end
                         | CDate d => Ok d
                         | CInt _ | CNum _ => Raise (ValueError "Date")
                         end) (cells c)
  end.

(** [df.columns = [col.strip() for col in df.columns]] *)
Definition strip_columns (df : DataFrame) : DataFrame :=
  mkFrame (index df) (map (fun nc => (Str.strip (fst nc), snd nc)) (columns df)).

(** Lines 39-50. [file] is what [pd.read_csv(file)] does: the frame it
    returns or the exception it raises. *)
Definition load_transactions (file : outcome DataFrame) : M (option DataFrame) :=
  try_except
    (df <- lift file ;;
     let df := strip_columns df in
     amount <- lift (getitem df "Amount") ;;
     amount <- lift (str_accessor amount) ;;
     amount <- lift (astype_float (map Str.remove_commas amount)) ;;
     let df := setitem df "Amount" (NumCol amount) in
     dates <- lift (getitem df "Date") ;;
     dates <- lift (to_datetime dates) ;;
     let df := setitem df "Date" (DateCol dates) in
     show (StWrite df) ;;
     categories <- get_categories ;;
     df <- lift (categories_transactions categories df) ;;
     ret (Some df))
    (fun e => show (StError e) ;; ret None).

(** [a == b] for two Python objects: numbers are compared by value (NaN
    equals nothing), an int and a float exactly. *)
Definition cell_eqb (a b : cell) : bool :=
  match a, b with
  | CStr x, CStr y => (x =? y)%string
  | CInt x, CInt y => (x =? y)%Z
  | CNum x, CNum y => (x =? y)%float
  | CInt n, CNum x | CNum x, CInt n => F64.eqb_Z x n
  | CDate x, CDate y =>
      ((year x =? year y) && (month x =? month y) && (day x =? day y))%nat
  | _, _ => false
  end.

(** [c == text], cell by cell. *)
Definition eq_mask (c : column) (text : string) : list bool :=
  map (fun v => cell_eqb v (CStr text)) (cells c).

Fixpoint mask_filter {A} (mask : list bool) (l : list A) : list A :=
  match mask, l with
  | true :: mask', x :: l' => x :: mask_filter mask' l'
  | false :: mask', _ :: l' => mask_filter mask' l'
  | _, _ => []
  end.

Definition filter_column (mask : list bool) (c : column) : column :=
  match c with
  | ObjCol l => ObjCol (mask_filter mask l)
  | NumCol l => NumCol (mask_filter mask l)
  | DateCol l => DateCol (mask_filter mask l)
  end.

(** [df[mask].copy()]: the rows where the mask holds, under their
    labels. *)
Definition select (df : DataFrame) (mask : list bool) : DataFrame :=
  mkFrame (mask_filter mask (index df))
          (map (fun nc => (fst nc, filter_column mask (snd nc))) (columns df)).

(** [df[[name; ...]]] *)
Definition select_columns (df : DataFrame) (names : list string)
  : outcome DataFrame :=
  obind (traverse (fun name => obind (getitem df name) (fun c => Ok (name, c))) names)
        (fun cols => Ok (mkFrame (index df) cols)).

(** ** Aggregation (lines 132-134) *)

(** The keys of [groupby]: each name once, in ascending order. *)
Fixpoint insert_key (k : string) (ks : list string) : list string :=
  match ks with
  | [] => [k]
  | k' :: ks' =>
      match String.compare k k' with
      | Lt => k :: ks
      | Eq => ks
      | Gt => k' :: insert_key k ks'
      end
  end.

Definition group_keys (ks : list string) : list string :=
  fold_right insert_key [] ks.

(** The sums of pandas. [Series.sum] adds the values of a column and
    [GroupBy.sum] those of one group; each is given the values in row
    order and returns a float64. Which float64 depends on how pandas
    adds (one after the other, in pairs, with a running compensation,
    with or without the NaN among them), and the repository does not
    say: the embedding takes the two functions as they come. *)
Class Pandas := {
  Series_sum : list float -> float;
  GroupBy_sum : list float -> float
}.

(** The amounts of the rows of one group, in row order. *)
Definition group_amounts (k : string) (rows : list (string * float)) : list float :=
  map snd (filter (fun r => (fst r =? k)%string) rows).

(** [groupby("Category")["Amount"].sum().reset_index()] on the rows
    taken as (category, amount) pairs. *)
Definition groupby_sum {pandas : Pandas} (rows : list (string * float))
  : list (string * float) :=
  map (fun k => (k, GroupBy_sum (group_amounts k rows))) (group_keys (map fst rows)).

(** [sort_values("Amount", ascending=False)]: larger amounts first, NaN
    last. Rows of equal amount are kept in their order here; pandas
    promises no order among them. Each row travels with its label. *)
Definition amount_of (r : nat * (string * float)) : float := snd (snd r).

(** A row of amount [x] may stand before one of amount [y]. *)
Definition goes_before (x y : float) : bool := is_nan y || (y <=? x)%float.

Fixpoint insert_desc (x : nat * (string * float)) (l : list (nat * (string * float)))
  : list (nat * (string * float)) :=
  match l with
  | [] => [x]
  | y :: l' =>
      if goes_before (amount_of x) (amount_of y) then x :: l
      else y :: insert_desc x l'
  end.

Definition sort_desc (l : list (nat * (string * float)))
  : list (nat * (string * float)) :=
  fold_right insert_desc [] l.


(** The columns the summary reads. The Category column of the program
    holds category names and its Amount column is the float column that
    [load_transactions] made; for other contents, which the program does
    not produce, the model raises. *)
Definition amounts_of (c : column) : outcome (list float) :=
  match c with
  | NumCol l => Ok l
  | _ => Raise (ValueError "Amount")
  end.

Definition names_of (c : column) : outcome (list string) :=
  match all_strings (cells c) with
  | Some ss => Ok ss
  | None => Raise (ValueError "Category")
  end.

(** Lines 133-134: the frame [category_totals]. *)
Definition category_totals {pandas : Pandas} (df : DataFrame) : outcome DataFrame :=
  (kc <- getitem df "Category" ;;
   ac <- getitem df "Amount" ;;
   names <- names_of kc ;;
   amounts <- amounts_of ac ;;
   let groups := groupby_sum (combine names amounts) in
   let sorted := sort_desc (combine (seq 0 (length groups)) groups) in
   Ok (mkFrame (map fst sorted)
               [("Category", ObjCol (map (fun r => CStr (fst (snd r))) sorted));
                ("Amount", NumCol (map amount_of sorted))]))%outcome.


(** ** [main] (lines 84-134 and 178-182) *)

(** What the user does in one run of the script. [current_file] is the
    chosen file, given by what [pd.read_csv] makes of it;
    [data_editor] is the edited table the widget returns for the table
    it is shown. *)
Record Inputs := mkInputs {
  current_file : option (outcome DataFrame);
  new_category : string;
  add_button : bool;
  data_editor : DataFrame -> DataFrame;
  save_button : bool
}.

(** Lines 99-103. [st.rerun()] ends the run. *)
Definition add_category (add_button : bool) (new_category : string) : M unit :=
  if add_button && Str.truthy new_category then
    d <- get_categories ;;
    if negb (dict_contains d new_category) then
      put_categories (dict_setitem d new_category []) ;;
      save_categories ;;
      lift (Raise RerunException)
    else ret tt
  else ret tt.

(** Lines 124-130: the body of the loop over the edited rows. *)
Definition reclassify_row (idx : nat) (row : Series) : M unit :=
  new_category <- lift (series_getitem row "Category") ;;
  debits_df <- get_debits_df ;;
  stored <- lift (at_get debits_df idx "Category") ;;
  if cell_eqb new_category stored then ret tt
  else
    details <- lift (series_getitem row "Details") ;;
    debits_df <- get_debits_df ;;
    put_debits_df (at_set debits_df idx "Category" new_category) ;;
    add_keyword_to_category new_category details ;;
    ret tt.

(** Lines 122-130. *)
Definition apply_changes (save_button : bool) (edited_df : DataFrame) : M unit :=
  if save_button then
    for_M (iterrows edited_df) (fun '(idx, row) => reclassify_row idx row)
  else ret tt.

Definition main {pandas : Pandas} (inp : Inputs) : M unit :=
  match current_file inp with
  | None => ret tt
  | Some file =>
      df <- load_transactions file ;;
      match df with
      | None => ret tt
      | Some df =>
          kind <- lift (getitem df "Debit/Credit") ;;
          let debits_df := select df (eq_mask kind "Debit") in
          kind <- lift (getitem df "Debit/Credit") ;;
          let credits_df := select df (eq_mask kind "Credit") in
          put_debits_df debits_df ;;
          put_credits_df credits_df ;;
          add_category (add_button inp) (new_category inp) ;;
          shown <- get_debits_df ;;
          shown <- lift (select_columns shown ["Date"; "Details"; "Amount"; "Category"]) ;;
          let edited_df := data_editor inp shown in
          apply_changes (save_button inp) edited_df ;;
          debits <- get_debits_df ;;
          category_totals <- lift (category_totals debits) ;;
          show (StDataframe category_totals) ;;
          amount <- lift (getitem credits_df "Amount") ;;
          amount <- lift (amounts_of amount) ;;
          show (StMetric (Series_sum amount)) ;;
          show (StWrite credits_df)
      end
  end.

(** One run of the script: a fresh page, the module-level statements,
    then [main]. *)
Definition clear_page : M unit :=
  fun s => (mkState (ss_categories s) (ss_debits_df s) (ss_credits_df s)
                    (category_file s) [], Ok tt).

Definition script {pandas : Pandas} (inp : Inputs) : M unit :=
  clear_page ;; init ;; main inp.

(** The state before the first run of a session: nothing in the session
    state yet, and a category file, if there is one, that has the
    "Uncategorized" key (the file's format demands it). *)
Definition installed (s : State) : Prop :=
  ss_categories s = None /\
  forall f, category_file s = Some f -> In Uncategorized (keys f).

(** A new session (or a restart of the process): the session state is
    gone, the file stays. *)
Definition new_session (s : State) : State :=
  mkState None None None (category_file s) [].

(** The states the program can be in after a run. *)
Inductive reachable {pandas : Pandas} : State -> Prop :=
| reach_first inp s0 : installed s0 -> reachable (fst (script inp s0))
| reach_run inp s : reachable s -> reachable (fst (script inp s))
| reach_restart inp s : reachable s -> reachable (fst (script inp (new_session s))).

(** ** Notions used in the statements *)

(** The Category cell of the row labelled [l] after classification. *)
Definition category_after (categories : dict) (df : DataFrame) (l : nat)
  : outcome cell :=
  obind (categories_transactions categories df)
        (fun df' => at_get df' l "Category").

(** A frame as [pd.read_csv] labels it, with a Details column only. *)
Definition frame_of_details (details : list string) : DataFrame :=
  mkFrame (seq 0 (length details)) [("Details", ObjCol (map CStr details))].

(** A rule whose keywords contain, after normalisation, the normalised
    description. *)
Definition keyword_equal (details : string) (keywords : list string) : Prop :=
  exists k, In k keywords /\ normalize k = normalize details.

(** The category store and the category file both have the
    "Uncategorized" key. Before the first statements of a run the
    session may not hold a store yet ([store_ok_before]). *)
Definition has_uncategorized (d : dict) : Prop := In Uncategorized (keys d).

Definition file_ok (s : State) : Prop :=
  forall f, category_file s = Some f -> has_uncategorized f.

Definition store_ok (s : State) : Prop :=
  (exists d, ss_categories s = Some d /\ has_uncategorized d) /\ file_ok s.

Definition store_ok_before (s : State) : Prop :=
  (forall d, ss_categories s = Some d -> has_uncategorized d) /\ file_ok s.

(** A statement keeps the invariant, however it ends, and a value it
    returns satisfies [Q]. *)
Definition keeps {A} (m : M A) (Q : A -> Prop) : Prop :=
  forall s, store_ok s ->
            store_ok (fst (m s)) /\ forall a, snd (m s) = Ok a -> Q a.

Definition anything {A} : A -> Prop := fun _ => True.



(** ** Sample data *)

(** Two debit rows of a statement, as held in the session after
    classification; they kept the labels 0 and 2 of the full table. *)
Definition sample_debits (category : string) : DataFrame :=
  mkFrame [0; 2]%nat
    [("Date", DateCol [mkDate 2024 1 5; mkDate 2024 1 9]);
     ("Details", ObjCol [CStr "WHOLE FOODS 123"; CStr "RENT"]);
     ("Amount", NumCol [10; 5]%float);
     ("Debit/Credit", ObjCol [CStr "Debit"; CStr "Debit"]);
     ("Category", ObjCol [CStr category; CStr Uncategorized])].

(** The first of these rows in the edited table, with the category the
    user chose. *)
Definition sample_edit (category : string) : Series :=
  [("Date", CDate (mkDate 2024 1 5));
   ("Details", CStr "WHOLE FOODS 123");
   ("Amount", CNum 10);
   ("Category", CStr category)].

Definition sample_state (store : dict) (category : string) : State :=
  mkState (Some store) (Some (sample_debits category)) None (Some store) [].

(** A session that has not run the script, without a category file. *)
Definition fresh : State := mkState None None None None [].

(** A statement without the Debit/Credit column, as [pd.read_csv] returns
    it: every column holds text. *)
Definition table_without_kind : DataFrame :=
  mkFrame [0; 1]%nat
    [("Date", ObjCol [CStr "05 Jan 2024"; CStr "09 Jan 2024"]);
     ("Details", ObjCol [CStr "WHOLE FOODS 123"; CStr "RENT"]);
     ("Amount", ObjCol [CStr "1,234.50"; CStr "12"])].

(** The same statement with the column. *)
Definition table_with_kind : DataFrame :=
  mkFrame [0; 1]%nat
    (columns table_without_kind
     ++ [("Debit/Credit", ObjCol [CStr "Debit"; CStr "Credit"])]).

(** A statement without the Amount column. *)
Definition table_without_amount : DataFrame :=
  mkFrame [0; 1]%nat
    [("Date", ObjCol [CStr "05 Jan 2024"; CStr "09 Jan 2024"]);
     ("Details", ObjCol [CStr "WHOLE FOODS 123"; CStr "RENT"]);
     ("Debit/Credit", ObjCol [CStr "Debit"; CStr "Credit"])].

(** A statement whose amounts are plain numbers: [pd.read_csv] makes the
    column a float column. *)
Definition table_with_numeric_amount : DataFrame :=
  mkFrame [0; 1]%nat
    [("Date", ObjCol [CStr "05 Jan 2024"; CStr "09 Jan 2024"]);
     ("Details", ObjCol [CStr "WHOLE FOODS 123"; CStr "RENT"]);
     (" Amount", NumCol [1234.5; 12]%float);
     ("Debit/Credit", ObjCol [CStr "Debit"; CStr "Credit"])].

(** A run in which the user only chooses a file. *)
Definition upload (table : DataFrame) : Inputs :=
  mkInputs (Some (Ok table)) "" false (fun shown => shown) false.

(** A pandas that adds from left to right, as Python's [sum] does. *)
Definition left_to_right : Pandas :=
  {| Series_sum := fun l => fold_left PrimFloat.add l 0%float;
     GroupBy_sum := fun l => fold_left PrimFloat.add l 0%float |}.

(** ** Further notions: rules, store changes, runs *)

(** The entries of the store that classification applies: those not
    named "Uncategorized" and with at least one keyword. *)
Definition active_rules (d : dict) : dict :=
  filter (fun rule => rule_active (fst rule) (snd rule)) d.

(** The state with more on the page. *)
Definition with_page (s : State) (events : list ui_event) : State :=
  mkState (ss_categories s) (ss_debits_df s) (ss_credits_df s)
          (category_file s) (page s ++ events).

(** The two ways in which the program changes the category store, each
    written to the file at once: a keyword (trimmed, not empty, not yet
    in the list) goes to the end of the list of an existing category,
    or a category (not empty, not yet a key) goes to the end of the store
    with no keywords. [change_none] is any change of the state that
    leaves store and file alone. *)
Inductive store_change : State -> State -> Prop :=
| change_none s s' :
    ss_categories s' = ss_categories s ->
    category_file s' = category_file s ->
    store_change s s'
| change_learn s s' d name keywords w :
    ss_categories s = Some d ->
    dict_lookup d name = Some keywords ->
    w <> "" -> Str.strip w = w -> ~ In w keywords ->
    ss_categories s' = Some (dict_setitem d name (keywords ++ [w])) ->
    category_file s' = Some (dict_setitem d name (keywords ++ [w])) ->
    store_change s s'
| change_add s s' d name :
    ss_categories s = Some d ->
    name <> "" -> ~ In name (keys d) ->
    ss_categories s' = Some (d ++ [(name, [])]) ->
    category_file s' = Some (d ++ [(name, [])]) ->
    store_change s s'.

Inductive evolves : State -> State -> Prop :=
| evolves_refl s : evolves s s
| evolves_step s1 s2 s3 : evolves s1 s2 -> store_change s2 s3 -> evolves s1 s3.

(** A statement changes store and file only in these ways, however it
    ends. *)
Definition moves {A} (m : M A) : Prop := forall s, evolves s (fst (m s)).

(** Store and file agree: the file holds the store, or there is no file
    and the store is the initial one. *)
Definition consistent (s : State) : Prop :=
  exists d, ss_categories s = Some d /\
            (category_file s = Some d \/
             (category_file s = None /\ d = [(Uncategorized, [])])).

(** Use of the program from a state on: runs of the script, some of them
    in a new session. *)
Inductive runs {pandas : Pandas} : State -> State -> Prop :=
| runs_none s : runs s s
| runs_run inp s0 s : runs s0 s -> runs s0 (fst (script inp s))
| runs_restart inp s0 s : runs s0 s -> runs s0 (fst (script inp (new_session s))).

(** Keywords as the program stores them: not empty, trimmed, each once
    in its list. *)
Definition tidy_keywords (keywords : list string) : Prop :=
  NoDup keywords /\ forall w, In w keywords -> w <> "" /\ Str.strip w = w.

Definition tidy (d : dict) : Prop :=
  forall name keywords, In (name, keywords) d -> tidy_keywords keywords.

(** [d'] has all of [d]: the same categories first, in the same order,
    and for each of them the same keywords first. *)
Definition dict_extends (d d' : dict) : Prop :=
  (exists added, keys d' = keys d ++ added) /\
  forall name keywords,
    dict_lookup d name = Some keywords ->
    exists more, dict_lookup d' name = Some (keywords ++ more).

(** A cell that holds NaN, the one Python object that [==] does not
    find equal to itself. *)
Definition cell_is_nan (v : cell) : bool :=
  match v with
  | CNum x => is_nan x
  | _ => false
  end.

(** A store with an empty category "Groceries", saved; and a run in
    which the user loads the sample statement, moves its first row to
    "Groceries" in the editor and applies the change. *)
Definition groceries_store : dict := [(Uncategorized, []); ("Groceries", [])].

Definition groceries_state : State :=
  mkState (Some groceries_store) None None (Some groceries_store) [].

Definition move_first_row : Inputs :=
  mkInputs (Some (Ok table_with_kind)) "" false
           (fun shown => at_set shown 0 "Category" (CStr "Groceries")) true.

(** What the [except] clause of [load_transactions] makes of an
    exception raised in state [s]. *)
Definition reported (s : State) (e : exn) : State * outcome (option DataFrame) :=
  match e with
  | RerunException => (s, Raise RerunException)
  | _ => (with_page s [StError e], Ok None)
  end.

(** The body of the loop over the edited rows, as a function of the two
    cells it reads from the row. *)
Definition reclassify_with (idx : nat) (category details : outcome cell) : M unit :=
  new_category <- lift category ;;
  debits_df <- get_debits_df ;;
  stored <- lift (at_get debits_df idx "Category") ;;
  if cell_eqb new_category stored then ret tt
  else
    details <- lift details ;;
    debits_df <- get_debits_df ;;
    put_debits_df (at_set debits_df idx "Category" new_category) ;;
    add_keyword_to_category new_category details ;;
    ret tt.
(** ** Facts about frames *)

Section FrameFacts.

Lemma mem_In x l : Str.mem x l = true <-> In x l.
Proof.
  unfold Str.mem. rewrite existsb_exists. split.
  - intros [y [Hy He]]. apply String.eqb_eq in He. now subst.
  - intros H. exists x. split; [exact H | apply String.eqb_refl].
Qed.

Lemma mem_false x l : Str.mem x l = false <-> ~ In x l.
Proof.
  rewrite <- mem_In. destruct (Str.mem x l); split; congruence.
Qed.


Lemma find_column_set_eq cols name c :
  find_column (set_column cols name c) name = Some c.
Proof.
  induction cols as [|[n c'] cols IH]; simpl.
  - now rewrite String.eqb_refl.
  - destruct (String.eqb_spec n name) as [->|Hne]; simpl.
    + now rewrite String.eqb_refl.
    + apply String.eqb_neq in Hne. now rewrite Hne.
Qed.

Lemma find_column_set_ne cols name name' c :
  name <> name' ->
  find_column (set_column cols name c) name' = find_column cols name'.
Proof.
  intros Hne. induction cols as [|[n c'] cols IH]; simpl.
  - apply String.eqb_neq in Hne. now rewrite Hne.
  - destruct (String.eqb_spec n name) as [->|Hn]; simpl.
    + apply String.eqb_neq in Hne. now rewrite Hne.
    + now rewrite IH.
Qed.

Lemma update_set_column cols name c f :
  update_column (set_column cols name c) name f = set_column cols name (f c).
Proof.
  induction cols as [|[n c'] cols IH]; simpl.
  - now rewrite String.eqb_refl.
  - destruct (String.eqb_spec n name) as [->|Hn]; simpl.
    + now rewrite String.eqb_refl.
    + apply String.eqb_neq in Hn. now rewrite Hn, IH.
Qed.

Lemma set_column_lengths cols name c n :
  Forall (fun nc : string * column => length (cells (snd nc)) = n) cols ->
  length (cells c) = n ->
  Forall (fun nc : string * column => length (cells (snd nc)) = n)
         (set_column cols name c).
Proof.
  intros Hall Hc. induction Hall as [|[m c'] cols Hm Hall IH]; simpl.
  - constructor; [exact Hc | constructor].
  - destruct (m =? name)%string; constructor; auto.
Qed.

(** With every column long enough, the row at [pos] holds, under each
    name, the cell of the first column of that name. *)
Lemma series_lookup_row cols pos name :
  Forall (fun nc : string * column => pos < length (cells (snd nc)))%nat cols ->
  series_lookup
    (flat_map (fun nc : string * column =>
                 match nth_error (cells (snd nc)) pos with
                 | Some v => [(fst nc, v)]
                 | None => []
                 end) cols) name
  = match find_column cols name with
    | Some c => nth_error (cells c) pos
    | None => None
    end.
Proof.
  induction 1 as [|[n c] cols Hlt Hall IH]; simpl; [reflexivity|].
  simpl in Hlt. apply nth_error_Some in Hlt.
  destruct (nth_error (cells c) pos) as [v|] eqn:E; [|congruence].
  simpl. destruct (n =? name)%string; [now rewrite E | exact IH].
Qed.

Lemma label_pos_app pre l post :
  ~ In l pre -> label_pos (pre ++ l :: post) l = Some (length pre).
Proof.
  induction pre as [|x pre IH]; simpl; intros Hnin.
  - now rewrite Nat.eqb_refl.
  - destruct (Nat.eqb_spec x l) as [->|Hne]; [tauto|].
    rewrite IH by tauto. reflexivity.
Qed.

Lemma list_set_app {A} (a b : list A) x v :
  list_set (a ++ x :: b) (length a) v = a ++ v :: b.
Proof.
  induction a as [|y a IH]; simpl; [reflexivity | now rewrite IH].
Qed.

Lemma map_nth_seq {A} (l : list A) (d : A) :
  map (fun i => nth i l d) (seq 0 (length l)) = l.
Proof.
  induction l as [|x l IH]; simpl; [reflexivity|].
  f_equal. rewrite <- seq_shift, map_map. exact IH.
Qed.

Lemma for_each_ext_in {X S} (xs : list X) (s : S) (f g : X -> S -> outcome S) :
  (forall x s', In x xs -> f x s' = g x s') ->
  for_each xs s f = for_each xs s g.
Proof.
  revert s. induction xs as [|x xs IH]; simpl; intros s Hfg; [reflexivity|].
  rewrite Hfg by now left.
  destruct (g x s); simpl; [apply IH; intros; apply Hfg; now right | reflexivity].
Qed.

Lemma for_each_combine_map {L R R' S} (g : R -> R') (body : L -> R' -> S -> outcome S)
  (ls : list L) (rs : list R) (s : S) :
  for_each (combine ls (map g rs)) s (fun '(l, r') => body l r')
  = for_each (combine ls rs) s (fun '(l, r) => body l (g r)).
Proof.
  revert rs s. induction ls as [|l ls IH]; intros [|r rs] s; simpl; try reflexivity.
  destruct (body l (g r) s); simpl; [apply IH | reflexivity].
Qed.

End FrameFacts.

(** ** Facts about [lower] and [strip] *)

Section StringFacts.

Lemma is_space_lower_char (c : ascii) :
  Str.is_space (Str.lower_char c) = Str.is_space c.
Proof.
  destruct c as [[] [] [] [] [] [] [] []]; reflexivity.
Qed.

Lemma lower_lstrip (s : string) :
  Str.lower (Str.lstrip s) = Str.lstrip (Str.lower s).
Proof.
  induction s as [|c s IH]; simpl; [reflexivity|].
  rewrite is_space_lower_char. destruct (Str.is_space c); [exact IH | reflexivity].
Qed.

Lemma lower_rstrip (s : string) :
  Str.lower (Str.rstrip s) = Str.rstrip (Str.lower s).
Proof.
  induction s as [|c s IH]; simpl; [reflexivity|].
  rewrite <- IH, is_space_lower_char.
  destruct (Str.rstrip s) as [|c' r]; simpl.
  - destruct (Str.is_space c); reflexivity.
  - reflexivity.
Qed.

Lemma lower_strip (s : string) :
  Str.lower (Str.strip s) = Str.strip (Str.lower s).
Proof. unfold Str.strip. now rewrite lower_rstrip, lower_lstrip. Qed.

Lemma rstrip_idem (s : string) : Str.rstrip (Str.rstrip s) = Str.rstrip s.
Proof.
  induction s as [|c s IH]; simpl; [reflexivity|].
  destruct (Str.rstrip s) as [|c' r] eqn:E.
  - destruct (Str.is_space c) eqn:Hc; simpl; [reflexivity | now rewrite Hc].
  - remember (String c' r) as t eqn:Et. simpl. rewrite IH. now subst t.
Qed.

(** A string that does not start with white space keeps its first
    character under [rstrip], unless nothing is left. *)
Lemma lstrip_rstrip_head (c : ascii) (s : string) :
  Str.is_space c = false ->
  Str.lstrip (Str.rstrip (String c s)) = Str.rstrip (String c s).
Proof.
  intros Hc. simpl. destruct (Str.rstrip s); simpl; rewrite ?Hc; simpl; now rewrite ?Hc.
Qed.

Lemma lstrip_head (s : string) :
  match Str.lstrip s with
  | String c _ => Str.is_space c = false
  | EmptyString => True
  end.
Proof.
  induction s as [|c s IH]; simpl; [exact I|].
  destruct (Str.is_space c) eqn:Hc; [exact IH | exact Hc].
Qed.

Lemma strip_idem (s : string) : Str.strip (Str.strip s) = Str.strip s.
Proof.
  unfold Str.strip. pose proof (lstrip_head s) as H.
  destruct (Str.lstrip s) as [|c r]; [reflexivity|].
  rewrite lstrip_rstrip_head by exact H. apply rstrip_idem.
Qed.

(** A keyword stored trimmed normalises like the text it was taken
    from. *)
Lemma normalize_strip (s : string) : normalize (Str.strip s) = normalize s.
Proof.
  unfold normalize. now rewrite lower_strip, strip_idem.
Qed.

End StringFacts.

(** ** What the classification loops compute *)

Section Classification.

Variable df : DataFrame.
Variable details : list string.
Variable col : column.
Hypothesis Hwf : frame_wf df.
Hypothesis Hcol : find_column (columns df) "Details" = Some col.
Hypothesis Hcells : cells col = map CStr details.

Lemma details_length : length details = nrows df.
Proof.
  destruct Hwf as [_ Hall].
  assert (H : forall cols, Forall (fun nc : string * column =>
                 length (cells (snd nc)) = nrows df) cols ->
            find_column cols "Details" = Some col ->
            length (cells col) = nrows df).
  { induction 1 as [|[n c] cols Hn _ IH]; simpl; [discriminate|].
    destruct (n =? "Details")%string; [intros [= <-]; exact Hn | exact IH]. }
  specialize (H _ Hall Hcol). rewrite Hcells, length_map in H. exact H.
Qed.

Lemma labelled_row cs pos :
  length cs = nrows df -> (pos < nrows df)%nat ->
  series_getitem (row_at (labelled df cs) pos) "Details"
  = Ok (CStr (nth pos details "")).
Proof.
  intros Hcs Hpos. unfold series_getitem, row_at.
  rewrite series_lookup_row.
  - simpl. rewrite find_column_set_ne by discriminate. rewrite Hcol, Hcells.
    rewrite nth_error_map.
    rewrite (nth_error_nth' details "") by (rewrite details_length; exact Hpos).
    reflexivity.
  - simpl. destruct Hwf as [_ Hall].
    eapply Forall_impl; [| apply set_column_lengths with (n := nrows df);
                           [exact Hall | exact Hcs]].
    simpl. intros nc ->. exact Hpos.
Qed.

Lemma inner_rows category lowered post :
  forall dpost cpost pre cpre,
    index df = pre ++ post ->
    length dpost = length post -> length cpost = length post ->
    length cpre = length pre ->
    for_each (combine post dpost) (labelled df (cpre ++ cpost))
             (fun '(idx, d) => row_body category lowered idx d)
    = Ok (labelled df (cpre ++ map (relabel category lowered) (combine dpost cpost))).
Proof.
  induction post as [|l post IH]; intros dpost cpost pre cpre Hidx Hd Hc Hpre.
  - destruct dpost; [|discriminate]. destruct cpost; [|discriminate]. reflexivity.
  - destruct dpost as [|d dpost]; [discriminate|].
    destruct cpost as [|c cpost]; [discriminate|].
    simpl in Hd, Hc. injection Hd as Hd. injection Hc as Hc.
    assert (Hnin : ~ In l pre).
    { destruct Hwf as [Hnd _]. rewrite Hidx in Hnd.
      apply NoDup_remove_2 in Hnd. intros Hin. apply Hnd, in_or_app. now left. }
    assert (Hset : at_set (labelled df (cpre ++ c :: cpost)) l "Category"
                          (CStr category)
                   = labelled df ((cpre ++ [CStr category]) ++ cpost)).
    { unfold at_set, labelled, setitem. simpl. rewrite Hidx.
      rewrite label_pos_app by exact Hnin. f_equal.
      rewrite update_set_column. simpl. rewrite <- Hpre, list_set_app.
      now rewrite <- app_assoc. }
    cbn [combine for_each map].
    change (relabel category lowered (d, c))
      with (if Str.mem (Str.strip (Str.lower d)) lowered then CStr category else c).
    unfold row_body at 1.
    destruct (Str.mem (Str.strip (Str.lower d)) lowered); cbn [obind].
    + rewrite Hset.
      rewrite (IH dpost cpost (pre ++ [l]) (cpre ++ [CStr category])).
      * now rewrite <- !app_assoc.
      * now rewrite <- app_assoc.
      * exact Hd.
      * exact Hc.
      * rewrite !length_app. simpl. lia.
    + replace (cpre ++ c :: cpost) with ((cpre ++ [c]) ++ cpost)
        by now rewrite <- app_assoc.
      rewrite (IH dpost cpost (pre ++ [l]) (cpre ++ [c])).
      * now rewrite <- !app_assoc.
      * now rewrite <- app_assoc.
      * exact Hd.
      * exact Hc.
      * rewrite !length_app. simpl. lia.
Qed.

(** The inner loop of the program, over [iterrows]. *)
Lemma inner_loop category lowered cs :
  length cs = nrows df ->
  for_each (iterrows (labelled df cs)) (labelled df cs)
    (fun '(idx, row) f =>
       (d <- series_getitem row "Details" ;;
        d <- cell_lower d ;;
        let details := Str.strip d in
        if Str.mem details lowered
        then Ok (at_set f idx "Category" (CStr category))
        else Ok f)%outcome)
  = Ok (labelled df (map (relabel category lowered) (combine details cs))).
Proof.
  intros Hcs. unfold iterrows.
  change (nrows (labelled df cs)) with (nrows df).
  change (index (labelled df cs)) with (index df).
  rewrite (for_each_combine_map (row_at (labelled df cs))
             (fun idx row f =>
                (d <- series_getitem row "Details" ;;
                 d <- cell_lower d ;;
                 let details := Str.strip d in
                 if Str.mem details lowered
                 then Ok (at_set f idx "Category" (CStr category))
                 else Ok f)%outcome)).
  rewrite (for_each_ext_in _ _ _
             (fun '(idx, pos) => row_body category lowered idx (nth pos details ""))).
  - rewrite <- (for_each_combine_map (fun pos => nth pos details "")
                  (row_body category lowered)).
    rewrite <- details_length, map_nth_seq.
    apply (inner_rows category lowered (index df) details cs [] []);
      auto using details_length.
  - intros [idx pos] f Hin. apply in_combine_r, in_seq in Hin.
    rewrite labelled_row by (auto; lia). reflexivity.
Qed.

(** One rule applied to the current category of a description. *)
Lemma relabel_rule category keywords (ds : list string) :
  forall cur : list string,
  rule_active category keywords = true ->
  map (relabel category (map (fun k => Str.strip (Str.lower k)) keywords))
      (combine ds (map CStr cur))
  = map CStr (map (fun dc : string * string =>
                     if rule_matches (fst dc) category keywords
                     then category else snd dc) (combine ds cur)).
Proof.
  intros cur Hact. revert cur.
  induction ds as [|d ds IH]; intros [|c cur]; simpl; try reflexivity.
  rewrite IH. f_equal. unfold relabel, rule_matches, normalize. simpl.
  rewrite Hact. simpl.
  now destruct (Str.mem _ _).
Qed.

Lemma inactive_rule category keywords (ds cur : list string) :
  length ds = length cur ->
  rule_active category keywords = false ->
  map (fun dc : string * string =>
         if rule_matches (fst dc) category keywords then category else snd dc)
      (combine ds cur) = cur.
Proof.
  intros Hlen Hact. revert cur Hlen.
  induction ds as [|d ds IH]; intros [|c cur] Hlen; simpl in *;
    try reflexivity; try discriminate.
  unfold rule_matches at 1. rewrite Hact. simpl. f_equal. apply IH. lia.
Qed.

(** The outer loop: every rule of the store, oldest first. *)
Lemma outer_loop categories :
  forall cur : list string,
  length cur = nrows df ->
  for_each categories (labelled df (map CStr cur))
    (fun '(category, keywords) f =>
       if (category =? Uncategorized)%string || is_nil keywords then Ok f
       else
         let lowered_keywords :=
           map (fun keyword => Str.strip (Str.lower keyword)) keywords in
         for_each (iterrows f) f (fun '(idx, row) f =>
           (d <- series_getitem row "Details" ;;
            d <- cell_lower d ;;
            let details := Str.strip d in
            if Str.mem details lowered_keywords
            then Ok (at_set f idx "Category" (CStr category))
            else Ok f)%outcome))
  = Ok (labelled df
          (map CStr
             (map (fun dc : string * string =>
                     fold_left (fun current '(category, keywords) =>
                                  if rule_matches (fst dc) category keywords
                                  then category else current)
                               categories (snd dc))
                  (combine details cur)))).
Proof.
  induction categories as [|[category keywords] categories IH]; intros cur Hcur.
  - simpl. do 2 f_equal. f_equal.
    rewrite <- details_length in Hcur. clear - Hcur. revert cur Hcur.
    induction details as [|d ds IH]; intros [|c cur] H; simpl in *;
      try reflexivity; try discriminate.
    f_equal. apply IH. lia.
  - cbn [for_each].
    destruct ((category =? Uncategorized)%string || is_nil keywords) eqn:Hskip.
    + cbn [obind]. rewrite IH by exact Hcur. do 3 f_equal.
      apply map_ext. intros [d c]. cbn [fold_left fst snd].
      replace (rule_matches d category keywords) with false; [reflexivity|].
      unfold rule_matches, rule_active. now rewrite Hskip.
    + rewrite inner_loop by (now rewrite length_map).
      cbn [obind]. rewrite relabel_rule by (unfold rule_active; now rewrite Hskip).
      rewrite IH.
      * do 3 f_equal.
        assert (Hlen : length details = length cur)
          by (rewrite details_length; now symmetry).
        clear - Hlen. revert cur Hlen.
        induction details as [|d ds IHd]; intros [|c cur] H; simpl in *;
          try reflexivity; try discriminate.
        f_equal. apply IHd. lia.
      * rewrite length_map, length_combine, details_length, Hcur. lia.
Qed.

Lemma classify_repeat categories (ds : list string) :
  map (fun dc : string * string =>
         fold_left (fun current '(category, keywords) =>
                      if rule_matches (fst dc) category keywords
                      then category else current)
                   categories (snd dc))
      (combine ds (repeat Uncategorized (length ds)))
  = map (classify_details categories) ds.
Proof.
  induction ds as [|d ds IH]; simpl; [reflexivity | now rewrite IH].
Qed.

(** [categories_transactions] returns, and leaves on every row the
    category that [classify_details] gives for the row's description. *)
Lemma categories_transactions_spec categories :
  categories_transactions categories df
  = Ok (labelled df (map CStr (map (classify_details categories) details))).
Proof.
  unfold categories_transactions.
  change (setitem df "Category" (ObjCol (repeat (CStr Uncategorized) (nrows df))))
    with (labelled df (repeat (CStr Uncategorized) (nrows df))).
  replace (repeat (CStr Uncategorized) (nrows df))
    with (map CStr (repeat Uncategorized (nrows df)))
    by (now rewrite map_repeat).
  rewrite outer_loop by apply repeat_length.
  rewrite <- details_length, classify_repeat. reflexivity.
Qed.

Lemma label_pos_nth (idx : list nat) i :
  NoDup idx -> (i < length idx)%nat -> label_pos idx (nth i idx 0%nat) = Some i.
Proof.
  intros Hnd Hi.
  destruct (nth_split idx 0%nat Hi) as (pre & post & Heq & Hlen).
  rewrite Heq at 1. rewrite Heq in Hnd. apply NoDup_remove_2 in Hnd.
  rewrite label_pos_app; [now rewrite Hlen|].
  intros Hin. apply Hnd, in_or_app. now left.
Qed.

(** Reading the Category cell of the [i]-th row of a labelled frame. *)
Lemma labelled_at cs i v :
  nth_error cs i = Some v -> (i < nrows df)%nat ->
  at_get (labelled df cs) (nth i (index df) 0%nat) "Category" = Ok v.
Proof.
  intros Hv Hi. unfold at_get. simpl.
  rewrite label_pos_nth by (try apply Hwf; exact Hi).
  unfold getitem. simpl. rewrite find_column_set_eq. simpl. now rewrite Hv.
Qed.

End Classification.

(** ** Properties of the decision for one description *)

Section Decision.

Variable details : string.

Let step (current : string) (rule : string * list string) : string :=
  let '(category, keywords) := rule in
  if rule_matches details category keywords then category else current.

Lemma classify_details_app (pre post : dict) :
  classify_details (pre ++ post) details
  = fold_left step post (classify_details pre details).
Proof. unfold classify_details. now rewrite fold_left_app. Qed.

Lemma no_match_keeps (post : dict) (current : string) :
  (forall c ks, In (c, ks) post -> rule_matches details c ks = false) ->
  fold_left step post current = current.
Proof.
  revert current. induction post as [|[c ks] post IH]; intros current H; simpl.
  - reflexivity.
  - rewrite (H c ks) by now left. apply IH. intros c' ks' Hin. apply H. now right.
Qed.

Lemma rule_matches_iff (category : string) (keywords : list string) :
  rule_matches details category keywords = true
  <-> category <> Uncategorized /\ keyword_equal details keywords.
Proof.
  unfold rule_matches, rule_active, keyword_equal.
  rewrite andb_true_iff, negb_true_iff, orb_false_iff, mem_In, in_map_iff.
  rewrite String.eqb_neq. split.
  - intros [[Hne _] [k [Hk Hin]]]. split; [exact Hne | now exists k].
  - intros [Hne [k [Hin Hk]]]. split; [split; [exact Hne|] | now exists k].
    destruct keywords; [contradiction | reflexivity].
Qed.

(** The decision is either the fallback, with no rule matching, or the
    category of a matching rule after which no rule matches. *)
Lemma classify_details_cases (categories : dict) :
  (classify_details categories details = Uncategorized /\
   forall c ks, In (c, ks) categories -> rule_matches details c ks = false)
  \/
  (exists pre c ks post,
      categories = pre ++ (c, ks) :: post /\
      rule_matches details c ks = true /\
      (forall c' ks', In (c', ks') post -> rule_matches details c' ks' = false) /\
      classify_details categories details = c).
Proof.
  induction categories as [|[c ks] categories IH] using rev_ind.
  - left. split; [reflexivity | intros c ks []].
  - rewrite classify_details_app. simpl.
    destruct (rule_matches details c ks) eqn:Hm.
    + right. exists categories, c, ks, []. repeat split; auto. intros c' ks' [].
    + destruct IH as [[HU Hno] | (pre & c0 & ks0 & post & Heq & Hm0 & Hpost & Hres)].
      * left. split; [exact HU|]. intros c' ks' Hin.
        apply in_app_or in Hin. destruct Hin as [Hin | [[= <- <-] | []]]; auto.
      * right. exists pre, c0, ks0, (post ++ [(c, ks)]). repeat split.
        -- rewrite Heq, <- app_assoc. reflexivity.
        -- exact Hm0.
        -- intros c' ks' Hin. apply in_app_or in Hin.
           destruct Hin as [Hin | [[= <- <-] | []]]; auto.
        -- exact Hres.
Qed.

Lemma classify_details_last (pre post : dict) (B : string) (keywords : list string) :
  rule_matches details B keywords = true ->
  (forall c ks, In (c, ks) post -> rule_matches details c ks = false) ->
  classify_details (pre ++ (B, keywords) :: post) details = B.
Proof.
  intros Hm Hpost. rewrite classify_details_app. simpl. rewrite Hm.
  now apply no_match_keeps.
Qed.

End Decision.

(** The decision when the last matching category is known. *)
Lemma last_match_decides (pre post : dict) (B : string) (keywords : list string)
  (d : string) :
  B <> Uncategorized ->
  keyword_equal d keywords ->
  (forall c ks, In (c, ks) post -> c = Uncategorized \/ ~ keyword_equal d ks) ->
  classify_details (pre ++ (B, keywords) :: post) d = B.
Proof.
  intros HB Hkw Hpost. apply classify_details_last.
  - apply rule_matches_iff. now split.
  - intros c ks Hin.
    destruct (rule_matches d c ks) eqn:Hm; [|reflexivity].
    exfalso. apply rule_matches_iff in Hm. destruct Hm as [Hne Heq].
    destruct (Hpost c ks Hin) as [HU | Hno]; [contradiction | now elim Hno].
Qed.

Lemma frame_of_details_wf (details : list string) :
  frame_wf (frame_of_details details).
Proof.
  split; simpl.
  - apply seq_NoDup.
  - constructor; [|constructor]. simpl. unfold nrows. simpl.
    now rewrite length_map, length_seq.
Qed.

(** Classification of a well-formed frame with a text Details column:
    the row at position [i] gets the decision for its description. *)
Lemma category_after_spec (categories : dict) (df : DataFrame) (col : column)
  (details : list string) (i : nat) (d : string) :
  frame_wf df ->
  find_column (columns df) "Details" = Some col ->
  cells col = map CStr details ->
  nth_error details i = Some d ->
  category_after categories df (nth i (index df) 0%nat)
  = Ok (CStr (classify_details categories d)).
Proof.
  intros Hwf Hcol Hcells Hd. unfold category_after.
  rewrite (categories_transactions_spec df details col Hwf Hcol Hcells). simpl.
  apply (labelled_at df Hwf).
  - rewrite !nth_error_map, Hd. reflexivity.
  - rewrite <- (details_length df details col Hwf Hcol Hcells).
    apply nth_error_Some. congruence.
Qed.

(** ** Tie-break between categories *)

(** C1, at an input where it fails. Categories "A" (inserted first) and
    "Uncategorized" (inserted second) both hold the keyword "coffee"; the
    row with Details "Coffee" is given "A", not the later category: the
    loop skips the "Uncategorized" entry of the store. *)
Lemma tie_break_skips_uncategorized :
  let store : dict := [("A", ["coffee"]); (Uncategorized, ["coffee"])] in
  let df := frame_of_details ["Coffee"] in
  category_after store df 0 = Ok (CStr "A") /\
  category_after store df 0 <> Ok (CStr Uncategorized).
Proof.
  split; [reflexivity | discriminate].
Qed.

(** C1 (amended): last match wins. Let the store hold, anywhere after
    other categories [pre], a category [B] other than "Uncategorized" one
    of whose keywords equals, after lower-casing and trimming, the
    lower-cased and trimmed Details of a row, and let no category
    inserted after [B] (other than "Uncategorized") hold such a keyword.
    Then classification returns and the row's Category is [B], whatever
    the categories before [B] hold. In particular with "coffee" under
    both A and B, A first, a row "Coffee" is given B. *)
Theorem classify_last_match_wins :
  forall (pre post : dict) (B : string) (keywords : list string)
         (df : DataFrame) (col : column) (details : list string)
         (i : nat) (d : string),
    frame_wf df ->
    find_column (columns df) "Details" = Some col ->
    cells col = map CStr details ->
    nth_error details i = Some d ->
    B <> Uncategorized ->
    keyword_equal d keywords ->
    (forall c ks, In (c, ks) post -> c = Uncategorized \/ ~ keyword_equal d ks) ->
    category_after (pre ++ (B, keywords) :: post) df (nth i (index df) 0%nat)
    = Ok (CStr B).
Proof.
  intros pre post B keywords df col details i d Hwf Hcol Hcells Hd HB Hkw Hpost.
  rewrite (category_after_spec _ df col details i d) by assumption.
  do 2 f_equal. apply classify_details_last.
  - apply rule_matches_iff. now split.
  - intros c ks Hin.
    destruct (rule_matches d c ks) eqn:Hm; [|reflexivity].
    apply rule_matches_iff in Hm. destruct Hm as [Hne Heq].
    destruct (Hpost c ks Hin) as [HU | Hno]; [contradiction | now elim Hno].
Qed.

Lemma classify_last_match_wins_witness :
  category_after ([("A", ["coffee"])] ++ ("B", ["coffee"]) :: [])
                 (frame_of_details ["Coffee"]) 0
  = Ok (CStr "B").
Proof.
  apply (classify_last_match_wins
           [("A", ["coffee"])] [] "B" ["coffee"]
           (frame_of_details ["Coffee"])
           (ObjCol [CStr "Coffee"]) ["Coffee"] 0 "Coffee").
  - apply frame_of_details_wf.
  - reflexivity.
  - reflexivity.
  - reflexivity.
  - discriminate.
  - exists "coffee". split; [simpl; tauto | reflexivity].
  - intros c ks [].
Defined.

(** ** Exact match *)

(** C7: a row's Category after classification is other than
    "Uncategorized" exactly when some category other than
    "Uncategorized" has a keyword that, lower-cased and trimmed, is
    equal to the row's lower-cased and trimmed Details. A description
    that merely contains a keyword stays "Uncategorized". *)
Theorem classify_exact_match :
  forall (categories : dict) (df : DataFrame) (col : column)
         (details : list string) (i : nat) (d : string),
    frame_wf df ->
    find_column (columns df) "Details" = Some col ->
    cells col = map CStr details ->
    nth_error details i = Some d ->
    exists c,
      category_after categories df (nth i (index df) 0%nat) = Ok (CStr c) /\
      (c <> Uncategorized <->
       exists category keywords,
         In (category, keywords) categories /\
         category <> Uncategorized /\
         keyword_equal d keywords).
Proof.
  intros categories df col details i d Hwf Hcol Hcells Hd.
  exists (classify_details categories d). split.
  - now apply (category_after_spec _ df col details).
  - destruct (classify_details_cases d categories)
      as [[HU Hno] | (pre & c & ks & post & Heq & Hm & Hpost & Hres)].
    + rewrite HU. split; [congruence|].
      intros (category & keywords & Hin & Hne & Hkw).
      assert (Hm : rule_matches d category keywords = true)
        by (apply rule_matches_iff; now split).
      rewrite (Hno _ _ Hin) in Hm. discriminate.
    + rewrite Hres. apply rule_matches_iff in Hm. destruct Hm as [Hne Hkw].
      split; [|intros _; exact Hne].
      intros _. exists c, ks. repeat split; auto.
      rewrite Heq. apply in_or_app. right. now left.
Qed.

Lemma classify_exact_match_witness :
  exists c,
    category_after [(Uncategorized, []); ("Drinks", ["coffee"])]
                   (frame_of_details ["Starbucks Coffee"; " COFFEE "]) 1
    = Ok (CStr c) /\
    (c <> Uncategorized <->
     exists category keywords,
       In (category, keywords) [(Uncategorized, []); ("Drinks", ["coffee"])] /\
       category <> Uncategorized /\
       keyword_equal " COFFEE " keywords).
Proof.
  apply (classify_exact_match
           [(Uncategorized, []); ("Drinks", ["coffee"])]
           (frame_of_details ["Starbucks Coffee"; " COFFEE "])
           (ObjCol [CStr "Starbucks Coffee"; CStr " COFFEE "])
           ["Starbucks Coffee"; " COFFEE "] 1 " COFFEE ").
  - apply frame_of_details_wf.
  - reflexivity.
  - reflexivity.
  - reflexivity.
Defined.

(** A description that contains the keyword without being equal to it. *)
Example substring_is_not_a_match :
  category_after [(Uncategorized, []); ("Drinks", ["coffee"])]
                 (frame_of_details ["Starbucks Coffee"; " COFFEE "]) 0
  = Ok (CStr Uncategorized).
Proof. reflexivity. Qed.

(** ** The rule store *)

Lemma dict_lookup_In (d : dict) (k : string) (v : list string) :
  dict_lookup d k = Some v -> In (k, v) d.
Proof.
  induction d as [|[k' v'] d IH]; simpl; [discriminate|].
  destruct (String.eqb_spec k' k) as [->|Hne].
  - intros [= ->]. now left.
  - intros H. right. now apply IH.
Qed.

Lemma dict_lookup_app (pre post : dict) (k : string) (v : list string) :
  ~ In k (keys pre) ->
  dict_lookup (pre ++ (k, v) :: post) k = Some v.
Proof.
  induction pre as [|[k' v'] pre IH]; simpl; intros Hnin.
  - now rewrite String.eqb_refl.
  - destruct (String.eqb_spec k' k) as [->|Hne]; [tauto|]. apply IH. tauto.
Qed.

Lemma dict_setitem_app (pre post : dict) (k : string) (v v' : list string) :
  ~ In k (keys pre) ->
  dict_setitem (pre ++ (k, v) :: post) k v' = pre ++ (k, v') :: post.
Proof.
  induction pre as [|[k0 v0] pre IH]; simpl; intros Hnin.
  - now rewrite String.eqb_refl.
  - destruct (String.eqb_spec k0 k) as [->|Hne]; [tauto|].
    rewrite IH by tauto. reflexivity.
Qed.

Lemma keys_setitem (d : dict) (k k' : string) (v : list string) :
  In k' (keys d) -> In k' (keys (dict_setitem d k v)).
Proof.
  induction d as [|[k0 v0] d IH]; simpl; [tauto|].
  destruct (k0 =? k)%string; simpl; tauto.
Qed.

Lemma truthy_false (s : string) : Str.truthy s = false <-> s = "".
Proof. destruct s; simpl; split; congruence. Qed.

(** [add_keyword_to_category] on a category name and a keyword string,
    statement by statement. *)
Lemma add_keyword_to_category_unfold (s : State) (category keyword : string) :
  add_keyword_to_category (CStr category) (CStr keyword) s
  = if Str.truthy (Str.strip keyword) then
      match ss_categories s with
      | None => (s, Raise (AttributeError "categories"))
      | Some d =>
          match dict_lookup d category with
          | None => (s, Raise (KeyError (CStr category)))
          | Some keywords =>
              if Str.mem (Str.strip keyword) keywords then (s, Ok false)
              else
                let d' := dict_setitem d category (keywords ++ [Str.strip keyword]) in
                (mkState (Some d') (ss_debits_df s) (ss_credits_df s) (Some d') (page s),
                 Ok true)
          end
      end
    else (s, Ok false).
Proof.
  unfold add_keyword_to_category, bind, lift. simpl.
  destruct (Str.truthy (Str.strip keyword)); [|reflexivity].
  unfold get_categories. destruct (ss_categories s) as [d|]; [|reflexivity].
  destruct (dict_lookup d category) as [keywords|]; [|reflexivity].
  destruct (Str.mem (Str.strip keyword) keywords); reflexivity.
Qed.

(** C3, at an input where it fails: a keyword for a category that the
    store does not have. The call raises [KeyError]; it does not return
    failure. (The store is left as it was.) *)
Lemma add_keyword_missing_category_raises :
  let s := mkState (Some [(Uncategorized, [])]) None None None [] in
  add_keyword_to_category (CStr "Travel") (CStr "taxi") s
  = (s, Raise (KeyError (CStr "Travel"))) /\
  snd (add_keyword_to_category (CStr "Travel") (CStr "taxi") s) <> Ok false.
Proof.
  split; [reflexivity | discriminate].
Qed.

(** C3 (amended): [add_keyword_to_category], for a category name and a
    keyword string, first trims the keyword. It returns [False] and
    changes nothing when the trimmed keyword is empty (whether or not
    the category exists) or is already in the category's list, compared
    as it is written. When the trimmed keyword is not empty and the
    category is not in the store it raises [KeyError] and changes
    nothing. Otherwise it appends the trimmed keyword to the category's
    list, writes the store to the file and returns [True]. *)
Theorem add_keyword_to_category_cases :
  forall (s : State) (d : dict) (category keyword : string),
    ss_categories s = Some d ->
    let k := Str.strip keyword in
    (k = "" ->
     add_keyword_to_category (CStr category) (CStr keyword) s = (s, Ok false)) /\
    (k <> "" -> dict_lookup d category = None ->
     add_keyword_to_category (CStr category) (CStr keyword) s
     = (s, Raise (KeyError (CStr category)))) /\
    (forall keywords,
        k <> "" -> dict_lookup d category = Some keywords -> In k keywords ->
        add_keyword_to_category (CStr category) (CStr keyword) s = (s, Ok false)) /\
    (forall keywords,
        k <> "" -> dict_lookup d category = Some keywords -> ~ In k keywords ->
        let d' := dict_setitem d category (keywords ++ [k]) in
        add_keyword_to_category (CStr category) (CStr keyword) s
        = (mkState (Some d') (ss_debits_df s) (ss_credits_df s) (Some d') (page s),
           Ok true)).
Proof.
  intros s d category keyword Hd k.
  rewrite add_keyword_to_category_unfold. fold k. rewrite Hd.
  assert (Ht : k <> "" -> Str.truthy k = true).
  { intros Hk. destruct (Str.truthy k) eqn:Ht; [reflexivity|].
    apply truthy_false in Ht. contradiction. }
  repeat split.
  - intros Hk. now rewrite Hk.
  - intros Hk Hnone. now rewrite (Ht Hk), Hnone.
  - intros keywords Hk Hsome Hin. rewrite (Ht Hk), Hsome.
    apply mem_In in Hin. now rewrite Hin.
  - intros keywords Hk Hsome Hnin. rewrite (Ht Hk), Hsome.
    apply mem_false in Hnin. now rewrite Hnin.
Qed.

Lemma add_keyword_to_category_cases_witness :
  let s := mkState (Some [(Uncategorized, []); ("Groceries", ["milk"])])
                   None None None [] in
  add_keyword_to_category (CStr "Groceries") (CStr "  ") s = (s, Ok false) /\
  add_keyword_to_category (CStr "Groceries") (CStr " milk ") s = (s, Ok false) /\
  add_keyword_to_category (CStr "Groceries") (CStr "Milk") s
  = (mkState (Some [(Uncategorized, []); ("Groceries", ["milk"; "Milk"])])
             None None
             (Some [(Uncategorized, []); ("Groceries", ["milk"; "Milk"])]) [],
     Ok true).
Proof.
  intros s.
  pose proof (add_keyword_to_category_cases s
                [(Uncategorized, []); ("Groceries", ["milk"])]
                "Groceries" "  " eq_refl) as H1.
  pose proof (add_keyword_to_category_cases s
                [(Uncategorized, []); ("Groceries", ["milk"])]
                "Groceries" " milk " eq_refl) as H2.
  pose proof (add_keyword_to_category_cases s
                [(Uncategorized, []); ("Groceries", ["milk"])]
                "Groceries" "Milk" eq_refl) as H3.
  split; [|split].
  - apply H1. reflexivity.
  - apply (proj1 (proj2 (proj2 H2)) ["milk"]);
      [discriminate | reflexivity | simpl; tauto].
  - apply (proj2 (proj2 (proj2 H3)) ["milk"]);
      [discriminate | reflexivity |].
    simpl. intros [H | []]. discriminate.
Defined.

(** ** Reclassification *)

(** C6: when the category of an edited row equals the category stored
    for that row, the reclassification step changes nothing: the
    category store, the category file and the stored rows are the same
    afterwards. *)
Theorem reclassify_same_category_noop :
  forall (s : State) (debits_df : DataFrame) (idx : nat) (row : Series)
         (new_category stored : cell),
    series_getitem row "Category" = Ok new_category ->
    ss_debits_df s = Some debits_df ->
    at_get debits_df idx "Category" = Ok stored ->
    cell_eqb new_category stored = true ->
    reclassify_row idx row s = (s, Ok tt).
Proof.
  intros s debits_df idx row new_category stored Hrow Hdf Hat Heq.
  unfold reclassify_row, bind, lift, get_debits_df.
  rewrite Hrow, Hdf, Hat, Heq. reflexivity.
Qed.

Lemma reclassify_same_category_noop_witness :
  let s := sample_state [(Uncategorized, []); ("Groceries", [])] "Groceries" in
  reclassify_row 0 (sample_edit "Groceries") s = (s, Ok tt).
Proof.
  intros s.
  apply (reclassify_same_category_noop s (sample_debits "Groceries") 0
           (sample_edit "Groceries") (CStr "Groceries") (CStr "Groceries"));
    reflexivity.
Defined.

Lemma cell_eqb_str (name : string) (v : cell) :
  cell_eqb (CStr name) v = true <-> v = CStr name.
Proof.
  destruct v as [x| | |]; simpl; split; try congruence.
  - intros H. apply String.eqb_eq in H. now subst.
  - intros [= ->]. apply String.eqb_refl.
Qed.

(** C2, at an input where it fails. The store has "Food", inserted after
    "Groceries", with the keyword "whole foods 123". The row "WHOLE FOODS
    123", stored under "Food", is reclassified to "Groceries": its text
    becomes a keyword of "Groceries", yet a fresh classification of the
    same text gives "Food", the later category. *)
Lemma learning_shadowed_by_later_category :
  let store : dict :=
    [(Uncategorized, []); ("Groceries", []); ("Food", ["whole foods 123"])] in
  let learned : dict :=
    [(Uncategorized, []); ("Groceries", ["WHOLE FOODS 123"]);
     ("Food", ["whole foods 123"])] in
  let s' := fst (reclassify_row 0 (sample_edit "Groceries")
                                (sample_state store "Food")) in
  ss_categories s' = Some learned /\
  category_after learned (frame_of_details ["WHOLE FOODS 123"]) 0
  = Ok (CStr "Food") /\
  category_after learned (frame_of_details ["WHOLE FOODS 123"]) 0
  <> Ok (CStr "Groceries").
Proof.
  repeat split. discriminate.
Qed.

(** C2 (amended): learning. Let "Groceries" be a category of the
    store. If the Details of a row is not blank and the row's stored
    category differs from "Groceries", the reclassification step to
    "Groceries" returns and leaves the trimmed Details text among the
    keywords of "Groceries" in the store. If moreover no category
    inserted after "Groceries" (other than "Uncategorized") holds a
    keyword equal, after lower-casing and trimming, to the lower-cased
    and trimmed Details, a fresh classification under the resulting
    store gives "Groceries" to every row with the same Details. This
    holds for "WHOLE FOODS 123" in particular. *)
Theorem reclassify_learns_keyword :
  forall (s : State) (pre post : dict) (keywords : list string)
         (debits_df : DataFrame) (idx : nat) (row : Series)
         (stored : cell) (text : string),
    ss_categories s = Some (pre ++ ("Groceries", keywords) :: post) ->
    ~ In "Groceries" (keys pre) ->
    ss_debits_df s = Some debits_df ->
    series_getitem row "Category" = Ok (CStr "Groceries") ->
    series_getitem row "Details" = Ok (CStr text) ->
    Str.strip text <> "" ->
    at_get debits_df idx "Category" = Ok stored ->
    stored <> CStr "Groceries" ->
    exists s' keywords',
      reclassify_row idx row s = (s', Ok tt) /\
      ss_categories s' = Some (pre ++ ("Groceries", keywords') :: post) /\
      In (Str.strip text) keywords' /\
      ((forall c ks, In (c, ks) post -> c = Uncategorized \/ ~ keyword_equal text ks) ->
       forall (df : DataFrame) (col : column) (details : list string) (i : nat),
         frame_wf df ->
         find_column (columns df) "Details" = Some col ->
         cells col = map CStr details ->
         nth_error details i = Some text ->
         category_after (pre ++ ("Groceries", keywords') :: post) df
                        (nth i (index df) 0%nat)
         = Ok (CStr "Groceries")).
Proof.
  intros s pre post keywords debits_df idx row stored text
         Hstore Hpre Hdf Hcat Hdet Hblank Hat Hne.
  assert (Hneq : cell_eqb (CStr "Groceries") stored = false).
  { destruct (cell_eqb (CStr "Groceries") stored) eqn:E; [|reflexivity].
    apply cell_eqb_str in E. contradiction. }
  assert (Hfresh : forall keywords',
             In (Str.strip text) keywords' ->
             (forall c ks, In (c, ks) post ->
                           c = Uncategorized \/ ~ keyword_equal text ks) ->
             forall df col details i,
               frame_wf df ->
               find_column (columns df) "Details" = Some col ->
               cells col = map CStr details ->
               nth_error details i = Some text ->
               category_after (pre ++ ("Groceries", keywords') :: post) df
                              (nth i (index df) 0%nat)
               = Ok (CStr "Groceries")).
  { intros keywords' Hin Hpost df col details i Hwf Hcol Hcells Hi.
    rewrite (category_after_spec _ df col details i text) by assumption.
    do 2 f_equal. apply last_match_decides; [discriminate | | exact Hpost].
    exists (Str.strip text). split; [exact Hin | apply normalize_strip]. }
  assert (Ht : Str.truthy (Str.strip text) = true).
  { destruct (Str.truthy (Str.strip text)) eqn:E; [reflexivity|].
    apply truthy_false in E. contradiction. }
  unfold reclassify_row, bind, lift, get_debits_df.
  rewrite Hcat, Hdf, Hat, Hneq, Hdet. cbn [put_debits_df]. rewrite Hdf.
  rewrite add_keyword_to_category_unfold, Ht. cbn [ss_categories].
  rewrite Hstore, dict_lookup_app by exact Hpre.
  destruct (Str.mem (Str.strip text) keywords) eqn:Hmem.
  - apply mem_In in Hmem. eexists. exists keywords.
    split; [reflexivity|]. split; [reflexivity|]. split; [exact Hmem|].
    now apply Hfresh.
  - cbn zeta. rewrite dict_setitem_app by exact Hpre.
    eexists. exists (keywords ++ [Str.strip text]).
    split; [reflexivity|]. split; [reflexivity|].
    assert (Hin : In (Str.strip text) (keywords ++ [Str.strip text]))
      by (apply in_or_app; right; now left).
    split; [exact Hin|]. now apply Hfresh.
Qed.

Lemma reclassify_learns_keyword_witness :
  let pre : dict := [(Uncategorized, []); ("Food", ["whole foods 123"])] in
  let post : dict := [("Rent", ["rent"])] in
  exists s' keywords',
    reclassify_row 0 (sample_edit "Groceries")
      (sample_state (pre ++ ("Groceries", []) :: post) "Food")
    = (s', Ok tt) /\
    ss_categories s' = Some (pre ++ ("Groceries", keywords') :: post) /\
    In (Str.strip "WHOLE FOODS 123") keywords' /\
    category_after (pre ++ ("Groceries", keywords') :: post)
                   (frame_of_details ["RENT"; "WHOLE FOODS 123"]) 1
    = Ok (CStr "Groceries").
Proof.
  intros pre post.
  destruct (reclassify_learns_keyword
              (sample_state (pre ++ ("Groceries", []) :: post) "Food")
              pre post [] (sample_debits "Food") 0 (sample_edit "Groceries")
              (CStr "Food") "WHOLE FOODS 123")
    as (s' & keywords' & Hrun & Hstore & Hin & Hfresh).
  - reflexivity.
  - simpl. intros [H | [H | []]]; discriminate.
  - reflexivity.
  - reflexivity.
  - reflexivity.
  - discriminate.
  - reflexivity.
  - discriminate.
  - assert (Hpost : forall c ks, In (c, ks) post ->
                     c = Uncategorized \/ ~ keyword_equal "WHOLE FOODS 123" ks).
    { intros c ks [[= <- <-] | []]. right.
      intros (k & [<- | []] & Hn). discriminate. }
    exists s', keywords'.
    split; [exact Hrun|]. split; [exact Hstore|]. split; [exact Hin|].
    apply (Hfresh Hpost (frame_of_details ["RENT"; "WHOLE FOODS 123"])
                  (ObjCol [CStr "RENT"; CStr "WHOLE FOODS 123"])
                  ["RENT"; "WHOLE FOODS 123"] 1%nat).
    + apply frame_of_details_wf.
    + reflexivity.
    + reflexivity.
    + reflexivity.
Defined.

(** ** Loading a statement *)

Lemma for_each_inv {X S} (P : S -> Prop) (body : X -> S -> outcome S)
  (xs : list X) :
  (forall x s s', P s -> body x s = Ok s' -> P s') ->
  forall s s', P s -> for_each xs s body = Ok s' -> P s'.
Proof.
  intros Hbody. induction xs as [|x xs IH]; simpl; intros s s' Hs Hrun.
  - injection Hrun as <-. exact Hs.
  - destruct (body x s) as [s1|e] eqn:E; simpl in Hrun; [|discriminate].
    eapply IH; [eapply Hbody; eassumption | exact Hrun].
Qed.

Lemma find_column_update_ne cols name name' f :
  name <> name' ->
  find_column (update_column cols name f) name' = find_column cols name'.
Proof.
  intros Hne. induction cols as [|[n c] cols IH]; simpl; [reflexivity|].
  destruct (String.eqb_spec n name) as [->|Hn]; simpl.
  - apply String.eqb_neq in Hne. now rewrite Hne.
  - now rewrite IH.
Qed.

(** Classification touches the Category column only. *)
Lemma categories_transactions_frame categories df df' name :
  categories_transactions categories df = Ok df' ->
  name <> "Category" ->
  find_column (columns df') name = find_column (columns df) name.
Proof.
  intros Hrun Hne. unfold categories_transactions in Hrun.
  revert Hrun.
  apply (for_each_inv
           (fun f => find_column (columns f) name = find_column (columns df) name)).
  - intros [category keywords] f f' Hf.
    destruct ((category =? Uncategorized)%string || is_nil keywords).
    + intros [= <-]. exact Hf.
    + apply (for_each_inv
               (fun g => find_column (columns g) name
                         = find_column (columns df) name)); [|exact Hf].
      intros [idx row] g g' Hg.
      destruct (series_getitem row "Details") as [d|]; simpl; [|discriminate].
      destruct (cell_lower d) as [t|]; simpl; [|discriminate].
      destruct (Str.mem (Str.strip t) _); intros [= <-]; [|exact Hg].
      unfold at_set. destruct (label_pos (index g) idx); [|exact Hg].
      simpl. rewrite find_column_update_ne by congruence. exact Hg.
  - simpl. apply find_column_set_ne. congruence.
Qed.

Lemma traverse_nth {X Y} (f : X -> outcome Y) (xs : list X) (ys : list Y)
  (i : nat) (x : X) :
  traverse f xs = Ok ys -> nth_error xs i = Some x ->
  exists y, f x = Ok y /\ nth_error ys i = Some y.
Proof.
  revert ys i. induction xs as [|x0 xs IH]; intros ys i Hrun Hx.
  - destruct i; discriminate.
  - simpl in Hrun. destruct (f x0) as [y0|] eqn:E0; simpl in Hrun; [|discriminate].
    destruct (traverse f xs) as [ys0|] eqn:E1; simpl in Hrun; [|discriminate].
    injection Hrun as <-. destruct i as [|i]; simpl in *.
    + injection Hx as <-. now exists y0.
    + now apply IH.
Qed.

Lemma all_strings_nth (l : list cell) (ss : list string) (i : nat) (x : string) :
  all_strings l = Some ss -> nth_error l i = Some (CStr x) ->
  nth_error ss i = Some x.
Proof.
  revert ss i. induction l as [|v l IH]; intros ss i Hall Hx.
  - destruct i; discriminate.
  - destruct v as [s0| | |]; simpl in Hall; try discriminate.
    destruct (all_strings l) as [ss0|]; simpl in Hall; [|discriminate].
    injection Hall as <-. destruct i as [|i]; simpl in *.
    + now injection Hx as <-.
    + now apply IH.
Qed.

(** What a successful load went through. *)
Lemma load_transactions_ok raw s s' df :
  load_transactions (Ok raw) s = (s', Ok (Some df)) ->
  exists c texts amount dc dates categories,
    find_column (columns (strip_columns raw)) "Amount" = Some c /\
    str_accessor c = Ok texts /\
    astype_float (map Str.remove_commas texts) = Ok amount /\
    find_column (columns (strip_columns raw)) "Date" = Some dc /\
    to_datetime dc = Ok dates /\
    categories_transactions categories
      (setitem (setitem (strip_columns raw) "Amount" (NumCol amount))
               "Date" (DateCol dates)) = Ok df.
Proof.
  unfold load_transactions, try_except, bind, lift, getitem.
  destruct (find_column (columns (strip_columns raw)) "Amount") as [c|] eqn:Ec;
    [|discriminate].
  destruct (str_accessor c) as [texts|] eqn:Et; [|destruct e; discriminate].
  destruct (astype_float (map Str.remove_commas texts)) as [amount|] eqn:Ea;
    [|destruct e; discriminate].
  cbn [columns setitem]. rewrite find_column_set_ne by discriminate.
  destruct (find_column (columns (strip_columns raw)) "Date") as [dc|] eqn:Ed;
    [|discriminate].
  destruct (to_datetime dc) as [dates|] eqn:Edt; [|destruct e; discriminate].
  unfold show, get_categories. cbn [ss_categories].
  destruct (ss_categories s) as [categories|]; [|discriminate].
  destruct (categories_transactions categories _) as [df0|] eqn:Ect;
    [|destruct e; discriminate].
  intros [= _ <-].
  exists c, texts, amount, dc, dates, categories. repeat split; auto.
Qed.

(** C9: when a statement loads, a row whose Amount cell is "1,234.50"
    has the amount 1234.50 in the loaded frame (the commas go before the
    text is read as a number), and a row whose Date cell is "05 Jan 2024"
    has the date 2024-01-05 (day, abbreviated month, year). *)
Theorem parse_round_trip :
  forall (raw : DataFrame) (s s' : State) (df : DataFrame) (i : nat),
    load_transactions (Ok raw) s = (s', Ok (Some df)) ->
    (forall c,
        find_column (columns (strip_columns raw)) "Amount" = Some c ->
        nth_error (cells c) i = Some (CStr "1,234.50") ->
        exists amounts x,
          find_column (columns df) "Amount" = Some (NumCol amounts) /\
          nth_error amounts i = Some x /\ x = 1234.50%float) /\
    (forall c,
        find_column (columns (strip_columns raw)) "Date" = Some c ->
        nth_error (cells c) i = Some (CStr "05 Jan 2024") ->
        exists dates,
          find_column (columns df) "Date" = Some (DateCol dates) /\
          nth_error dates i = Some (mkDate 2024 1 5)).
Proof.
  intros raw s s' df i Hload.
  destruct (load_transactions_ok raw s s' df Hload)
    as (c & texts & amount & dc & dates & categories
        & Hc & Htexts & Hamount & Hdc & Hdates & Hclass).
  split.
  - intros c0 Hc0 Hcell. rewrite Hc in Hc0. injection Hc0 as <-.
    exists amount.
    assert (Htext : nth_error texts i = Some "1,234.50").
    { unfold str_accessor in Htexts. destruct c as [l| |]; try discriminate.
      destruct (all_strings l) as [ss|] eqn:Eall; [|discriminate].
      injection Htexts as <-. eapply all_strings_nth; eassumption. }
    destruct (traverse_nth _ _ _ i (Str.remove_commas "1,234.50") Hamount)
      as (q & Hq & Hnth).
    { now rewrite nth_error_map, Htext. }
    exists q. split; [|split; [exact Hnth|]].
    + rewrite (categories_transactions_frame _ _ _ "Amount" Hclass) by discriminate.
      cbn [columns setitem]. rewrite find_column_set_ne by discriminate.
      apply find_column_set_eq.
    + vm_compute in Hq. injection Hq as <-. reflexivity.
  - intros c0 Hc0 Hcell. rewrite Hdc in Hc0. injection Hc0 as <-.
    exists dates. split.
    + rewrite (categories_transactions_frame _ _ _ "Date" Hclass) by discriminate.
      cbn [columns setitem]. apply find_column_set_eq.
    + unfold to_datetime in Hdates.
      assert (Htr : traverse
                (fun v => match v with
                          | CStr s0 =>
                              match Parse.parse_date s0 with
                              | Some d => Ok d
                              | None => Raise (ValueError s0)
                              end
                          | CDate d => Ok d
                          | CInt _ | CNum _ => Raise (ValueError "Date")
                          end) (cells dc) = Ok dates).
      { destruct dc as [l|l|l]; try exact Hdates.
        simpl in Hcell. rewrite nth_error_map in Hcell.
        destruct (nth_error l i); discriminate. }
      destruct (traverse_nth _ _ _ i _ Htr Hcell) as (d & Hd & Hnth).
      vm_compute in Hd. injection Hd as <-. exact Hnth.
Qed.

Lemma parse_round_trip_witness :
  exists df,
    snd (load_transactions (Ok table_with_kind)
           (mkState (Some [(Uncategorized, [])]) None None None []))
    = Ok (Some df) /\
    (exists amounts x,
        find_column (columns df) "Amount" = Some (NumCol amounts) /\
        nth_error amounts 0 = Some x /\ x = 1234.50%float) /\
    (exists dates,
        find_column (columns df) "Date" = Some (DateCol dates) /\
        nth_error dates 0 = Some (mkDate 2024 1 5)).
Proof.
  destruct (load_transactions (Ok table_with_kind)
              (mkState (Some [(Uncategorized, [])]) None None None []))
    as [s' [[df|]|e]] eqn:Hload; try (vm_compute in Hload; discriminate).
  exists df. split; [reflexivity|].
  destruct (parse_round_trip table_with_kind _ s' df 0 Hload) as [Hamount Hdate].
  split.
  - apply (Hamount (ObjCol [CStr "1,234.50"; CStr "12"])); reflexivity.
  - apply (Hdate (ObjCol [CStr "05 Jan 2024"; CStr "09 Jan 2024"])); reflexivity.
Defined.

(** C10: a statement whose Amount column came in as a numeric column
    is not loaded. [load_transactions] reports the error on the page and
    returns [None]; nothing else changes. *)
Theorem load_rejects_numeric_amount :
  forall (raw : DataFrame) (s : State) (values : list float),
    find_column (columns (strip_columns raw)) "Amount" = Some (NumCol values) ->
    load_transactions (Ok raw) s
    = (mkState (ss_categories s) (ss_debits_df s) (ss_credits_df s)
               (category_file s) (page s ++ [StError (AttributeError "str")]),
       Ok None).
Proof.
  intros raw s values Hcol.
  unfold load_transactions, try_except, bind, lift, getitem.
  rewrite Hcol. reflexivity.
Qed.

Lemma load_rejects_numeric_amount_witness :
  load_transactions (Ok table_with_numeric_amount) fresh
  = (mkState None None None None [StError (AttributeError "str")], Ok None).
Proof.
  apply (load_rejects_numeric_amount table_with_numeric_amount fresh [1234.5; 12]%float).
  reflexivity.
Defined.

(** ** A statement without the Debit/Credit column *)

(** After a load that returned a frame without the column, [main] raises
    [KeyError] at line 88, outside the [try] of [load_transactions]. *)
Lemma main_without_kind_raises {pandas : Pandas} inp file s s1 df :
  current_file inp = Some file ->
  load_transactions file s = (s1, Ok (Some df)) ->
  find_column (columns df) "Debit/Credit" = None ->
  main inp s = (s1, Raise (KeyError (CStr "Debit/Credit"))).
Proof.
  intros Hfile Hload Hcol. unfold main. rewrite Hfile.
  unfold bind at 1. rewrite Hload.
  unfold bind, lift, getitem. now rewrite Hcol.
Qed.

(** C4, at the input where the program departs from it. The statement
    has Date, Details and Amount but no Debit/Credit column. Loading
    succeeds and nothing is reported with [st.error]; the run then ends
    in an uncaught [KeyError]. The transaction sets held from before are
    left as they were. *)
Theorem missing_kind_column_is_uncaught {pandas : Pandas} :
  let s := sample_state [(Uncategorized, [])] Uncategorized in
  let r := script (upload table_without_kind) s in
  snd r = Raise (KeyError (CStr "Debit/Credit")) /\
  (forall e, ~ In (StError e) (page (fst r))) /\
  ss_debits_df (fst r) = ss_debits_df s /\
  ss_credits_df (fst r) = ss_credits_df s.
Proof.
  vm_compute. repeat split.
  intros e [H | []]. discriminate.
Qed.

(** The sibling path: without the Amount column the error is caught,
    reported on the page, and the run ends normally. *)
Example missing_amount_column_is_reported {pandas : Pandas} :
  let s := sample_state [(Uncategorized, [])] Uncategorized in
  let r := script (upload table_without_amount) s in
  snd r = Ok tt /\
  page (fst r) = [StError (KeyError (CStr "Amount"))] /\
  ss_debits_df (fst r) = ss_debits_df s.
Proof.
  vm_compute. repeat split.
Qed.

(** ** The "Uncategorized" invariant *)

Section Invariant.

Lemma keeps_ret {A} (a : A) (Q : A -> Prop) : Q a -> keeps (ret a) Q.
Proof. intros Ha s Hs. split; [exact Hs | now intros a' [= <-]]. Qed.

Lemma keeps_lift {A} (o : outcome A) : keeps (lift o) anything.
Proof. intros s Hs. split; [exact Hs | now intros]. Qed.

Lemma keeps_bind {A B} (m : M A) (k : A -> M B) (Q : A -> Prop) (R : B -> Prop) :
  keeps m Q -> (forall a, Q a -> keeps (k a) R) -> keeps (bind m k) R.
Proof.
  intros Hm Hk s Hs. unfold bind. specialize (Hm s Hs).
  destruct (m s) as [s1 [a|e]]; simpl in Hm.
  - destruct Hm as [Hs1 Ha]. apply (Hk a (Ha a eq_refl) s1 Hs1).
  - split; [apply Hm | intros a H; discriminate].
Qed.

Lemma keeps_weaken {A} (m : M A) (Q R : A -> Prop) :
  keeps m Q -> (forall a, Q a -> R a) -> keeps m R.
Proof.
  intros Hm HQR s Hs. destruct (Hm s Hs) as [H1 H2].
  split; [exact H1 | intros a Ha; apply HQR, H2, Ha].
Qed.

Lemma keeps_try_except {A} (m : M A) (handler : exn -> M A) (Q : A -> Prop) :
  keeps m Q -> (forall e, keeps (handler e) Q) -> keeps (try_except m handler) Q.
Proof.
  intros Hm Hh s Hs. unfold try_except. specialize (Hm s Hs).
  destruct (m s) as [s1 [a|e]]; simpl in Hm; [exact Hm|].
  destruct Hm as [Hs1 _].
  destruct e; try apply (Hh _ s1 Hs1).
  split; [exact Hs1 | intros a H; discriminate].
Qed.

Lemma keeps_for_M {X} (xs : list X) (body : X -> M unit) :
  (forall x, keeps (body x) anything) -> keeps (for_M xs body) anything.
Proof.
  intros Hbody. induction xs as [|x xs IH]; simpl.
  - now apply keeps_ret.
  - eapply keeps_bind; [apply Hbody | intros _ _; exact IH].
Qed.

Lemma keeps_get_categories : keeps get_categories has_uncategorized.
Proof.
  intros s Hs. unfold get_categories.
  destruct Hs as [(d & Hd & HU) Hf]. rewrite Hd. simpl.
  split; [split; [now exists d | exact Hf] | now intros a [= <-]].
Qed.

Lemma keeps_put_categories (d : dict) :
  has_uncategorized d -> keeps (put_categories d) anything.
Proof.
  intros HU s [_ Hf]. split; [|now intros].
  split; [now exists d | exact Hf].
Qed.

Lemma keeps_write_file (d : dict) :
  has_uncategorized d -> keeps (write_file d) anything.
Proof.
  intros HU s [Hd _]. split; [|now intros].
  split; [exact Hd | now intros f [= <-]].
Qed.

Lemma keeps_get_debits_df : keeps get_debits_df anything.
Proof.
  intros s Hs. unfold get_debits_df.
  destruct (ss_debits_df s); (split; [exact Hs | now intros]).
Qed.

Lemma keeps_put_debits_df (df : DataFrame) : keeps (put_debits_df df) anything.
Proof. intros s Hs. split; [exact Hs | now intros]. Qed.

Lemma keeps_put_credits_df (df : DataFrame) : keeps (put_credits_df df) anything.
Proof. intros s Hs. split; [exact Hs | now intros]. Qed.

Lemma keeps_show (e : ui_event) : keeps (show e) anything.
Proof. intros s Hs. split; [exact Hs | now intros]. Qed.

Lemma keeps_save_categories : keeps save_categories anything.
Proof.
  eapply keeps_bind; [apply keeps_get_categories|].
  intros d Hd. now apply keeps_write_file.
Qed.

Lemma keeps_add_keyword_to_category (category keyword : cell) :
  keeps (add_keyword_to_category category keyword) anything.
Proof.
  unfold add_keyword_to_category.
  eapply keeps_bind; [apply keeps_lift|]. intros k _.
  destruct (Str.truthy k); [|now apply keeps_ret].
  eapply keeps_bind; [apply keeps_get_categories|]. intros d Hd.
  eapply keeps_bind; [apply keeps_lift|]. intros [name keywords] _.
  destruct (negb (Str.mem k keywords)); [|now apply keeps_ret].
  eapply keeps_bind; [apply keeps_put_categories; now apply keys_setitem|].
  intros _ _. eapply keeps_bind; [apply keeps_save_categories|].
  intros _ _. now apply keeps_ret.
Qed.

Lemma keeps_add_category (button : bool) (name : string) :
  keeps (add_category button name) anything.
Proof.
  unfold add_category.
  destruct (button && Str.truthy name); [|now apply keeps_ret].
  eapply keeps_bind; [apply keeps_get_categories|]. intros d Hd.
  destruct (negb (dict_contains d name)); [|now apply keeps_ret].
  eapply keeps_bind; [apply keeps_put_categories; now apply keys_setitem|].
  intros _ _. eapply keeps_bind; [apply keeps_save_categories|].
  intros _ _. apply keeps_lift.
Qed.

Lemma keeps_reclassify_row (idx : nat) (row : Series) :
  keeps (reclassify_row idx row) anything.
Proof.
  unfold reclassify_row.
  eapply keeps_bind; [apply keeps_lift|]. intros new_category _.
  eapply keeps_bind; [apply keeps_get_debits_df|]. intros debits _.
  eapply keeps_bind; [apply keeps_lift|]. intros stored _.
  destruct (cell_eqb new_category stored); [now apply keeps_ret|].
  eapply keeps_bind; [apply keeps_lift|]. intros details _.
  eapply keeps_bind; [apply keeps_get_debits_df|]. intros debits' _.
  eapply keeps_bind; [apply keeps_put_debits_df|]. intros _ _.
  eapply keeps_bind; [apply keeps_add_keyword_to_category|]. intros _ _.
  now apply keeps_ret.
Qed.

Lemma keeps_apply_changes (button : bool) (edited_df : DataFrame) :
  keeps (apply_changes button edited_df) anything.
Proof.
  unfold apply_changes. destruct button; [|now apply keeps_ret].
  apply keeps_for_M. intros [idx row]. apply keeps_reclassify_row.
Qed.

Lemma keeps_load_transactions (file : outcome DataFrame) :
  keeps (load_transactions file) anything.
Proof.
  unfold load_transactions. apply keeps_try_except.
  - repeat (eapply keeps_bind;
            [first [apply keeps_lift | apply keeps_show
                   | apply keeps_get_categories]
            | intros ? _]).
    now apply keeps_ret.
  - intros e. eapply keeps_bind; [apply keeps_show|]. intros _ _.
    now apply keeps_ret.
Qed.

Lemma keeps_main {pandas : Pandas} (inp : Inputs) : keeps (main inp) anything.
Proof.
  unfold main. destruct (current_file inp) as [file|]; [|now apply keeps_ret].
  eapply keeps_bind; [apply keeps_load_transactions|]. intros [df|] _;
    [|now apply keeps_ret].
  repeat (eapply keeps_bind;
          [first [apply keeps_lift | apply keeps_show
                 | apply keeps_put_debits_df | apply keeps_put_credits_df
                 | apply keeps_get_debits_df | apply keeps_add_category
                 | apply keeps_apply_changes]
          | intros ? _]).
  apply keeps_show.
Qed.

(** The first statements of a run establish the invariant. *)
Lemma init_store_ok (s : State) :
  store_ok_before s -> store_ok (fst (init s)).
Proof.
  intros [Hd Hf]. unfold init.
  destruct (ss_categories s) as [d|] eqn:Ed.
  - destruct (category_file s) as [f|] eqn:Ef; simpl.
    + split; [exists f; split; [reflexivity | now apply Hf] |].
      intros f' Hf'. simpl in Hf'. rewrite ?Ef in Hf'. injection Hf' as <-.
      now apply Hf.
    + split; [exists d; split; [exact Ed | now apply Hd] |].
      intros f' Hf'. rewrite Ef in Hf'. discriminate.
  - simpl. destruct (category_file s) as [f|] eqn:Ef; simpl.
    + split; [exists f; split; [reflexivity | now apply Hf] |].
      intros f' Hf'. simpl in Hf'. rewrite ?Ef in Hf'. injection Hf' as <-.
      now apply Hf.
    + split; [eexists; split; [reflexivity | now left] |].
      intros f' Hf'. simpl in Hf'. rewrite ?Ef in Hf'. discriminate.
Qed.

Lemma script_store_ok {pandas : Pandas} (inp : Inputs) (s : State) :
  store_ok_before s -> store_ok (fst (script inp s)).
Proof.
  intros Hs. unfold script, bind. simpl.
  assert (Hclear : store_ok_before (fst (clear_page s))) by exact Hs.
  simpl in Hclear. apply init_store_ok in Hclear.
  destruct (init _) as [s1 [[]|e]] eqn:Ei; simpl in Hclear.
  - apply (keeps_main inp s1 Hclear).
  - exact Hclear.
Qed.

Lemma store_ok_is_before (s : State) : store_ok s -> store_ok_before s.
Proof.
  intros [(d & Hd & HU) Hf]. split; [|exact Hf].
  intros d' Hd'. rewrite Hd in Hd'. now injection Hd' as <-.
Qed.

Lemma reachable_store_ok {pandas : Pandas} (s : State) : reachable s -> store_ok s.
Proof.
  induction 1 as [inp s0 [Hnone Hfile] | inp s Hr IH | inp s Hr IH].
  - apply script_store_ok. split; [|exact Hfile].
    intros d Hd. rewrite Hnone in Hd. discriminate.
  - apply script_store_ok. now apply store_ok_is_before.
  - apply script_store_ok. split.
    + intros d Hd. discriminate.
    + destruct IH as [_ Hf]. exact Hf.
Qed.

End Invariant.

(** C5, at an input where it fails. The category file holds a store
    without the key "Uncategorized". The first statements of a run load
    it as it is: the store of the session lacks the key, and adding the
    category "Uncategorized" is then not without effect: the key is
    added, the store saved and the run restarted. *)
Lemma persisted_store_without_uncategorized :
  let s0 := mkState None None None (Some [("Food", ["milk"])]) [] in
  let s := fst (init s0) in
  ss_categories s = Some [("Food", ["milk"])] /\
  ~ (exists d, ss_categories s = Some d /\ In Uncategorized (keys d)) /\
  add_category true Uncategorized s
  = (mkState (Some [("Food", ["milk"]); (Uncategorized, [])]) None None
             (Some [("Food", ["milk"]); (Uncategorized, [])]) [],
     Raise RerunException) /\
  add_category true Uncategorized s <> (s, Ok tt).
Proof.
  split; [reflexivity|]. split; [|split; [reflexivity | discriminate]].
  intros (d & Hd & HU). injection Hd as <-.
  destruct HU as [HU | []]. discriminate.
Qed.

(** C5 (amended): let the runs start from a session without a store and
    from a category file that, if there is one, has the key
    "Uncategorized". Then after the first statements of any run and
    after all that a run does (adding a category, learning keywords,
    loading a statement), in this session and in later ones, the
    category store of the session has the key "Uncategorized", and so
    has the category file once it exists; no statement of the program
    removes a key. Adding the category "Uncategorized" changes
    nothing. *)
Theorem uncategorized_invariant {pandas : Pandas} :
  forall s : State,
    reachable s ->
    (exists d, ss_categories s = Some d /\ In Uncategorized (keys d)) /\
    (forall f, category_file s = Some f -> In Uncategorized (keys f)) /\
    add_category true Uncategorized s = (s, Ok tt).
Proof.
  intros s Hr. destruct (reachable_store_ok s Hr) as [(d & Hd & HU) Hf].
  split; [now exists d|]. split; [exact Hf|].
  unfold add_category, bind, get_categories. simpl. rewrite Hd.
  unfold dict_contains. apply mem_In in HU. now rewrite HU.
Qed.

Lemma uncategorized_invariant_witness :
  let s := fst (script (pandas := left_to_right)
                       (mkInputs (Some (Ok table_with_kind)) "Food" true
                                 (fun shown => shown) false) fresh) in
  (exists d, ss_categories s = Some d /\ In Uncategorized (keys d)) /\
  (forall f, category_file s = Some f -> In Uncategorized (keys f)) /\
  add_category true Uncategorized s = (s, Ok tt).
Proof.
  intros s. apply (uncategorized_invariant (pandas := left_to_right) s).
  apply reach_first. split; [reflexivity | discriminate].
Defined.

(** A first run in which the user adds the category "Food": it goes
    after "Uncategorized", the store is saved, and the run ends with the
    rerun signal. *)
Example add_category_run {pandas : Pandas} :
  let r := script (mkInputs (Some (Ok table_with_kind)) "Food" true
                            (fun shown => shown) false) fresh in
  snd r = Raise RerunException /\
  ss_categories (fst r) = Some [(Uncategorized, []); ("Food", [])] /\
  category_file (fst r) = Some [(Uncategorized, []); ("Food", [])].
Proof. vm_compute. repeat split. Qed.

(** ** The order of float64 *)









(** ** Aggregation *)

Section Summary.

Context {pandas : Pandas}.





















End Summary.



(** ** More on classification *)

Section ClassificationMore.

Lemma for_each_skips_inactive (d : dict) (body : string -> list string -> DataFrame -> outcome DataFrame) :
  forall f : DataFrame,
    for_each d f (fun '(category, keywords) f =>
                    if (category =? Uncategorized)%string || is_nil keywords
                    then Ok f else body category keywords f)
    = for_each (active_rules d) f
        (fun '(category, keywords) f =>
           if (category =? Uncategorized)%string || is_nil keywords
           then Ok f else body category keywords f).
Proof.
  induction d as [|[category keywords] d IH]; intros f; [reflexivity|].
  cbn [active_rules filter fst snd]. unfold rule_active.
  destruct ((category =? Uncategorized)%string || is_nil keywords) eqn:Hskip;
    cbn [negb for_each].
  - rewrite Hskip. cbn [obind]. apply IH.
  - rewrite Hskip. destruct (body category keywords f); cbn [obind];
      [apply IH | reflexivity].
Qed.

Lemma categories_transactions_active (d : dict) (df : DataFrame) :
  categories_transactions d df = categories_transactions (active_rules d) df.
Proof.
  unfold categories_transactions.
  apply (for_each_skips_inactive d
           (fun category keywords f =>
              for_each (iterrows f) f (fun '(idx, row) f =>
                (d <- series_getitem row "Details" ;;
                 d <- cell_lower d ;;
                 let details := Str.strip d in
                 if Str.mem details
                      (map (fun keyword => Str.strip (Str.lower keyword)) keywords)
                 then Ok (at_set f idx "Category" (CStr category))
                 else Ok f)%outcome))).
Qed.

Lemma set_column_twice cols name c c' :
  set_column (set_column cols name c) name c' = set_column cols name c'.
Proof.
  induction cols as [|[n c0] cols IH]; simpl.
  - now rewrite String.eqb_refl.
  - destruct (String.eqb_spec n name) as [->|Hne]; simpl.
    + now rewrite String.eqb_refl.
    + apply String.eqb_neq in Hne. now rewrite Hne, IH.
Qed.

Lemma length_list_set {A} (l : list A) pos v : length (list_set l pos v) = length l.
Proof.
  revert pos. induction l as [|x l IH]; intros [|pos]; simpl; auto.
Qed.

(** Whatever classification returns is the input with a Category column
    of one cell per row. *)
Lemma categories_transactions_shape (d : dict) (df df' : DataFrame) :
  categories_transactions d df = Ok df' ->
  exists cs, df' = labelled df cs /\ length cs = nrows df.
Proof.
  unfold categories_transactions.
  apply (for_each_inv (fun f => exists cs, f = labelled df cs /\ length cs = nrows df)).
  - intros [category keywords] f f' Hf.
    destruct ((category =? Uncategorized)%string || is_nil keywords).
    + intros [= <-]. exact Hf.
    + apply (for_each_inv
               (fun g => exists cs, g = labelled df cs /\ length cs = nrows df));
        [|exact Hf].
      intros [idx row] g g' Hg.
      destruct (series_getitem row "Details") as [v|]; simpl; [|discriminate].
      destruct (cell_lower v) as [t|]; simpl; [|discriminate].
      destruct (Str.mem (Str.strip t) _); intros [= <-]; [|exact Hg].
      destruct Hg as (cs & -> & Hlen). unfold at_set.
      destruct (label_pos (index (labelled df cs)) idx) as [pos|]; [|now exists cs].
      exists (list_set cs pos (CStr category)). split.
      * unfold labelled, setitem. simpl. now rewrite update_set_column.
      * now rewrite length_list_set.
  - exists (repeat (CStr Uncategorized) (nrows df)). split; [reflexivity|].
    apply repeat_length.
Qed.

Lemma categories_transactions_relabel (d : dict) (df : DataFrame) (c : column) :
  categories_transactions d (setitem df "Category" c) = categories_transactions d df.
Proof.
  unfold categories_transactions, setitem, nrows. simpl.
  now rewrite set_column_twice.
Qed.

Lemma series_lookup_absent cols pos name :
  find_column cols name = None ->
  series_lookup
    (flat_map (fun nc : string * column =>
                 match nth_error (cells (snd nc)) pos with
                 | Some v => [(fst nc, v)]
                 | None => []
                 end) cols) name = None.
Proof.
  induction cols as [|[n c] cols IH]; simpl; [reflexivity|].
  destruct (n =? name)%string eqn:E; [discriminate|]. intros H.
  destruct (nth_error (cells c) pos); simpl; [rewrite E|]; now apply IH.
Qed.

Lemma classify_details_normalize (d : dict) (a b : string) :
  normalize a = normalize b -> classify_details d a = classify_details d b.
Proof.
  intros H.
  assert (Hm : forall c ks, rule_matches a c ks = rule_matches b c ks)
    by (intros c ks; unfold rule_matches; now rewrite H).
  unfold classify_details.
  generalize Uncategorized. induction d as [|[c ks] d IH]; intros current; simpl.
  - reflexivity.
  - rewrite Hm. apply IH.
Qed.

End ClassificationMore.

(** X1: classification depends on the store only through the entries
    that are not named "Uncategorized" and have a keyword. Two stores
    with the same such entries, in the same order, classify every frame
    alike; keywords held under "Uncategorized" and categories without
    keywords change nothing. *)
Theorem classification_uses_active_rules_only :
  forall (d d' : dict) (df : DataFrame),
    active_rules d = active_rules d' ->
    categories_transactions d df = categories_transactions d' df.
Proof.
  intros d d' df H.
  rewrite (categories_transactions_active d), (categories_transactions_active d').
  now rewrite H.
Qed.

Lemma classification_uses_active_rules_only_witness :
  categories_transactions [(Uncategorized, []); ("Groceries", ["milk"])]
                          (frame_of_details ["Milk"; "RENT"])
  = categories_transactions
      [(Uncategorized, ["rent"]); ("Travel", []); ("Groceries", ["milk"])]
      (frame_of_details ["Milk"; "RENT"]).
Proof.
  apply (classification_uses_active_rules_only
           [(Uncategorized, []); ("Groceries", ["milk"])]
           [(Uncategorized, ["rent"]); ("Travel", []); ("Groceries", ["milk"])]
           (frame_of_details ["Milk"; "RENT"])).
  reflexivity.
Defined.

(** X2: with no applicable rule in the store (as on a fresh install,
    where the store is "Uncategorized" alone), classification returns for
    every frame, even one without a Details column, and every row is
    "Uncategorized". *)
Theorem classification_without_rules :
  forall (d : dict) (df : DataFrame),
    active_rules d = [] ->
    categories_transactions d df
    = Ok (setitem df "Category" (ObjCol (repeat (CStr Uncategorized) (nrows df)))).
Proof.
  intros d df H. rewrite categories_transactions_active, H. reflexivity.
Qed.

Lemma classification_without_rules_witness :
  categories_transactions [(Uncategorized, ["rent"]); ("Travel", [])]
                          (mkFrame [0; 1]%nat [("Amount", NumCol [10; 5]%float)])
  = Ok (mkFrame [0; 1]%nat
          [("Amount", NumCol [10; 5]%float);
           ("Category", ObjCol [CStr Uncategorized; CStr Uncategorized])]).
Proof.
  apply (classification_without_rules
           [(Uncategorized, ["rent"]); ("Travel", [])]
           (mkFrame [0; 1]%nat [("Amount", NumCol [10; 5]%float)])).
  reflexivity.
Defined.

(** X3: with an applicable rule in the store, a frame that has rows but
    no Details column makes classification raise [KeyError] for
    "Details". *)
Theorem classification_needs_details :
  forall (d : dict) (df : DataFrame),
    active_rules d <> [] ->
    index df <> [] ->
    find_column (columns df) "Details" = None ->
    categories_transactions d df = Raise (KeyError (CStr "Details")).
Proof.
  intros d df Hrules Hrows Hcol. rewrite categories_transactions_active.
  destruct (active_rules d) as [|[category keywords] rest] eqn:Ea; [congruence|].
  assert (Hact : rule_active category keywords = true).
  { assert (Hin : In (category, keywords) (active_rules d))
      by (rewrite Ea; now left).
    apply filter_In in Hin. apply Hin. }
  unfold rule_active in Hact. apply negb_true_iff in Hact.
  unfold categories_transactions. cbn [for_each]. rewrite Hact.
  unfold iterrows, nrows. cbn [setitem index].
  destruct (index df) as [|l idx]; [congruence|].
  cbn [length seq map combine for_each].
  unfold series_getitem, row_at. rewrite series_lookup_absent; [reflexivity|].
  unfold setitem. cbn [columns]. rewrite find_column_set_ne by discriminate.
  exact Hcol.
Qed.

Lemma classification_needs_details_witness :
  categories_transactions [(Uncategorized, []); ("Groceries", ["milk"])]
                          (mkFrame [0; 1]%nat [("Amount", NumCol [10; 5]%float)])
  = Raise (KeyError (CStr "Details")).
Proof.
  apply (classification_needs_details
           [(Uncategorized, []); ("Groceries", ["milk"])]
           (mkFrame [0; 1]%nat [("Amount", NumCol [10; 5]%float)]));
    [discriminate | discriminate | reflexivity].
Defined.

(** X4: classification writes the Category column and nothing else:
    the result has the labels of the input, every other column as it
    was, and a Category column of Python objects, one per row. *)
Theorem classification_touches_category_only :
  forall (d : dict) (df df' : DataFrame),
    categories_transactions d df = Ok df' ->
    index df' = index df /\
    (forall name, name <> "Category" ->
                  find_column (columns df') name = find_column (columns df) name) /\
    exists cs, find_column (columns df') "Category" = Some (ObjCol cs) /\
               length cs = nrows df.
Proof.
  intros d df df' H.
  destruct (categories_transactions_shape d df df' H) as (cs & -> & Hlen).
  split; [reflexivity|]. split.
  - intros name Hne. simpl. apply find_column_set_ne. congruence.
  - exists cs. split; [apply find_column_set_eq | exact Hlen].
Qed.

Lemma classification_touches_category_only_witness :
  exists df',
    categories_transactions [("Groceries", ["milk"])]
                            (sample_debits "Food") = Ok df' /\
    index df' = [0; 2]%nat /\
    find_column (columns df') "Amount" = Some (NumCol [10; 5]%float).
Proof.
  destruct (categories_transactions [("Groceries", ["milk"])] (sample_debits "Food"))
    as [df'|e] eqn:E; [|vm_compute in E; discriminate].
  exists df'.
  destruct (classification_touches_category_only _ _ _ E) as (Hidx & Hcols & _).
  split; [reflexivity|]. split; [exact Hidx|].
  rewrite Hcols by discriminate. reflexivity.
Defined.

(** X5: classification starts from scratch and is idempotent. What the
    Category column held before (a user's manual choice, say) has no
    effect on the result, and classifying the result again under the
    same store returns it unchanged. *)
Theorem classification_rebaselines :
  forall (d : dict) (df df' : DataFrame),
    categories_transactions d df = Ok df' ->
    (forall c, categories_transactions d (setitem df "Category" c) = Ok df') /\
    categories_transactions d df' = Ok df'.
Proof.
  intros d df df' H. split.
  - intros c. now rewrite categories_transactions_relabel.
  - destruct (categories_transactions_shape d df df' H) as (cs & Heq & _).
    rewrite Heq at 1. unfold labelled. now rewrite categories_transactions_relabel.
Qed.

Lemma classification_rebaselines_witness :
  exists df',
    categories_transactions [("Groceries", ["milk"])]
                            (frame_of_details ["Milk"; "RENT"]) = Ok df' /\
    categories_transactions [("Groceries", ["milk"])]
      (setitem (frame_of_details ["Milk"; "RENT"]) "Category"
               (ObjCol [CStr "Rent"; CStr "Rent"])) = Ok df' /\
    categories_transactions [("Groceries", ["milk"])] df' = Ok df'.
Proof.
  destruct (categories_transactions [("Groceries", ["milk"])]
              (frame_of_details ["Milk"; "RENT"])) as [df'|e] eqn:E;
    [|vm_compute in E; discriminate].
  exists df'.
  destruct (classification_rebaselines _ _ _ E) as [Hany Hagain].
  split; [reflexivity|]. split; [apply Hany | exact Hagain].
Defined.

(** X6: the category given to a row is "Uncategorized" or the name of a
    category of the store, and it depends on the row's Details only up
    to letter case and surrounding white space: two rows whose Details
    are equal once lower-cased and trimmed get the same category. *)
Theorem classification_by_normalized_details :
  forall (d : dict) (df : DataFrame) (col : column) (details : list string)
         (i j : nat) (a b : string),
    frame_wf df ->
    find_column (columns df) "Details" = Some col ->
    cells col = map CStr details ->
    nth_error details i = Some a ->
    nth_error details j = Some b ->
    normalize a = normalize b ->
    exists c,
      category_after d df (nth i (index df) 0%nat) = Ok (CStr c) /\
      category_after d df (nth j (index df) 0%nat) = Ok (CStr c) /\
      (c = Uncategorized \/ In c (keys d)).
Proof.
  intros d df col details i j a b Hwf Hcol Hcells Ha Hb Hnorm.
  exists (classify_details d a). split; [|split].
  - now apply (category_after_spec d df col details).
  - rewrite (classify_details_normalize d a b Hnorm).
    now apply (category_after_spec d df col details).
  - destruct (classify_details_cases a d)
      as [[HU _] | (pre & c & ks & post & Heq & _ & _ & Hres)].
    + now left.
    + right. rewrite Hres, Heq. unfold keys. rewrite map_app. simpl.
      apply in_or_app. right. now left.
Qed.

Lemma classification_by_normalized_details_witness :
  exists c,
    category_after [(Uncategorized, []); ("Groceries", ["Whole Foods 123"])]
                   (frame_of_details ["WHOLE FOODS 123"; "rent"; " whole foods 123 "]) 0
    = Ok (CStr c) /\
    category_after [(Uncategorized, []); ("Groceries", ["Whole Foods 123"])]
                   (frame_of_details ["WHOLE FOODS 123"; "rent"; " whole foods 123 "]) 2
    = Ok (CStr c) /\
    (c = Uncategorized
     \/ In c (keys [(Uncategorized, []); ("Groceries", ["Whole Foods 123"])])).
Proof.
  apply (classification_by_normalized_details
           [(Uncategorized, []); ("Groceries", ["Whole Foods 123"])]
           (frame_of_details ["WHOLE FOODS 123"; "rent"; " whole foods 123 "])
           (ObjCol [CStr "WHOLE FOODS 123"; CStr "rent"; CStr " whole foods 123 "])
           ["WHOLE FOODS 123"; "rent"; " whole foods 123 "] 0 2
           "WHOLE FOODS 123" " whole foods 123 ").
  - apply frame_of_details_wf.
  - reflexivity.
  - reflexivity.
  - reflexivity.
  - reflexivity.
  - reflexivity.
Defined.

(** ** More on the category store *)

Section StoreMore.

Context {pandas : Pandas}.

Lemma dict_lookup_none (d : dict) (k : string) :
  dict_lookup d k = None <-> ~ In k (keys d).
Proof.
  induction d as [|[k' v] d IH]; simpl; [tauto|].
  destruct (String.eqb_spec k' k) as [->|Hne].
  - split; [discriminate | tauto].
  - rewrite IH. tauto.
Qed.

Lemma dict_setitem_new (d : dict) (k : string) (v : list string) :
  ~ In k (keys d) -> dict_setitem d k v = d ++ [(k, v)].
Proof.
  induction d as [|[k' v'] d IH]; simpl; intros Hnin; [reflexivity|].
  destruct (String.eqb_spec k' k) as [->|Hne]; [tauto|].
  rewrite IH by tauto. reflexivity.
Qed.

Lemma dict_lookup_setitem (d : dict) (k : string) (v : list string) :
  dict_lookup (dict_setitem d k v) k = Some v.
Proof.
  induction d as [|[k' v'] d IH]; simpl.
  - now rewrite String.eqb_refl.
  - destruct (String.eqb_spec k' k) as [->|Hne]; simpl.
    + now rewrite String.eqb_refl.
    + apply String.eqb_neq in Hne. now rewrite Hne.
Qed.

Lemma dict_lookup_setitem_ne (d : dict) (k k' : string) (v : list string) :
  k <> k' -> dict_lookup (dict_setitem d k v) k' = dict_lookup d k'.
Proof.
  intros Hne. induction d as [|[k0 v0] d IH]; simpl.
  - apply String.eqb_neq in Hne. now rewrite Hne.
  - destruct (String.eqb_spec k0 k) as [->|Hk]; simpl.
    + apply String.eqb_neq in Hne. now rewrite Hne.
    + now rewrite IH.
Qed.

Lemma keys_setitem_present (d : dict) (k : string) (v v' : list string) :
  dict_lookup d k = Some v -> keys (dict_setitem d k v') = keys d.
Proof.
  induction d as [|[k0 v0] d IH]; simpl; [discriminate|].
  destruct (String.eqb_spec k0 k) as [->|Hk]; simpl; [reflexivity|].
  intros H. now rewrite IH.
Qed.

Lemma In_setitem (d : dict) (k k' : string) (v v' : list string) :
  In (k', v') (dict_setitem d k v) -> (k' = k /\ v' = v) \/ In (k', v') d.
Proof.
  induction d as [|[k0 v0] d IH]; simpl.
  - intros [[= <- <-] | []]. now left.
  - destruct (String.eqb_spec k0 k) as [->|Hk]; simpl.
    + intros [[= <- <-] | H]; [now left | right; now right].
    + intros [H | H]; [right; now left|].
      destruct (IH H) as [H' | H']; [now left | right; now right].
Qed.

Lemma dict_lookup_app_l (d e : dict) (k : string) (v : list string) :
  dict_lookup d k = Some v -> dict_lookup (d ++ e) k = Some v.
Proof.
  induction d as [|[k0 v0] d IH]; simpl; [discriminate|].
  destruct (k0 =? k)%string; [tauto | exact IH].
Qed.

(** Statements and what they do to the store. *)
Lemma evolves_trans s1 s2 s3 : evolves s1 s2 -> evolves s2 s3 -> evolves s1 s3.
Proof.
  intros H12 H23. induction H23 as [|s2 s3 s4 _ IH Hc]; [exact H12|].
  eapply evolves_step; [apply IH; exact H12 | exact Hc].
Qed.

Lemma evolves_none s s' :
  ss_categories s' = ss_categories s -> category_file s' = category_file s ->
  evolves s s'.
Proof.
  intros Hc Hf. eapply evolves_step; [apply evolves_refl | now apply change_none].
Qed.

Lemma moves_ret {A} (a : A) : moves (ret a).
Proof. intros s. apply evolves_refl. Qed.

Lemma moves_lift {A} (o : outcome A) : moves (lift o).
Proof. intros s. apply evolves_refl. Qed.

Lemma moves_bind {A B} (m : M A) (k : A -> M B) :
  moves m -> (forall a, moves (k a)) -> moves (bind m k).
Proof.
  intros Hm Hk s. unfold bind. specialize (Hm s).
  destruct (m s) as [s1 [a|e]]; simpl in Hm; [|exact Hm].
  eapply evolves_trans; [exact Hm | apply Hk].
Qed.

Lemma moves_try_except {A} (m : M A) (handler : exn -> M A) :
  moves m -> (forall e, moves (handler e)) -> moves (try_except m handler).
Proof.
  intros Hm Hh s. unfold try_except. specialize (Hm s).
  destruct (m s) as [s1 [a|e]]; simpl in Hm; [exact Hm|].
  destruct e; try (eapply evolves_trans; [exact Hm | apply Hh]). exact Hm.
Qed.

Lemma moves_for_M {X} (xs : list X) (body : X -> M unit) :
  (forall x, moves (body x)) -> moves (for_M xs body).
Proof.
  intros Hbody. induction xs as [|x xs IH]; simpl.
  - apply moves_ret.
  - apply moves_bind; [apply Hbody | intros _; exact IH].
Qed.

Lemma moves_get_categories : moves get_categories.
Proof.
  intros s. unfold get_categories. destruct (ss_categories s); apply evolves_refl.
Qed.

Lemma moves_get_debits_df : moves get_debits_df.
Proof.
  intros s. unfold get_debits_df. destruct (ss_debits_df s); apply evolves_refl.
Qed.

Lemma moves_put_debits_df df : moves (put_debits_df df).
Proof. intros s. now apply evolves_none. Qed.

Lemma moves_put_credits_df df : moves (put_credits_df df).
Proof. intros s. now apply evolves_none. Qed.

Lemma moves_show e : moves (show e).
Proof. intros s. now apply evolves_none. Qed.

Lemma truthy_true (s : string) : Str.truthy s = true -> s <> "".
Proof. destruct s; simpl; congruence. Qed.

Lemma moves_add_keyword_to_category (category keyword : cell) :
  moves (add_keyword_to_category category keyword).
Proof.
  intros s. unfold add_keyword_to_category, bind, lift.
  destruct keyword as [text| | |]; simpl; try apply evolves_refl.
  destruct (Str.truthy (Str.strip text)) eqn:Ht; [|apply evolves_refl].
  unfold get_categories. destruct (ss_categories s) as [d|] eqn:Hd;
    [|apply evolves_refl].
  destruct category as [name| | |]; simpl; try apply evolves_refl.
  destruct (dict_lookup d name) as [keywords|] eqn:Hl; [|apply evolves_refl].
  destruct (Str.mem (Str.strip text) keywords) eqn:Hmem; simpl;
    [apply evolves_refl|].
  eapply evolves_step; [apply evolves_refl|].
  eapply (change_learn _ _ d name keywords (Str.strip text)); try reflexivity.
  - exact Hd.
  - exact Hl.
  - now apply truthy_true.
  - apply strip_idem.
  - now apply mem_false.
Qed.

Lemma moves_add_category (button : bool) (name : string) :
  moves (add_category button name).
Proof.
  intros s. unfold add_category.
  destruct button; simpl; [|apply evolves_refl].
  destruct (Str.truthy name) eqn:Ht; [|apply evolves_refl].
  unfold bind, get_categories.
  destruct (ss_categories s) as [d|] eqn:Hd; [|apply evolves_refl].
  unfold dict_contains.
  destruct (Str.mem name (keys d)) eqn:Hmem; simpl; [apply evolves_refl|].
  apply mem_false in Hmem. rewrite dict_setitem_new by exact Hmem.
  eapply evolves_step; [apply evolves_refl|].
  eapply (change_add _ _ d name); try reflexivity.
  - exact Hd.
  - now apply truthy_true.
  - exact Hmem.
Qed.

Lemma moves_reclassify_row (idx : nat) (row : Series) :
  moves (reclassify_row idx row).
Proof.
  unfold reclassify_row.
  apply moves_bind; [apply moves_lift|]. intros new_category.
  apply moves_bind; [apply moves_get_debits_df|]. intros debits.
  apply moves_bind; [apply moves_lift|]. intros stored.
  destruct (cell_eqb new_category stored); [apply moves_ret|].
  apply moves_bind; [apply moves_lift|]. intros details.
  apply moves_bind; [apply moves_get_debits_df|]. intros debits'.
  apply moves_bind; [apply moves_put_debits_df|]. intros _.
  apply moves_bind; [apply moves_add_keyword_to_category|]. intros _.
  apply moves_ret.
Qed.

Lemma moves_apply_changes (button : bool) (edited_df : DataFrame) :
  moves (apply_changes button edited_df).
Proof.
  unfold apply_changes. destruct button; [|apply moves_ret].
  apply moves_for_M. intros [idx row]. apply moves_reclassify_row.
Qed.

Lemma moves_load_transactions (file : outcome DataFrame) :
  moves (load_transactions file).
Proof.
  unfold load_transactions. apply moves_try_except.
  - repeat (apply moves_bind;
            [first [apply moves_lift | apply moves_show | apply moves_get_categories]
            | intros ?]).
    apply moves_ret.
  - intros e. apply moves_bind; [apply moves_show | intros _; apply moves_ret].
Qed.

Lemma moves_main (inp : Inputs) : moves (main inp).
Proof.
  unfold main. destruct (current_file inp) as [file|]; [|apply moves_ret].
  apply moves_bind; [apply moves_load_transactions|]. intros [df|];
    [|apply moves_ret].
  repeat (apply moves_bind;
          [first [apply moves_lift | apply moves_show
                 | apply moves_put_debits_df | apply moves_put_credits_df
                 | apply moves_get_debits_df | apply moves_add_category
                 | apply moves_apply_changes]
          | intros ?]).
  apply moves_show.
Qed.

(** Consistency of store and file. *)
Lemma store_change_consistent s s' :
  store_change s s' -> consistent s -> consistent s'.
Proof.
  intros Hc (d & Hd & Hf). destruct Hc as [s s' Hc' Hf' | s s' d0 name kws w _ _ _ _ _ Hc' Hf'
                                           | s s' d0 name _ _ _ Hc' Hf'].
  - exists d. rewrite Hc', Hf'. now split.
  - eexists. split; [exact Hc' | left; exact Hf'].
  - eexists. split; [exact Hc' | left; exact Hf'].
Qed.

Lemma evolves_consistent s s' : evolves s s' -> consistent s -> consistent s'.
Proof.
  induction 1 as [|s1 s2 s3 _ IH Hc]; [tauto|].
  intros H. eapply store_change_consistent; [exact Hc | now apply IH].
Qed.

(** The first statements of a run: with nothing in the session, the
    store is the file or the initial store. *)
Lemma init_new_consistent (s : State) :
  ss_categories s = None -> consistent (fst (init s)).
Proof.
  intros Hnone. unfold init. rewrite Hnone. simpl.
  destruct (category_file s) as [f|] eqn:Ef; simpl.
  - exists f. split; [reflexivity | left; reflexivity].
  - eexists. split; [reflexivity | right; split; reflexivity].
Qed.

(** With store and file in agreement they leave both as they are, in the
    same session and in a new one. *)
Lemma init_keeps_store (s : State) :
  consistent s ->
  ss_categories (fst (init s)) = ss_categories s /\
  category_file (fst (init s)) = category_file s.
Proof.
  intros (d & Hd & Hf). unfold init. rewrite Hd.
  destruct Hf as [Hf | [Hf _]]; rewrite Hf; simpl; now split.
Qed.

Lemma init_restores_store (s : State) :
  consistent s ->
  ss_categories (fst (init (new_session s))) = ss_categories s /\
  category_file (fst (init (new_session s))) = category_file s.
Proof.
  intros (d & Hd & Hf). unfold init, new_session. simpl.
  destruct Hf as [Hf | [Hf ->]]; rewrite Hf; simpl; now split.
Qed.

Lemma script_unfold (inp : Inputs) (s : State) :
  fst (script inp s) = fst (main inp (fst (init (fst (clear_page s))))).
Proof.
  unfold script, bind. simpl. unfold init at 1.
  destruct (ss_categories _); destruct (category_file _); reflexivity.
Qed.

Lemma script_evolves (inp : Inputs) (s : State) :
  consistent s -> evolves s (fst (script inp s)).
Proof.
  intros Hs. rewrite script_unfold.
  assert (Hc : consistent (fst (clear_page s))) by exact Hs.
  destruct (init_keeps_store _ Hc) as [H1 H2].
  eapply evolves_trans; [|apply moves_main].
  apply evolves_none; [exact H1 | exact H2].
Qed.

Lemma script_restart_evolves (inp : Inputs) (s : State) :
  consistent s -> evolves s (fst (script inp (new_session s))).
Proof.
  intros Hs. rewrite script_unfold.
  destruct (init_restores_store s Hs) as [H1 H2].
  eapply evolves_trans; [|apply moves_main].
  apply evolves_none; [exact H1 | exact H2].
Qed.

Lemma runs_evolves (s0 s : State) :
  consistent s0 -> runs s0 s -> evolves s0 s /\ consistent s.
Proof.
  intros H0. induction 1 as [s0 | inp s0 s _ IH | inp s0 s _ IH].
  - split; [apply evolves_refl | exact H0].
  - destruct (IH H0) as [He Hc].
    pose proof (script_evolves inp s Hc) as Hs.
    split; [eapply evolves_trans; eassumption
           | eapply evolves_consistent; eassumption].
  - destruct (IH H0) as [He Hc].
    pose proof (script_restart_evolves inp s Hc) as Hs.
    split; [eapply evolves_trans; eassumption
           | eapply evolves_consistent; eassumption].
Qed.

Lemma script_first_consistent (inp : Inputs) (s : State) :
  ss_categories s = None -> consistent (fst (script inp s)).
Proof.
  intros Hnone. rewrite script_unfold.
  eapply evolves_consistent; [apply moves_main|].
  apply init_new_consistent. exact Hnone.
Qed.

Lemma reachable_consistent (s : State) : reachable s -> consistent s.
Proof.
  induction 1 as [inp s0 [Hnone _] | inp s _ IH | inp s _ IH].
  - now apply script_first_consistent.
  - eapply evolves_consistent; [now apply script_evolves | exact IH].
  - now apply script_first_consistent.
Qed.

End StoreMore.

Section StoreInvariants.

Lemma tidy_keywords_snoc (keywords : list string) (w : string) :
  tidy_keywords keywords -> w <> "" -> Str.strip w = w -> ~ In w keywords ->
  tidy_keywords (keywords ++ [w]).
Proof.
  intros [Hnd Hall] Hw Hs Hnin. split.
  - apply (Permutation_NoDup (Permutation_cons_append keywords w)).
    now constructor.
  - intros x Hx. apply in_app_or in Hx. destruct Hx as [Hx | [<- | []]].
    + now apply Hall.
    + now split.
Qed.

Lemma store_change_tidy s s' :
  store_change s s' ->
  (forall d, ss_categories s = Some d -> tidy d) ->
  forall d', ss_categories s' = Some d' -> tidy d'.
Proof.
  intros Hc Ht d' Hd'.
  destruct Hc as [s s' Hc' _ | s s' d name kws w Hd Hl Hw Hs Hnin Hc' _
                  | s s' d name Hd _ _ Hc' _].
  - apply Ht. now rewrite <- Hc'.
  - rewrite Hc' in Hd'. injection Hd' as <-. intros n ks Hin.
    apply In_setitem in Hin. destruct Hin as [[-> ->] | Hin].
    + apply tidy_keywords_snoc; auto.
      apply (Ht d Hd name kws). now apply dict_lookup_In.
    + now apply (Ht d Hd n ks).
  - rewrite Hc' in Hd'. injection Hd' as <-. intros n ks Hin.
    apply in_app_or in Hin. destruct Hin as [Hin | [[= <- <-] | []]].
    + now apply (Ht d Hd n ks).
    + split; [constructor | intros w []].
Qed.

Lemma evolves_tidy s s' :
  evolves s s' ->
  (forall d, ss_categories s = Some d -> tidy d) ->
  forall d', ss_categories s' = Some d' -> tidy d'.
Proof.
  induction 1 as [|s1 s2 s3 _ IH Hc]; [tauto|].
  intros Ht. apply (store_change_tidy s2 s3 Hc). now apply IH.
Qed.

Lemma dict_extends_refl (d : dict) : dict_extends d d.
Proof.
  split; [exists []; now rewrite app_nil_r|].
  intros name keywords H. exists []. now rewrite app_nil_r.
Qed.

Lemma dict_extends_trans (d1 d2 d3 : dict) :
  dict_extends d1 d2 -> dict_extends d2 d3 -> dict_extends d1 d3.
Proof.
  intros [[a1 Hk1] Hl1] [[a2 Hk2] Hl2]. split.
  - exists (a1 ++ a2). now rewrite Hk2, Hk1, app_assoc.
  - intros name keywords H. destruct (Hl1 _ _ H) as [m1 H1].
    destruct (Hl2 _ _ H1) as [m2 H2]. exists (m1 ++ m2).
    now rewrite H2, app_assoc.
Qed.

Lemma dict_extends_learn (d : dict) (name : string) (keywords : list string) (w : string) :
  dict_lookup d name = Some keywords ->
  dict_extends d (dict_setitem d name (keywords ++ [w])).
Proof.
  intros Hl. split.
  - exists []. rewrite app_nil_r. now apply keys_setitem_present with keywords.
  - intros n ks Hn. destruct (String.eqb_spec name n) as [<-|Hne].
    + rewrite Hl in Hn. injection Hn as <-. exists [w]. apply dict_lookup_setitem.
    + exists []. rewrite app_nil_r, dict_lookup_setitem_ne by exact Hne. exact Hn.
Qed.

Lemma dict_extends_add (d : dict) (name : string) :
  dict_extends d (d ++ [(name, [])]).
Proof.
  split.
  - exists [name]. unfold keys. now rewrite map_app.
  - intros n ks Hn. exists []. rewrite app_nil_r. now apply dict_lookup_app_l.
Qed.

Lemma evolves_extends s s' :
  evolves s s' ->
  forall d, ss_categories s = Some d ->
            exists d', ss_categories s' = Some d' /\ dict_extends d d'.
Proof.
  induction 1 as [s | s1 s2 s3 _ IH Hc]; intros d Hd.
  - exists d. split; [exact Hd | apply dict_extends_refl].
  - destruct (IH d Hd) as (d2 & Hd2 & He).
    destruct Hc as [s2 s3 Hc' _ | s2 s3 d0 name kws w Hd0 Hl _ _ _ Hc' _
                    | s2 s3 d0 name Hd0 _ _ Hc' _].
    + exists d2. split; [now rewrite Hc' | exact He].
    + rewrite Hd0 in Hd2. injection Hd2 as ->. eexists. split; [exact Hc'|].
      eapply dict_extends_trans; [exact He | now apply dict_extends_learn].
    + rewrite Hd0 in Hd2. injection Hd2 as ->. eexists. split; [exact Hc'|].
      eapply dict_extends_trans; [exact He | apply dict_extends_add].
Qed.

End StoreInvariants.

(** X7: a run of the script, in the same session or in a new one,
    changes the category store only by appending: a trimmed, non-empty
    keyword that the list does not hold goes to the end of the list of
    an existing category, or a non-empty name that is not a category
    goes to the end of the store without keywords; after each such
    change the file holds the store. Nothing is removed or renamed. This
    holds from any state in which store and file agree. *)
Theorem run_changes_store_by_appending {pandas : Pandas} :
  forall (inp : Inputs) (s : State),
    consistent s ->
    evolves s (fst (script inp s)) /\
    evolves s (fst (script inp (new_session s))).
Proof.
  intros inp s Hs. split;
    [now apply script_evolves | now apply script_restart_evolves].
Qed.

Lemma run_changes_store_by_appending_witness :
  evolves (sample_state [(Uncategorized, [])] Uncategorized)
          (fst (script (pandas := left_to_right) (upload table_with_kind)
                       (sample_state [(Uncategorized, [])] Uncategorized))) /\
  evolves (sample_state [(Uncategorized, [])] Uncategorized)
          (fst (script (pandas := left_to_right) (upload table_with_kind)
                       (new_session (sample_state [(Uncategorized, [])] Uncategorized)))).
Proof.
  apply (run_changes_store_by_appending (pandas := left_to_right)
           (upload table_with_kind)
           (sample_state [(Uncategorized, [])] Uncategorized)).
  exists [(Uncategorized, [])]. split; [reflexivity | left; reflexivity].
Defined.

(** X8: after any run the category file, once it exists, holds exactly
    the store of the session, and without a file the store is the
    initial one; so the first statements of a new session bring back the
    store the last run ended with. *)
Theorem store_survives_restart {pandas : Pandas} :
  forall s : State,
    reachable s ->
    consistent s /\
    ss_categories (fst (init (new_session s))) = ss_categories s.
Proof.
  intros s Hr. pose proof (reachable_consistent s Hr) as Hc.
  split; [exact Hc | apply (init_restores_store s Hc)].
Qed.

Lemma store_survives_restart_witness :
  let s := fst (script (pandas := left_to_right)
                       (mkInputs (Some (Ok table_with_kind)) "Food" true
                                 (fun shown => shown) false) fresh) in
  consistent s /\
  ss_categories (fst (init (new_session s))) = ss_categories s.
Proof.
  intros s. apply (store_survives_restart (pandas := left_to_right) s).
  apply reach_first. split; [reflexivity | discriminate].
Defined.

(** X9: keywords stay tidy. If store and file agree and every keyword
    list of the store is free of repetitions, of empty keywords and of
    keywords with white space around them, the same holds after any
    number of runs and new sessions. *)
Theorem keywords_stay_tidy {pandas : Pandas} :
  forall (s0 s : State) (d0 : dict),
    consistent s0 ->
    ss_categories s0 = Some d0 ->
    tidy d0 ->
    runs s0 s ->
    exists d, ss_categories s = Some d /\ tidy d.
Proof.
  intros s0 s d0 Hc Hd0 Ht Hruns.
  destruct (runs_evolves s0 s Hc Hruns) as [He (d & Hd & _)].
  exists d. split; [exact Hd|].
  apply (evolves_tidy s0 s He); [|exact Hd].
  intros d' Hd'. rewrite Hd0 in Hd'. now injection Hd' as <-.
Qed.

(** X10: the store only grows. Over any number of runs and new
    sessions, from a state in which store and file agree, the
    categories of the store stay, in their order, at the front of the
    store, and the keywords each of them had stay, in their order, at
    the front of its list. *)
Theorem store_only_grows {pandas : Pandas} :
  forall (s0 s : State) (d0 : dict),
    consistent s0 ->
    ss_categories s0 = Some d0 ->
    runs s0 s ->
    exists d, ss_categories s = Some d /\ dict_extends d0 d.
Proof.
  intros s0 s d0 Hc Hd0 Hruns.
  destruct (runs_evolves s0 s Hc Hruns) as [He _].
  now apply (evolves_extends s0 s He).
Qed.

Lemma groceries_state_consistent : consistent groceries_state.
Proof. exists groceries_store. split; [reflexivity | left; reflexivity]. Qed.

Lemma groceries_store_tidy : tidy groceries_store.
Proof.
  intros name keywords [[= <- <-] | [[= <- <-] | []]];
    (split; [constructor | intros w []]).
Qed.

(** The run learns the keyword. *)
Example move_first_row_learns {pandas : Pandas} :
  ss_categories (fst (script move_first_row groceries_state))
  = Some [(Uncategorized, []); ("Groceries", ["WHOLE FOODS 123"])].
Proof. vm_compute. reflexivity. Qed.

Lemma keywords_stay_tidy_witness :
  exists d,
    ss_categories
      (fst (script (pandas := left_to_right) move_first_row
              (new_session
                 (fst (script (pandas := left_to_right) move_first_row
                         groceries_state)))))
    = Some d /\ tidy d.
Proof.
  apply (keywords_stay_tidy (pandas := left_to_right)
           groceries_state _ groceries_store).
  - apply groceries_state_consistent.
  - reflexivity.
  - apply groceries_store_tidy.
  - apply runs_restart, runs_run, runs_none.
Defined.

Lemma store_only_grows_witness :
  exists d,
    ss_categories
      (fst (script (pandas := left_to_right) move_first_row
              (new_session
                 (fst (script (pandas := left_to_right) move_first_row
                         groceries_state)))))
    = Some d /\ dict_extends groceries_store d.
Proof.
  apply (store_only_grows (pandas := left_to_right) groceries_state _ groceries_store).
  - apply groceries_state_consistent.
  - reflexivity.
  - apply runs_restart, runs_run, runs_none.
Defined.

(** X11: the "Add Category" button. With the button pressed, a non-empty
    name that is not yet a category is added at the end of the store
    with no keywords, the store is written to the file, and the run is
    ended for a rerun; the categories already there are untouched. With
    the button not pressed, an empty name, or a name that is already a
    category, nothing happens. The name is taken as typed. *)
Theorem add_category_cases :
  forall (s : State) (d : dict) (button : bool) (name : string),
    ss_categories s = Some d ->
    (button = false \/ name = "" \/ In name (keys d) ->
     add_category button name s = (s, Ok tt)) /\
    (button = true -> name <> "" -> ~ In name (keys d) ->
     add_category button name s
     = (mkState (Some (d ++ [(name, [])])) (ss_debits_df s) (ss_credits_df s)
                (Some (d ++ [(name, [])])) (page s),
        Raise RerunException)).
Proof.
  intros s d button name Hd. unfold add_category. split.
  - intros [-> | [-> | Hin]]; [reflexivity | now destruct button |].
    destruct (button && Str.truthy name); [|reflexivity].
    unfold bind, get_categories. rewrite Hd. unfold dict_contains.
    apply mem_In in Hin. now rewrite Hin.
  - intros -> Hname Hnin.
    assert (Ht : Str.truthy name = true).
    { destruct (Str.truthy name) eqn:E; [reflexivity|].
      apply truthy_false in E. contradiction. }
    rewrite Ht. unfold bind, get_categories. simpl. rewrite Hd.
    unfold dict_contains. apply mem_false in Hnin as Hmem. rewrite Hmem. simpl.
    now rewrite dict_setitem_new.
Qed.

Lemma add_category_cases_witness :
  add_category true "Groceries" groceries_state = (groceries_state, Ok tt) /\
  add_category true " Groceries" groceries_state
  = (mkState (Some (groceries_store ++ [(" Groceries", [])])) None None
             (Some (groceries_store ++ [(" Groceries", [])])) [],
     Raise RerunException).
Proof.
  destruct (add_category_cases groceries_state groceries_store true "Groceries"
              eq_refl) as [Hsame _].
  destruct (add_category_cases groceries_state groceries_store true " Groceries"
              eq_refl) as [_ Hnew].
  split.
  - apply Hsame. right. right. simpl. tauto.
  - apply Hnew; [reflexivity | discriminate |].
    simpl. intros [H | [H | []]]; discriminate.
Defined.

(** X12: a keyword is learned once. After a call of
    [add_keyword_to_category] that returned, the same call again
    returns [False] and changes nothing. *)
Theorem add_keyword_twice :
  forall (s s' : State) (category keyword : string) (added : bool),
    add_keyword_to_category (CStr category) (CStr keyword) s = (s', Ok added) ->
    add_keyword_to_category (CStr category) (CStr keyword) s' = (s', Ok false).
Proof.
  intros s s' category keyword added.
  rewrite !add_keyword_to_category_unfold.
  destruct (Str.truthy (Str.strip keyword)) eqn:Ht; [|now intros [= <- _]].
  destruct (ss_categories s) as [d|] eqn:Hd; [|discriminate].
  destruct (dict_lookup d category) as [keywords|] eqn:Hl; [|discriminate].
  destruct (Str.mem (Str.strip keyword) keywords) eqn:Hmem.
  - intros [= <- _]. now rewrite Hd, Hl, Hmem.
  - cbn zeta. intros [= <- _]. cbn [ss_categories].
    rewrite dict_lookup_setitem.
    replace (Str.mem (Str.strip keyword) (keywords ++ [Str.strip keyword]))
      with true; [reflexivity|].
    symmetry. apply mem_In, in_or_app. right. now left.
Qed.

Lemma add_keyword_twice_witness :
  add_keyword_to_category (CStr "Groceries") (CStr " milk ")
    (mkState (Some [(Uncategorized, []); ("Groceries", ["milk"])]) None None
             (Some [(Uncategorized, []); ("Groceries", ["milk"])]) [])
  = (mkState (Some [(Uncategorized, []); ("Groceries", ["milk"])]) None None
             (Some [(Uncategorized, []); ("Groceries", ["milk"])]) [],
     Ok false).
Proof.
  apply (add_keyword_twice groceries_state _ "Groceries" " milk " true).
  reflexivity.
Defined.

(** X13: the row is written before the keyword is learned. When a row
    with a non-blank Details text is moved to a category that the store
    does not have, the step raises [KeyError]; store and file are as
    before, but the row already carries the new category. *)
Theorem reclassify_to_missing_category :
  forall (s : State) (d : dict) (debits_df : DataFrame) (idx : nat)
         (row : Series) (category text : string) (stored : cell),
    ss_categories s = Some d ->
    dict_lookup d category = None ->
    ss_debits_df s = Some debits_df ->
    series_getitem row "Category" = Ok (CStr category) ->
    series_getitem row "Details" = Ok (CStr text) ->
    Str.strip text <> "" ->
    at_get debits_df idx "Category" = Ok stored ->
    stored <> CStr category ->
    reclassify_row idx row s
    = (mkState (Some d)
               (Some (at_set debits_df idx "Category" (CStr category)))
               (ss_credits_df s) (category_file s) (page s),
       Raise (KeyError (CStr category))).
Proof.
  intros s d debits_df idx row category text stored
         Hd Hl Hdf Hcat Hdet Hblank Hat Hne.
  assert (Hneq : cell_eqb (CStr category) stored = false).
  { destruct (cell_eqb (CStr category) stored) eqn:E; [|reflexivity].
    apply cell_eqb_str in E. contradiction. }
  assert (Ht : Str.truthy (Str.strip text) = true).
  { destruct (Str.truthy (Str.strip text)) eqn:E; [reflexivity|].
    apply truthy_false in E. contradiction. }
  unfold reclassify_row, bind, lift, get_debits_df.
  rewrite Hcat, Hdf, Hat, Hneq, Hdet. cbn [put_debits_df]. rewrite Hdf.
  rewrite add_keyword_to_category_unfold, Ht. cbn [ss_categories].
  rewrite Hd, Hl. reflexivity.
Qed.

Lemma reclassify_to_missing_category_witness :
  reclassify_row 0 (sample_edit "Travel")
                 (sample_state [(Uncategorized, [])] Uncategorized)
  = (mkState (Some [(Uncategorized, [])])
             (Some (at_set (sample_debits Uncategorized) 0 "Category" (CStr "Travel")))
             None (Some [(Uncategorized, [])]) [],
     Raise (KeyError (CStr "Travel"))).
Proof.
  apply (reclassify_to_missing_category
           (sample_state [(Uncategorized, [])] Uncategorized)
           [(Uncategorized, [])] (sample_debits Uncategorized) 0
           (sample_edit "Travel") "Travel" "WHOLE FOODS 123"
           (CStr Uncategorized));
    try reflexivity; discriminate.
Defined.

(** ** More on loading *)

Section LoadMore.

Lemma traverse_Forall2 {X Y} (f : X -> outcome Y) (xs : list X) (ys : list Y) :
  Forall2 (fun x y => f x = Ok y) xs ys -> traverse f xs = Ok ys.
Proof.
  induction 1 as [|x y xs ys Hxy _ IH]; simpl; [reflexivity|].
  now rewrite Hxy, IH.
Qed.

Lemma traverse_first_failure {X Y} (f : X -> outcome Y) (good rest : list X)
  (bad : X) (e : exn) :
  Forall (fun x => exists y, f x = Ok y) good ->
  f bad = Raise e ->
  traverse f (good ++ bad :: rest) = Raise e.
Proof.
  intros Hgood Hbad. induction Hgood as [|x good [y Hy] _ IH]; simpl.
  - now rewrite Hbad.
  - now rewrite Hy, IH.
Qed.

Lemma traverse_raises {X Y} (f : X -> outcome Y) (xs : list X) (e : exn) :
  traverse f xs = Raise e -> exists x, In x xs /\ f x = Raise e.
Proof.
  induction xs as [|x xs IH]; simpl; [discriminate|].
  destruct (f x) as [y|e0] eqn:Ex; simpl.
  - destruct (traverse f xs) as [ys|e1]; simpl; [discriminate|].
    intros [= <-]. destruct (IH eq_refl) as (x' & Hin & Hx').
    exists x'. split; [now right | exact Hx'].
  - intros [= <-]. exists x. split; [now left | exact Ex].
Qed.

Lemma for_each_raises {X S} (body : X -> S -> outcome S) (xs : list X) (s : S)
  (e : exn) :
  for_each xs s body = Raise e -> exists x s', In x xs /\ body x s' = Raise e.
Proof.
  revert s. induction xs as [|x xs IH]; simpl; intros s; [discriminate|].
  destruct (body x s) as [s1|e0] eqn:Ex; simpl.
  - intros H. destruct (IH s1 H) as (x' & s' & Hin & Hx').
    exists x', s'. split; [now right | exact Hx'].
  - intros [= <-]. exists x, s. split; [now left | exact Ex].
Qed.

Lemma all_strings_map (l : list string) : all_strings (map CStr l) = Some l.
Proof. induction l as [|x l IH]; simpl; [reflexivity | now rewrite IH]. Qed.

(** The exceptions of the steps of a load are ordinary exceptions. *)
Lemma str_accessor_raises c e : str_accessor c = Raise e -> e <> RerunException.
Proof.
  unfold str_accessor. destruct c as [l| |]; try (intros [= <-]; discriminate).
  destruct (all_strings l); [discriminate | intros [= <-]; discriminate].
Qed.

Lemma astype_float_raises l e : astype_float l = Raise e -> e <> RerunException.
Proof.
  intros H. apply traverse_raises in H. destruct H as (x & _ & Hx).
  destruct (Parse.parse_float x); [discriminate | injection Hx as <-; discriminate].
Qed.

Lemma to_datetime_raises c e : to_datetime c = Raise e -> e <> RerunException.
Proof.
  unfold to_datetime. intros H.
  assert (Ht : traverse
            (fun v => match v with
                      | CStr s0 =>
                          match Parse.parse_date s0 with
                          | Some d => Ok d
                          | None => Raise (ValueError s0)
                          end
                      | CDate d => Ok d
                      | CInt _ | CNum _ => Raise (ValueError "Date")
                      end) (cells c) = Raise e)
    by (destruct c; [exact H | exact H | discriminate]).
  apply traverse_raises in Ht. destruct Ht as (x & _ & Hx).
  destruct x as [s0| | |]; try (injection Hx as <-; discriminate); try discriminate.
  destruct (Parse.parse_date s0); [discriminate | injection Hx as <-; discriminate].
Qed.

Lemma categories_transactions_raises d df e :
  categories_transactions d df = Raise e -> e <> RerunException.
Proof.
  unfold categories_transactions. intros H.
  apply for_each_raises in H. destruct H as ([category keywords] & f & _ & H).
  destruct ((category =? Uncategorized)%string || is_nil keywords); [discriminate|].
  apply for_each_raises in H. destruct H as ([idx row] & g & _ & H).
  unfold series_getitem in H. destruct (series_lookup row "Details") as [v|];
    simpl in H; [|injection H as <-; discriminate].
  destruct v as [t| | |]; simpl in H; try (injection H as <-; discriminate).
  destruct (Str.mem _ _); discriminate.
Qed.

(** [load_transactions] on a frame, step by step. *)
Lemma load_transactions_unfold (raw : DataFrame) (s : State) :
  load_transactions (Ok raw) s
  = match find_column (columns (strip_columns raw)) "Amount" with
    | None => reported s (KeyError (CStr "Amount"))
    | Some c =>
      match str_accessor c with
      | Raise e => reported s e
      | Ok texts =>
        match astype_float (map Str.remove_commas texts) with
        | Raise e => reported s e
        | Ok amount =>
          match find_column (columns (strip_columns raw)) "Date" with
          | None => reported s (KeyError (CStr "Date"))
          | Some dc =>
            match to_datetime dc with
            | Raise e => reported s e
            | Ok dates =>
              let parsed :=
                setitem (setitem (strip_columns raw) "Amount" (NumCol amount))
                        "Date" (DateCol dates) in
              match ss_categories s with
              | None =>
                  reported (with_page s [StWrite parsed]) (AttributeError "categories")
              | Some d =>
                match categories_transactions d parsed with
                | Raise e => reported (with_page s [StWrite parsed]) e
                | Ok df => (with_page s [StWrite parsed], Ok (Some df))
                end
              end
            end
          end
        end
      end
    end.
Proof.
  unfold load_transactions, try_except, bind, lift, getitem.
  destruct (find_column (columns (strip_columns raw)) "Amount") as [c|];
    [|reflexivity].
  destruct (str_accessor c) as [texts|e]; [|destruct e; reflexivity].
  destruct (astype_float (map Str.remove_commas texts)) as [amount|e];
    [|destruct e; reflexivity].
  cbn [columns setitem]. rewrite find_column_set_ne by discriminate.
  destruct (find_column (columns (strip_columns raw)) "Date") as [dc|];
    [|reflexivity].
  destruct (to_datetime dc) as [dates|e]; [|destruct e; reflexivity].
  unfold show, get_categories. cbn [ss_categories]. cbv zeta.
  destruct (ss_categories s) as [d|] eqn:Hd;
    [|unfold reported, with_page, ret; cbn; now rewrite Hd].
  destruct (categories_transactions d _) as [df|e];
    [|destruct e]; unfold reported, with_page, ret; cbn; now rewrite Hd.
Qed.

Lemma reported_twice (s : State) (shown : ui_event) (e : exn) :
  e <> RerunException ->
  reported (with_page s [shown]) e = (with_page s [shown; StError e], Ok None).
Proof.
  intros He. destruct e; try congruence;
    (unfold reported, with_page; simpl; now rewrite <- app_assoc).
Qed.

Lemma reported_once (s : State) (e : exn) :
  e <> RerunException -> reported s e = (with_page s [StError e], Ok None).
Proof. intros He. destruct e; try congruence; reflexivity. Qed.

End LoadMore.

(** X14: [load_transactions] returns whatever it is given, changes
    nothing but the page, and returns [None] exactly when it has put an
    error on the page. The page gains the error alone, or the table and
    then the error (when classification raises), or, on success, the
    table alone. *)
Theorem load_transactions_reports_or_returns :
  forall (file : outcome DataFrame) (s : State),
    file <> Raise RerunException ->
    (exists e, load_transactions file s = (with_page s [StError e], Ok None)) \/
    (exists shown e,
        load_transactions file s
        = (with_page s [StWrite shown; StError e], Ok None)) \/
    (exists shown df,
        load_transactions file s = (with_page s [StWrite shown], Ok (Some df))).
Proof.
  intros file s Hfile. destruct file as [raw|e].
  - rewrite load_transactions_unfold.
    destruct (find_column (columns (strip_columns raw)) "Amount") as [c|];
      [|left; eexists; reflexivity].
    destruct (str_accessor c) as [texts|e] eqn:E1;
      [|left; exists e; apply reported_once; eapply str_accessor_raises; eassumption].
    destruct (astype_float (map Str.remove_commas texts)) as [amount|e] eqn:E2;
      [|left; exists e; apply reported_once; eapply astype_float_raises; eassumption].
    destruct (find_column (columns (strip_columns raw)) "Date") as [dc|];
      [|left; eexists; reflexivity].
    destruct (to_datetime dc) as [dates|e] eqn:E3;
      [|left; exists e; apply reported_once; eapply to_datetime_raises; eassumption].
    cbv zeta. destruct (ss_categories s) as [d|].
    + destruct (categories_transactions d _) as [df|e] eqn:E4.
      * right. right. eexists. exists df. reflexivity.
      * right. left. eexists. exists e. apply reported_twice.
        eapply categories_transactions_raises; eassumption.
    + right. left. eexists. eexists. apply reported_twice. discriminate.
  - left. exists e. unfold load_transactions, try_except, bind, lift.
    destruct e; try reflexivity. congruence.
Qed.

Lemma load_transactions_reports_or_returns_witness :
  (exists e,
      load_transactions (Raise (ValueError "no columns")) fresh
      = (with_page fresh [StError e], Ok None)) \/
  (exists shown e,
      load_transactions (Raise (ValueError "no columns")) fresh
      = (with_page fresh [StWrite shown; StError e], Ok None)) \/
  (exists shown df,
      load_transactions (Raise (ValueError "no columns")) fresh
      = (with_page fresh [StWrite shown], Ok (Some df))).
Proof.
  apply (load_transactions_reports_or_returns (Raise (ValueError "no columns")) fresh).
  discriminate.
Defined.

Lemma find_column_wf_length (df : DataFrame) (name : string) (c : column) :
  frame_wf df -> find_column (columns df) name = Some c ->
  length (cells c) = nrows df.
Proof.
  intros [_ Hall]. induction Hall as [|[n c0] cols Hn _ IH]; simpl; [discriminate|].
  destruct (n =? name)%string; [intros [= <-]; exact Hn | exact IH].
Qed.

Lemma astype_float_parsed (texts : list string) (amounts : list float) :
  Forall2 (fun x q => Parse.parse_float (Str.remove_commas x) = Some q) texts amounts ->
  astype_float (map Str.remove_commas texts) = Ok amounts.
Proof.
  intros H. apply traverse_Forall2.
  induction H as [|x q xs qs Hx _ IH]; simpl; constructor; [now rewrite Hx | exact IH].
Qed.

Lemma to_datetime_parsed (days : list string) (dates : list date) :
  Forall2 (fun x day => Parse.parse_date x = Some day) days dates ->
  to_datetime (ObjCol (map CStr days)) = Ok dates.
Proof.
  intros H. unfold to_datetime. cbn [cells]. apply traverse_Forall2.
  induction H as [|x q xs qs Hx _ IH]; simpl; constructor; [now rewrite Hx | exact IH].
Qed.

(** The parsed table is well formed and keeps its Details column. *)
Lemma parsed_frame (raw : DataFrame) (texts : list string) (amounts : list float)
  (days : list string) (dates : list date) (col : column) :
  frame_wf (strip_columns raw) ->
  find_column (columns (strip_columns raw)) "Amount" = Some (ObjCol (map CStr texts)) ->
  Forall2 (fun x q => Parse.parse_float (Str.remove_commas x) = Some q) texts amounts ->
  find_column (columns (strip_columns raw)) "Date" = Some (ObjCol (map CStr days)) ->
  Forall2 (fun x day => Parse.parse_date x = Some day) days dates ->
  find_column (columns (strip_columns raw)) "Details" = Some col ->
  let parsed := setitem (setitem (strip_columns raw) "Amount" (NumCol amounts))
                        "Date" (DateCol dates) in
  frame_wf parsed /\ find_column (columns parsed) "Details" = Some col.
Proof.
  intros Hwf Hamount Hparse Hdate Hdays Hdet parsed. split.
  - destruct Hwf as [Hnd Hall]. split; [exact Hnd|].
    change (Forall (fun nc : string * column =>
                      length (cells (snd nc)) = nrows (strip_columns raw))
                   (set_column
                      (set_column (columns (strip_columns raw)) "Amount"
                                  (NumCol amounts))
                      "Date" (DateCol dates))).
    apply set_column_lengths; [apply set_column_lengths; [exact Hall|]|].
    + cbn [cells]. rewrite length_map, <- (Forall2_length Hparse).
      rewrite <- (find_column_wf_length _ _ _ (conj Hnd Hall) Hamount).
      cbn [cells]. now rewrite length_map.
    + cbn [cells]. rewrite length_map, <- (Forall2_length Hdays).
      rewrite <- (find_column_wf_length _ _ _ (conj Hnd Hall) Hdate).
      cbn [cells]. now rewrite length_map.
  - unfold parsed, setitem. cbn [columns].
    now rewrite !find_column_set_ne by discriminate.
Qed.

(** A statement whose cells all parse is loaded and classified. *)
Lemma load_transactions_parsed :
  forall (raw : DataFrame) (s : State) (d : dict)
         (texts : list string) (amounts : list float)
         (days : list string) (dates : list date)
         (col : column) (details : list string),
    frame_wf (strip_columns raw) ->
    find_column (columns (strip_columns raw)) "Amount" = Some (ObjCol (map CStr texts)) ->
    Forall2 (fun x q => Parse.parse_float (Str.remove_commas x) = Some q) texts amounts ->
    find_column (columns (strip_columns raw)) "Date" = Some (ObjCol (map CStr days)) ->
    Forall2 (fun x day => Parse.parse_date x = Some day) days dates ->
    find_column (columns (strip_columns raw)) "Details" = Some col ->
    cells col = map CStr details ->
    ss_categories s = Some d ->
    let parsed := setitem (setitem (strip_columns raw) "Amount" (NumCol amounts))
                          "Date" (DateCol dates) in
    load_transactions (Ok raw) s
    = (with_page s [StWrite parsed],
       Ok (Some (setitem parsed "Category"
                         (ObjCol (map CStr (map (classify_details d) details)))))).
Proof.
  intros raw s d texts amounts days dates col details
         Hwf Hamount Hparse Hdate Hdays Hdet Hcells Hd parsed.
  destruct (parsed_frame raw texts amounts days dates col
              Hwf Hamount Hparse Hdate Hdays Hdet) as [Hwf' Hdet'].
  rewrite load_transactions_unfold, Hamount.
  unfold str_accessor. rewrite all_strings_map.
  rewrite (astype_float_parsed texts amounts Hparse), Hdate.
  rewrite (to_datetime_parsed days dates Hdays).
  cbv zeta. fold parsed. rewrite Hd.
  rewrite (categories_transactions_spec parsed details col Hwf' Hdet' Hcells).
  reflexivity.
Qed.

(** X15: when a statement loads. Let the table, with the white space
    around its column names removed, be well formed with a text Amount
    column whose cells all read as numbers once their commas are
    removed, a text Date column whose cells all match "%d %b %Y", and a
    text Details column. Then [load_transactions] shows the parsed table
    and returns it with the amounts as numbers, the dates as dates and a
    Category column that holds, row by row, the category decided for
    the row's Details. Nothing is reported as an error. *)
Theorem load_transactions_succeeds :
  forall (raw : DataFrame) (s : State) (d : dict)
         (texts : list string) (amounts : list float)
         (days : list string) (dates : list date)
         (col : column) (details : list string),
    frame_wf (strip_columns raw) ->
    find_column (columns (strip_columns raw)) "Amount" = Some (ObjCol (map CStr texts)) ->
    Forall2 (fun x q => Parse.parse_float (Str.remove_commas x) = Some q) texts amounts ->
    find_column (columns (strip_columns raw)) "Date" = Some (ObjCol (map CStr days)) ->
    Forall2 (fun x day => Parse.parse_date x = Some day) days dates ->
    find_column (columns (strip_columns raw)) "Details" = Some col ->
    cells col = map CStr details ->
    ss_categories s = Some d ->
    let parsed := setitem (setitem (strip_columns raw) "Amount" (NumCol amounts))
                          "Date" (DateCol dates) in
    load_transactions (Ok raw) s
    = (with_page s [StWrite parsed],
       Ok (Some (setitem parsed "Category"
                         (ObjCol (map CStr (map (classify_details d) details)))))).
Proof.
  intros raw s d texts amounts days dates col details
         Hwf Hamount Hparse Hdate Hdays Hdet Hcells Hd parsed.
  destruct (parsed_frame raw texts amounts days dates col
              Hwf Hamount Hparse Hdate Hdays Hdet) as [Hwf' Hdet'].
  rewrite load_transactions_unfold, Hamount.
  unfold str_accessor. rewrite all_strings_map.
  rewrite (astype_float_parsed texts amounts Hparse), Hdate.
  rewrite (to_datetime_parsed days dates Hdays).
  cbv zeta. fold parsed. rewrite Hd.
  rewrite (categories_transactions_spec parsed details col Hwf' Hdet' Hcells).
  reflexivity.
Qed.

Lemma load_transactions_succeeds_witness :
  load_transactions (Ok table_with_kind)
                    (sample_state [(Uncategorized, []); ("Shop", ["whole foods 123"])]
                                  Uncategorized)
  = (with_page (sample_state [(Uncategorized, []); ("Shop", ["whole foods 123"])]
                             Uncategorized)
       [StWrite (setitem (setitem (strip_columns table_with_kind)
                                  "Amount" (NumCol [1234.5; 12]%float))
                         "Date" (DateCol [mkDate 2024 1 5; mkDate 2024 1 9]))],
     Ok (Some (setitem
                 (setitem (setitem (strip_columns table_with_kind)
                                   "Amount" (NumCol [1234.5; 12]%float))
                          "Date" (DateCol [mkDate 2024 1 5; mkDate 2024 1 9]))
                 "Category"
                 (ObjCol (map CStr
                            (map (classify_details
                                    [(Uncategorized, []); ("Shop", ["whole foods 123"])])
                                 ["WHOLE FOODS 123"; "RENT"])))))).
Proof.
  apply (load_transactions_succeeds table_with_kind
           (sample_state [(Uncategorized, []); ("Shop", ["whole foods 123"])]
                         Uncategorized)
           [(Uncategorized, []); ("Shop", ["whole foods 123"])]
           ["1,234.50"; "12"] [1234.5; 12]%float
           ["05 Jan 2024"; "09 Jan 2024"] [mkDate 2024 1 5; mkDate 2024 1 9]
           (ObjCol [CStr "WHOLE FOODS 123"; CStr "RENT"])
           ["WHOLE FOODS 123"; "RENT"]).
  - split; [repeat constructor; simpl; intuition discriminate|].
    repeat constructor.
  - reflexivity.
  - repeat constructor.
  - reflexivity.
  - repeat constructor.
  - reflexivity.
  - reflexivity.
  - reflexivity.
Defined.

(** X16: a bad cell stops the load. If an Amount cell does not read as
    a number once its commas are removed, while those before it do,
    [load_transactions] reports [ValueError] for that text (without its
    commas) and returns [None]; with all amounts good, the first Date
    cell that does not match "%d %b %Y" is reported in the same way.
    Nothing is shown but the error. *)
Theorem load_transactions_bad_cell :
  forall (raw : DataFrame) (s : State),
    (forall (good rest : list string) (bad : string),
        find_column (columns (strip_columns raw)) "Amount"
        = Some (ObjCol (map CStr (good ++ bad :: rest))) ->
        Forall (fun x => Parse.parse_float (Str.remove_commas x) <> None) good ->
        Parse.parse_float (Str.remove_commas bad) = None ->
        load_transactions (Ok raw) s
        = (with_page s [StError (ValueError (Str.remove_commas bad))], Ok None)) /\
    (forall (texts : list string) (amounts : list float)
            (good rest : list string) (bad : string),
        find_column (columns (strip_columns raw)) "Amount"
        = Some (ObjCol (map CStr texts)) ->
        Forall2 (fun x q => Parse.parse_float (Str.remove_commas x) = Some q)
                texts amounts ->
        find_column (columns (strip_columns raw)) "Date"
        = Some (ObjCol (map CStr (good ++ bad :: rest))) ->
        Forall (fun x => Parse.parse_date x <> None) good ->
        Parse.parse_date bad = None ->
        load_transactions (Ok raw) s
        = (with_page s [StError (ValueError bad)], Ok None)).
Proof.
  intros raw s. split.
  - intros good rest bad Hamount Hgood Hbad.
    rewrite load_transactions_unfold, Hamount.
    unfold str_accessor. rewrite all_strings_map. unfold astype_float.
    rewrite map_app. cbn [map].
    rewrite (traverse_first_failure _ _ _ _ (ValueError (Str.remove_commas bad)));
      [reflexivity | | now rewrite Hbad].
    apply Forall_forall. intros x Hx. apply in_map_iff in Hx.
    destruct Hx as (x0 & <- & Hx0). rewrite Forall_forall in Hgood.
    specialize (Hgood x0 Hx0).
    destruct (Parse.parse_float (Str.remove_commas x0)) as [q|];
      [now exists q | congruence].
  - intros texts amounts good rest bad Hamount Hparse Hdate Hgood Hbad.
    rewrite load_transactions_unfold, Hamount.
    unfold str_accessor. rewrite all_strings_map. unfold astype_float.
    rewrite (traverse_Forall2 _ (map Str.remove_commas texts) amounts).
    2:{ clear - Hparse. induction Hparse as [|x q xs qs Hx _ IH]; simpl;
          constructor; [now rewrite Hx | exact IH]. }
    rewrite Hdate. unfold to_datetime. cbn [cells].
    rewrite map_app. cbn [map].
    rewrite (traverse_first_failure _ _ _ _ (ValueError bad));
      [reflexivity | | now rewrite Hbad].
    apply Forall_forall. intros x Hx. apply in_map_iff in Hx.
    destruct Hx as (x0 & <- & Hx0). rewrite Forall_forall in Hgood.
    specialize (Hgood x0 Hx0).
    destruct (Parse.parse_date x0) as [day|]; [now exists day | congruence].
Qed.

Lemma load_transactions_bad_cell_witness :
  load_transactions
    (Ok (mkFrame [0; 1]%nat
           [("Date", ObjCol [CStr "05 Jan 2024"; CStr "2024-01-09"]);
            ("Amount ", ObjCol [CStr "1,234.50"; CStr "12"])])) fresh
  = (with_page fresh [StError (ValueError "2024-01-09")], Ok None) /\
  load_transactions
    (Ok (mkFrame [0; 1]%nat
           [("Date", ObjCol [CStr "05 Jan 2024"; CStr "2024-01-09"]);
            ("Amount ", ObjCol [CStr "1,234.50"; CStr "12 AED"])])) fresh
  = (with_page fresh [StError (ValueError "12 AED")], Ok None).
Proof.
  split.
  - apply (proj2 (load_transactions_bad_cell _ fresh)
             ["1,234.50"; "12"] [1234.5; 12]%float ["05 Jan 2024"] [] "2024-01-09").
    + reflexivity.
    + repeat constructor.
    + reflexivity.
    + repeat constructor. discriminate.
    + reflexivity.
  - apply (proj1 (load_transactions_bad_cell _ fresh) ["1,234.50"] [] "12 AED").
    + reflexivity.
    + repeat constructor. discriminate.
    + reflexivity.
Defined.

(** ** Row selection, the editor and the summary *)

Section SelectionFacts.

Lemma mask_filter_In {A} (mask : list bool) (l : list A) (x : A) :
  In x (mask_filter mask l) -> In x l.
Proof.
  revert l. induction mask as [|b mask IH]; intros [|y l]; simpl; try tauto;
    destruct b; simpl; try tauto.
  - intros [H | H]; [now left | right; now apply IH].
  - intros H. right. now apply IH.
Qed.

Lemma mask_filter_NoDup {A} (mask : list bool) (l : list A) :
  NoDup l -> NoDup (mask_filter mask l).
Proof.
  revert l. induction mask as [|b mask IH]; intros [|y l] Hnd; simpl;
    try constructor; destruct b; try constructor;
    inversion Hnd as [|? ? Hnin Hnd']; subst; try now apply IH.
  intros Hin. apply Hnin. eapply mask_filter_In; eassumption.
Qed.

Lemma mask_filter_length {A B} (mask : list bool) (l : list A) (l' : list B) :
  length l = length l' ->
  length (mask_filter mask l) = length (mask_filter mask l').
Proof.
  revert l l'. induction mask as [|b mask IH]; intros [|x l] [|y l'] H; simpl in *;
    try reflexivity; try discriminate; destruct b; simpl; try reflexivity;
    [f_equal|]; apply IH; lia.
Qed.

(** A selected label sits where the mask holds, and its cells are the
    cells it had. *)
Lemma mask_filter_at {A} (mask : list bool) :
  forall (idx : list nat) (xs : list A) (l : nat),
    NoDup idx -> length xs = length idx ->
    In l (mask_filter mask idx) ->
    exists p p',
      label_pos idx l = Some p /\
      label_pos (mask_filter mask idx) l = Some p' /\
      nth_error (mask_filter mask xs) p' = nth_error xs p /\
      nth_error mask p = Some true.
Proof.
  induction mask as [|b mask IH]; intros [|i idx] [|x xs] l Hnd Hlen Hin;
    simpl in *; try contradiction; try discriminate.
  - destruct b; contradiction.
  - inversion Hnd as [|? ? Hnin Hnd']; subst. injection Hlen as Hlen.
    destruct (Nat.eqb_spec i l) as [->|Hne].
    + destruct b.
      * exists 0%nat, 0%nat. simpl. rewrite Nat.eqb_refl. now repeat split.
      * exfalso. apply Hnin. eapply mask_filter_In; eassumption.
    + assert (Hin' : In l (mask_filter mask idx)).
      { destruct b; [destruct Hin as [H | H]; [congruence | exact H] | exact Hin]. }
      destruct (IH idx xs l Hnd' Hlen Hin') as (p & p' & Hp & Hp' & Hnth & Hm).
      destruct b.
      * exists (S p), (S p'). simpl.
        apply Nat.eqb_neq in Hne. rewrite Hne, Hp, Hp'. now repeat split.
      * exists (S p), p'. simpl. rewrite Hp. now repeat split.
Qed.

Lemma mask_filter_complete (mask : list bool) :
  forall (idx : list nat) (l p : nat),
    label_pos idx l = Some p -> nth_error mask p = Some true ->
    In l (mask_filter mask idx).
Proof.
  induction mask as [|b mask IH]; intros [|i idx] l p Hp Hm; simpl in *;
    try discriminate; try (destruct p; discriminate).
  destruct (Nat.eqb_spec i l) as [->|Hne].
  - injection Hp as <-. simpl in Hm. injection Hm as ->. now left.
  - destruct (label_pos idx l) as [p0|] eqn:E; [|discriminate].
    injection Hp as <-. simpl in Hm.
    destruct b; [right|]; eapply IH; eauto.
Qed.

Lemma find_column_select (mask : list bool) cols name :
  find_column (map (fun nc : string * column =>
                      (fst nc, filter_column mask (snd nc))) cols) name
  = option_map (filter_column mask) (find_column cols name).
Proof.
  induction cols as [|[n c] cols IH]; simpl; [reflexivity|].
  destruct (n =? name)%string; [reflexivity | exact IH].
Qed.

Lemma cells_filter_column (mask : list bool) (c : column) :
  cells (filter_column mask c) = mask_filter mask (cells c).
Proof.
  assert (H : forall {A B} (f : A -> B) (l : list A),
             map f (mask_filter mask l) = mask_filter mask (map f l)).
  { intros A B f. induction mask as [|b m IH]; intros [|x l]; simpl;
      try reflexivity; destruct b; simpl; now rewrite ?IH. }
  destruct c; simpl; [reflexivity | apply H | apply H].
Qed.

Lemma select_wf (df : DataFrame) (mask : list bool) :
  frame_wf df -> frame_wf (select df mask).
Proof.
  intros [Hnd Hall]. split; simpl.
  - now apply mask_filter_NoDup.
  - apply Forall_map. eapply Forall_impl; [|exact Hall].
    intros [n c] Hlen. simpl in *. rewrite cells_filter_column.
    unfold nrows. simpl. now apply mask_filter_length.
Qed.

Lemma select_at (df : DataFrame) (mask : list bool) (l : nat) (name : string) :
  frame_wf df -> In l (index (select df mask)) ->
  at_get (select df mask) l name = at_get df l name /\
  exists p, label_pos (index df) l = Some p /\ nth_error mask p = Some true.
Proof.
  intros Hwf Hin. simpl in Hin. unfold at_get, getitem. simpl.
  rewrite find_column_select.
  destruct (find_column (columns df) name) as [c|] eqn:Ec; simpl.
  - destruct (mask_filter_at mask (index df) (cells c) l)
      as (p & p' & Hp & Hp' & Hnth & Hm); auto.
    { apply Hwf. }
    { now apply (find_column_wf_length df name). }
    rewrite Hp, Hp', cells_filter_column, Hnth. split; [reflexivity | eauto].
  - destruct (mask_filter_at mask (index df) (index df) l)
      as (p & p' & Hp & Hp' & _ & Hm); auto.
    { apply Hwf. }
    rewrite Hp, Hp'. split; [reflexivity | eauto].
Qed.

Lemma cell_eqb_text (v : cell) (text : string) :
  cell_eqb v (CStr text) = true <-> v = CStr text.
Proof.
  destruct v as [x| | |]; simpl; split; try congruence.
  - intros H. apply String.eqb_eq in H. now subst.
  - intros [= ->]. apply String.eqb_refl.
Qed.

Lemma eq_mask_at (df : DataFrame) (c : column) (text : string) (l p : nat) :
  find_column (columns df) "Debit/Credit" = Some c ->
  label_pos (index df) l = Some p ->
  (nth_error (eq_mask c text) p = Some true
   <-> at_get df l "Debit/Credit" = Ok (CStr text)).
Proof.
  intros Hc Hp. unfold at_get, getitem, eq_mask. rewrite Hp, Hc. simpl.
  rewrite nth_error_map. destruct (nth_error (cells c) p) as [v|]; simpl.
  - split.
    + intros [= H]. apply cell_eqb_text in H. now subst.
    + intros [= ->]. f_equal. now apply cell_eqb_text.
  - split; discriminate.
Qed.

End SelectionFacts.

(** X17: the split into debits and credits (lines 88-89). Of a
    well-formed classified frame, the debit subset holds exactly the
    rows whose Debit/Credit cell is the text "Debit", the credit subset
    exactly those whose cell is "Credit"; a row with any other value
    ("debit", say) is in neither and takes no further part. Both
    subsets are well formed, share no row, and every row keeps its label
    and its cells. *)
Theorem debit_credit_split :
  forall (df : DataFrame) (kind : column) (text : string),
    frame_wf df ->
    find_column (columns df) "Debit/Credit" = Some kind ->
    let part := select df (eq_mask kind text) in
    frame_wf part /\
    (forall l, In l (index part)
               <-> In l (index df) /\ at_get df l "Debit/Credit" = Ok (CStr text)) /\
    (forall l name, In l (index part) -> at_get part l name = at_get df l name).
Proof.
  intros df kind text Hwf Hkind part. split; [now apply select_wf|]. split.
  - intros l. split.
    + intros Hin.
      destruct (select_at df (eq_mask kind text) l "Debit/Credit" Hwf Hin)
        as [_ (p & Hp & Hm)].
      split; [eapply mask_filter_In; exact Hin|].
      now apply (eq_mask_at df kind text l p).
    + intros [Hin Hat].
      destruct (label_pos (index df) l) as [p|] eqn:Hp.
      * apply (mask_filter_complete _ _ l p Hp).
        now apply (eq_mask_at df kind text l p).
      * unfold at_get in Hat. rewrite Hp in Hat. discriminate.
  - intros l name Hin. now apply select_at.
Qed.

Lemma debit_credit_split_witness :
  let df := mkFrame [0; 1; 2]%nat
              [("Details", ObjCol [CStr "WHOLE FOODS 123"; CStr "SALARY"; CStr "RENT"]);
               ("Debit/Credit", ObjCol [CStr "Debit"; CStr "Credit"; CStr "debit"])] in
  let part := select df (eq_mask (ObjCol [CStr "Debit"; CStr "Credit"; CStr "debit"])
                                 "Debit") in
  index part = [0]%nat /\
  frame_wf part /\
  (forall l, In l (index part)
             <-> In l (index df) /\ at_get df l "Debit/Credit" = Ok (CStr "Debit")) /\
  (forall l name, In l (index part) -> at_get part l name = at_get df l name).
Proof.
  intros df part. split; [reflexivity|].
  apply (debit_credit_split df
           (ObjCol [CStr "Debit"; CStr "Credit"; CStr "debit"]) "Debit").
  - split; [repeat constructor; simpl; intuition discriminate|].
    repeat constructor.
  - reflexivity.
Defined.

Section EditorFacts.

Lemma cell_eqb_refl (v : cell) : cell_is_nan v = false -> cell_eqb v v = true.
Proof.
  destruct v as [x|n|x|d]; simpl; intros Hv.
  - apply String.eqb_refl.
  - apply Z.eqb_refl.
  - unfold is_nan in Hv. now apply negb_false_iff in Hv.
  - now rewrite !Nat.eqb_refl.
Qed.

Lemma for_M_noop {X} (xs : list X) (body : X -> M unit) (s : State) :
  (forall x, In x xs -> body x s = (s, Ok tt)) ->
  for_M xs body s = (s, Ok tt).
Proof.
  induction xs as [|x xs IH]; simpl; intros H; [reflexivity|].
  unfold bind. rewrite (H x) by now left. apply IH. intros y Hy. apply H. now right.
Qed.

Lemma In_combine_seq {A B} (f : nat -> B) (l : list A) (a : A) (b : B) :
  forall k,
    In (a, b) (combine l (map f (seq k (length l)))) ->
    exists p, nth_error l p = Some a /\ b = f (k + p)%nat.
Proof.
  induction l as [|x l IH]; simpl; intros k Hin; [contradiction|].
  destruct Hin as [[= -> <-] | Hin].
  - exists 0%nat. now rewrite Nat.add_0_r.
  - destruct (IH (S k) Hin) as (p & Hp & Hb). exists (S p).
    split; [exact Hp | now rewrite Nat.add_succ_r].
Qed.

Lemma label_pos_nth_error (idx : list nat) (p l : nat) :
  NoDup idx -> nth_error idx p = Some l -> label_pos idx l = Some p.
Proof.
  intros Hnd Hp.
  assert (Hlt : (p < length idx)%nat) by (apply nth_error_Some; congruence).
  rewrite <- (label_pos_nth idx p Hnd Hlt). f_equal.
  apply nth_error_nth with (d := 0%nat) in Hp. now symmetry.
Qed.

(** A row as [iterrows] yields it carries, under a column's name, the
    cell that [at] reads under the row's label. *)
Lemma iterrows_cell (df : DataFrame) (idx : nat) (row : Series) (name : string)
  (c : column) :
  frame_wf df ->
  find_column (columns df) name = Some c ->
  In (idx, row) (iterrows df) ->
  exists v, series_getitem row name = Ok v /\ at_get df idx name = Ok v.
Proof.
  intros Hwf Hc Hin. unfold iterrows, nrows in Hin.
  apply In_combine_seq in Hin. destruct Hin as (p & Hp & ->). simpl.
  assert (Hlt : (p < nrows df)%nat) by (apply nth_error_Some; congruence).
  assert (Hlab : label_pos (index df) idx = Some p)
    by (apply label_pos_nth_error; [apply Hwf | exact Hp]).
  assert (Hlen : length (cells c) = nrows df)
    by now apply (find_column_wf_length df name).
  destruct (nth_error (cells c) p) as [v|] eqn:Ev;
    [|apply nth_error_None in Ev; lia].
  exists v. split.
  - unfold series_getitem, row_at. rewrite series_lookup_row.
    + now rewrite Hc, Ev.
    + destruct Hwf as [_ Hall]. eapply Forall_impl; [|exact Hall].
      simpl. intros nc ->. exact Hlt.
  - unfold at_get, getitem. rewrite Hlab, Hc. simpl. now rewrite Ev.
Qed.

Lemma select_columns_category (df shown : DataFrame) :
  select_columns df ["Date"; "Details"; "Amount"; "Category"] = Ok shown ->
  index shown = index df /\
  (forall name, In name ["Date"; "Details"; "Amount"; "Category"] ->
                find_column (columns shown) name = find_column (columns df) name) /\
  (frame_wf df -> frame_wf shown).
Proof.
  unfold select_columns, getitem. simpl.
  destruct (find_column (columns df) "Date") as [c1|] eqn:E1; [|discriminate].
  destruct (find_column (columns df) "Details") as [c2|] eqn:E2; [|discriminate].
  destruct (find_column (columns df) "Amount") as [c3|] eqn:E3; [|discriminate].
  destruct (find_column (columns df) "Category") as [c4|] eqn:E4; [|discriminate].
  simpl. intros [= <-]. split; [reflexivity|]. split.
  - intros name [<- | [<- | [<- | [<- | []]]]]; simpl; congruence.
  - intros Hwf. split; [apply Hwf|]. simpl. unfold nrows. simpl.
    repeat constructor; simpl;
      eapply (find_column_wf_length df); eassumption.
Qed.

End EditorFacts.

(** X18: "Apply Changes" on an untouched table. When the editor returns
    the table it was shown (the Date, Details, Amount and Category
    columns of the stored debits) and no Category cell is NaN, the loop
    over its rows changes nothing: no row, no keyword, no write to the
    file. *)
Theorem apply_changes_without_edits :
  forall (s : State) (debits_df shown : DataFrame),
    ss_debits_df s = Some debits_df ->
    frame_wf debits_df ->
    select_columns debits_df ["Date"; "Details"; "Amount"; "Category"] = Ok shown ->
    (forall c, find_column (columns debits_df) "Category" = Some c ->
               forallb (fun v => negb (cell_is_nan v)) (cells c) = true) ->
    apply_changes true shown s = (s, Ok tt).
Proof.
  intros s debits_df shown Hdf Hwf Hshown Hnan.
  destruct (select_columns_category debits_df shown Hshown) as (Hidx & Hcols & Hwf').
  specialize (Hwf' Hwf).
  assert (Hcat : exists c, find_column (columns debits_df) "Category" = Some c).
  { unfold select_columns, getitem in Hshown. simpl in Hshown.
    destruct (find_column (columns debits_df) "Date"); [|discriminate].
    destruct (find_column (columns debits_df) "Details"); [|discriminate].
    destruct (find_column (columns debits_df) "Amount"); [|discriminate].
    destruct (find_column (columns debits_df) "Category") as [c4|]; [|discriminate].
    now exists c4. }
  destruct Hcat as [c Hc].
  assert (Hc' : find_column (columns shown) "Category" = Some c)
    by (rewrite Hcols; [exact Hc | simpl; tauto]).
  unfold apply_changes. apply for_M_noop. intros [idx row] Hin.
  destruct (iterrows_cell shown idx row "Category" c Hwf' Hc' Hin)
    as (v & Hrow & Hat').
  assert (Hat : at_get debits_df idx "Category" = Ok v).
  { unfold at_get, getitem in *. rewrite Hidx, Hc' in Hat'. now rewrite Hc. }
  assert (Hv : cell_is_nan v = false).
  { specialize (Hnan c Hc). rewrite forallb_forall in Hnan.
    apply negb_true_iff, Hnan.
    unfold at_get, getitem in Hat. rewrite Hc in Hat.
    destruct (label_pos (index debits_df) idx); [|discriminate]. simpl in Hat.
    destruct (nth_error (cells c) n) eqn:En; [|discriminate].
    injection Hat as <-. now apply nth_error_In with n. }
  unfold reclassify_row, bind, lift, get_debits_df.
  now rewrite Hrow, Hdf, Hat, cell_eqb_refl.
Qed.

Lemma apply_changes_without_edits_witness :
  apply_changes true
    (mkFrame [0; 2]%nat
       [("Date", DateCol [mkDate 2024 1 5; mkDate 2024 1 9]);
        ("Details", ObjCol [CStr "WHOLE FOODS 123"; CStr "RENT"]);
        ("Amount", NumCol [10; 5]%float);
        ("Category", ObjCol [CStr "Food"; CStr Uncategorized])])
    (sample_state [(Uncategorized, []); ("Food", [])] "Food")
  = (sample_state [(Uncategorized, []); ("Food", [])] "Food", Ok tt).
Proof.
  apply (apply_changes_without_edits
           (sample_state [(Uncategorized, []); ("Food", [])] "Food")
           (sample_debits "Food")).
  - reflexivity.
  - split; [repeat constructor; simpl; intuition discriminate|].
    repeat constructor.
  - reflexivity.
  - intros c [= <-]. reflexivity.
Defined.

(** With a NaN in the Category column the untouched table is not left
    alone: the cell differs from itself, the row is written and the
    call to learn a keyword raises. *)
Example apply_changes_nan_category :
  let debits :=
    mkFrame [0]%nat
      [("Date", DateCol [mkDate 2024 1 5]);
       ("Details", ObjCol [CStr "RENT"]);
       ("Amount", NumCol [5]%float);
       ("Category", ObjCol [CNum nan])] in
  let s := mkState (Some [(Uncategorized, [])]) (Some debits) None None [] in
  apply_changes true debits s = (s, Raise (KeyError (CNum nan))).
Proof. reflexivity. Qed.

(** ** The whole "Apply Changes" loop *)

Section ApplyChanges.

Lemma for_M_ext_in {X} (xs : list X) (f g : X -> M unit) :
  (forall x s, In x xs -> f x s = g x s) ->
  forall s, for_M xs f s = for_M xs g s.
Proof.
  induction xs as [|x xs IH]; simpl; intros Hfg s; [reflexivity|].
  unfold bind. rewrite Hfg by now left.
  destruct (g x s) as [s1 [[]|e]]; [|reflexivity].
  apply IH. intros y s' Hy. apply Hfg. now right.
Qed.

Lemma for_M_combine_map {L R R'} (g : R -> R') (body : L -> R' -> M unit)
  (ls : list L) (rs : list R) :
  forall s,
    for_M (combine ls (map g rs)) (fun '(l, r') => body l r') s
    = for_M (combine ls rs) (fun '(l, r) => body l (g r)) s.
Proof.
  revert rs. induction ls as [|l ls IH]; intros [|r rs] s; simpl; try reflexivity.
  unfold bind. destruct (body l (g r) s) as [s1 [[]|e]]; [apply IH | reflexivity].
Qed.

Lemma reclassify_row_with (idx : nat) (row : Series) :
  reclassify_row idx row
  = reclassify_with idx (series_getitem row "Category") (series_getitem row "Details").
Proof. reflexivity. Qed.

Lemma row_at_text (df : DataFrame) (name : string) (texts : list string) (p : nat) :
  frame_wf df ->
  find_column (columns df) name = Some (ObjCol (map CStr texts)) ->
  (p < nrows df)%nat ->
  series_getitem (row_at df p) name = Ok (CStr (nth p texts "")).
Proof.
  intros Hwf Hc Hp. unfold series_getitem, row_at. rewrite series_lookup_row.
  - rewrite Hc. cbn [cells]. rewrite nth_error_map.
    pose proof (find_column_wf_length df name _ Hwf Hc) as Hlen.
    cbn [cells] in Hlen. rewrite length_map in Hlen.
    rewrite (nth_error_nth' texts "") by lia. reflexivity.
  - destruct Hwf as [_ Hall]. eapply Forall_impl; [|exact Hall].
    simpl. intros nc ->. exact Hp.
Qed.

Lemma set_column_same cols name c :
  find_column cols name = Some c -> set_column cols name c = cols.
Proof.
  induction cols as [|[n c0] cols IH]; simpl; [discriminate|].
  destruct (String.eqb_spec n name) as [->|Hne].
  - now intros [= ->].
  - intros H. now rewrite IH.
Qed.

(** A call for a category of the store returns; it leaves the rows, the
    page and the names of the categories as they are. *)
Lemma add_keyword_returns (s : State) (d : dict) (category text : string) :
  ss_categories s = Some d -> In category (keys d) ->
  exists s' added d',
    add_keyword_to_category (CStr category) (CStr text) s = (s', Ok added) /\
    ss_debits_df s' = ss_debits_df s /\
    ss_credits_df s' = ss_credits_df s /\
    page s' = page s /\
    ss_categories s' = Some d' /\ keys d' = keys d.
Proof.
  intros Hd Hin. rewrite add_keyword_to_category_unfold, Hd.
  destruct (Str.truthy (Str.strip text)); [|exists s, false, d; now repeat split].
  destruct (dict_lookup d category) as [keywords|] eqn:Hl;
    [|apply dict_lookup_none in Hl; contradiction].
  destruct (Str.mem (Str.strip text) keywords);
    [exists s, false, d; now repeat split|].
  cbn zeta. eexists. exists true. eexists. split; [reflexivity|].
  repeat split. cbn. now apply keys_setitem_present with keywords.
Qed.

Variable debits_df : DataFrame.
Hypothesis Hwf : frame_wf debits_df.

Lemma apply_rows (post : list nat) :
  forall (cats dets : list string) (spost : list cell)
         (pre : list nat) (cpre : list cell) (s : State) (d : dict),
    index debits_df = pre ++ post ->
    length cats = length post -> length dets = length post ->
    length spost = length post -> length cpre = length pre ->
    ss_debits_df s = Some (labelled debits_df (cpre ++ spost)) ->
    ss_categories s = Some d ->
    (forall c, In c cats -> In c (keys d)) ->
    exists s',
      for_M (combine post (combine cats dets))
            (fun '(l, ct) => reclassify_with l (Ok (CStr (fst ct))) (Ok (CStr (snd ct)))) s
      = (s', Ok tt) /\
      ss_debits_df s' = Some (labelled debits_df (cpre ++ map CStr cats)) /\
      ss_credits_df s' = ss_credits_df s /\
      page s' = page s.
Proof.
  induction post as [|l post IH];
    intros cats dets spost pre cpre s d Hidx Hc Hd Hs Hpre Hdf Hstore Hkeys.
  - destruct cats; [|discriminate]. destruct spost; [|discriminate].
    exists s. simpl. now repeat split.
  - destruct cats as [|c cats]; [discriminate|].
    destruct dets as [|t dets]; [discriminate|].
    destruct spost as [|v spost]; [discriminate|].
    simpl in Hc, Hd, Hs. injection Hc as Hc. injection Hd as Hd. injection Hs as Hs.
    assert (Hnin : ~ In l pre).
    { destruct Hwf as [Hnd _]. rewrite Hidx in Hnd.
      apply NoDup_remove_2 in Hnd. intros Hin. apply Hnd, in_or_app. now left. }
    assert (Hpos : label_pos (index debits_df) l = Some (length cpre))
      by (rewrite Hidx, Hpre; now apply label_pos_app).
    assert (Hat : at_get (labelled debits_df (cpre ++ v :: spost)) l "Category" = Ok v).
    { unfold at_get, getitem. cbn [labelled setitem index columns].
      rewrite Hpos, find_column_set_eq. cbn [obind cells].
      now rewrite nth_error_app2, Nat.sub_diag by lia. }
    assert (Hset : at_set (labelled debits_df (cpre ++ v :: spost)) l "Category" (CStr c)
                   = labelled debits_df ((cpre ++ [CStr c]) ++ spost)).
    { unfold at_set, labelled, setitem. cbn [index columns]. rewrite Hpos. f_equal.
      rewrite update_set_column. cbn [set_cell]. rewrite list_set_app.
      now rewrite <- app_assoc. }
    assert (Hidx' : index debits_df = (pre ++ [l]) ++ post)
      by now rewrite <- app_assoc.
    assert (Hpre' : length (cpre ++ [CStr c]) = length (pre ++ [l]))
      by (rewrite !length_app; simpl; lia).
    cbn [combine for_M]. unfold bind at 1. cbn [fst snd].
    unfold reclassify_with at 1, bind, lift, get_debits_df.
    rewrite Hdf, Hat.
    destruct (cell_eqb (CStr c) v) eqn:Heq.
    + apply cell_eqb_str in Heq. subst v. cbn [ret].
      replace (cpre ++ CStr c :: spost) with ((cpre ++ [CStr c]) ++ spost) in Hdf
        by now rewrite <- app_assoc.
      destruct (IH cats dets spost (pre ++ [l]) (cpre ++ [CStr c]) s d)
        as (s' & Hrun & Hdeb & Hcred & Hpage); auto.
      { intros c' Hc'. apply Hkeys. now right. }
      exists s'. split; [exact Hrun|]. split; [|now split].
      rewrite Hdeb. now rewrite <- app_assoc.
    + cbn [put_debits_df]. rewrite Hdf, Hset.
      destruct (add_keyword_returns
                  (mkState (ss_categories s)
                           (Some (labelled debits_df ((cpre ++ [CStr c]) ++ spost)))
                           (ss_credits_df s) (category_file s) (page s))
                  d c t Hstore (Hkeys c (or_introl eq_refl)))
        as (s1 & added & d1 & Hadd & Hdeb1 & Hcred1 & Hpage1 & Hstore1 & Hkeys1).
      rewrite Hadd. cbn [ret].
      destruct (IH cats dets spost (pre ++ [l]) (cpre ++ [CStr c]) s1 d1)
        as (s' & Hrun & Hdeb & Hcred & Hpage); auto.
      { intros c' Hc'. rewrite Hkeys1. apply Hkeys. now right. }
      exists s'. split; [exact Hrun|]. split; [|split].
      * rewrite Hdeb. now rewrite <- app_assoc.
      * now rewrite Hcred, Hcred1.
      * now rewrite Hpage, Hpage1.
Qed.

End ApplyChanges.

(** X20: the net effect of "Apply Changes". Let the edited table have
    the labels of the stored debits, a Category column of names that
    are all categories of the store, and a text Details column. Then
    the loop runs to its end without an exception, and afterwards the
    stored debits carry exactly the categories of the edited table; the
    other columns, the credits and the page are as before. *)
Theorem apply_changes_aligns_categories :
  forall (s : State) (d : dict) (debits_df edited_df : DataFrame)
         (stored : list cell) (cats dets : list string),
    ss_categories s = Some d ->
    ss_debits_df s = Some debits_df ->
    frame_wf debits_df ->
    frame_wf edited_df ->
    index edited_df = index debits_df ->
    find_column (columns debits_df) "Category" = Some (ObjCol stored) ->
    find_column (columns edited_df) "Category" = Some (ObjCol (map CStr cats)) ->
    find_column (columns edited_df) "Details" = Some (ObjCol (map CStr dets)) ->
    (forall c, In c cats -> In c (keys d)) ->
    exists s',
      apply_changes true edited_df s = (s', Ok tt) /\
      ss_debits_df s'
      = Some (setitem debits_df "Category" (ObjCol (map CStr cats))) /\
      ss_credits_df s' = ss_credits_df s /\
      page s' = page s.
Proof.
  intros s d debits_df edited_df stored cats dets
         Hstore Hdf Hwf Hwf' Hidx Hcol Hcats Hdets Hkeys.
  assert (Hn : nrows edited_df = nrows debits_df) by (unfold nrows; now rewrite Hidx).
  assert (Hlc : length cats = nrows debits_df).
  { rewrite <- Hn, <- (find_column_wf_length _ _ _ Hwf' Hcats).
    cbn [cells]. now rewrite length_map. }
  assert (Hld : length dets = nrows debits_df).
  { rewrite <- Hn, <- (find_column_wf_length _ _ _ Hwf' Hdets).
    cbn [cells]. now rewrite length_map. }
  assert (Hls : length stored = nrows debits_df)
    by (rewrite <- (find_column_wf_length _ _ _ Hwf Hcol); reflexivity).
  assert (Hsame : labelled debits_df ([] ++ stored) = debits_df).
  { unfold labelled, setitem. simpl. rewrite set_column_same by exact Hcol.
    now destruct debits_df. }
  unfold apply_changes, iterrows.
  rewrite (for_M_ext_in _ _
             (fun '(idx, row) =>
                reclassify_with idx (series_getitem row "Category")
                                (series_getitem row "Details")))
    by (intros [idx row] s0 _; reflexivity).
  rewrite (for_M_combine_map (row_at edited_df)
             (fun idx row => reclassify_with idx (series_getitem row "Category")
                                             (series_getitem row "Details"))).
  rewrite (for_M_ext_in _ _
             (fun '(idx, p) =>
                reclassify_with idx
                  (Ok (CStr (fst (nth p (combine cats dets) ("", "")))))
                  (Ok (CStr (snd (nth p (combine cats dets) ("", ""))))))).
  2:{ intros [idx p] s0 Hin. apply in_combine_r, in_seq in Hin.
      rewrite (row_at_text edited_df "Category" cats p) by (auto; lia).
      rewrite (row_at_text edited_df "Details" dets p) by (auto; lia).
      rewrite combine_nth by lia. reflexivity. }
  rewrite <- (for_M_combine_map
                (fun p => nth p (combine cats dets) ("", ""))
                (fun idx ct => reclassify_with idx (Ok (CStr (fst ct)))
                                               (Ok (CStr (snd ct))))).
  replace (nrows edited_df) with (length (combine cats dets))
    by (rewrite length_combine; lia).
  rewrite map_nth_seq, Hidx.
  rewrite <- Hsame in Hdf.
  destruct (apply_rows debits_df Hwf (index debits_df) cats dets stored [] [] s d)
    as (s' & Hrun & Hdeb & Hcred & Hpage); auto.
  exists s'. split; [exact Hrun|]. split; [exact Hdeb | now split].
Qed.

Lemma apply_changes_aligns_categories_witness :
  exists s',
    apply_changes true
      (mkFrame [0; 2]%nat
         [("Details", ObjCol (map CStr ["WHOLE FOODS 123"; "RENT"]));
          ("Category", ObjCol (map CStr ["Groceries"; Uncategorized]))])
      (sample_state groceries_store Uncategorized)
    = (s', Ok tt) /\
    ss_debits_df s'
    = Some (setitem (sample_debits Uncategorized) "Category"
                    (ObjCol (map CStr ["Groceries"; Uncategorized]))) /\
    ss_credits_df s' = ss_credits_df (sample_state groceries_store Uncategorized) /\
    page s' = page (sample_state groceries_store Uncategorized).
Proof.
  apply (apply_changes_aligns_categories
           (sample_state groceries_store Uncategorized) groceries_store
           (sample_debits Uncategorized) _
           [CStr Uncategorized; CStr Uncategorized]
           ["Groceries"; Uncategorized] ["WHOLE FOODS 123"; "RENT"]).
  - reflexivity.
  - reflexivity.
  - split; [repeat constructor; simpl; intuition discriminate|].
    repeat constructor.
  - split; [repeat constructor; simpl; intuition discriminate|].
    repeat constructor.
  - reflexivity.
  - reflexivity.
  - reflexivity.
  - reflexivity.
  - simpl. intros c [<- | [<- | []]]; tauto.
Defined.

(** ** A whole run *)

Section WholeRun.

Lemma all_strings_mask (mask : list bool) (l : list string) :
  all_strings (mask_filter mask (map CStr l)) = Some (mask_filter mask l).
Proof.
  revert l. induction mask as [|b mask IH]; intros [|x l]; simpl;
    try reflexivity; destruct b; simpl; try reflexivity;
    now rewrite IH.
Qed.

Lemma init_consistent (s : State) :
  consistent s -> init s = (s, Ok tt).
Proof.
  intros (d & Hd & Hf). unfold init. rewrite Hd.
  destruct Hf as [Hf | [Hf _]]; rewrite Hf; [|reflexivity].
  unfold put_categories. destruct s; simpl in *. now subst.
Qed.

Lemma getitem_select (df : DataFrame) (mask : list bool) (name : string) (c : column) :
  find_column (columns df) name = Some c ->
  getitem (select df mask) name = Ok (filter_column mask c).
Proof.
  intros H. unfold getitem, select. cbn [columns].
  now rewrite find_column_select, H.
Qed.

End WholeRun.

(** X21: an ordinary run. The user has chosen a statement whose cells
    all parse (as in X15) and which has a Debit/Credit column, and
    presses no button; store and file agree. Then the run ends without
    an exception. The store and the file are unchanged; the session
    holds the debit rows and the credit rows of the classified table;
    and the page shows, in this order, the parsed table, the summary of
    the debits, the sum that pandas makes of the credit amounts, and
    the credit rows. *)
Theorem ordinary_run {pandas : Pandas} :
  forall (inp : Inputs) (s : State) (raw : DataFrame) (d : dict)
         (texts : list string) (amounts : list float)
         (days : list string) (dates : list date)
         (col kind : column) (details : list string),
    current_file inp = Some (Ok raw) ->
    add_button inp = false ->
    save_button inp = false ->
    consistent s ->
    ss_categories s = Some d ->
    frame_wf (strip_columns raw) ->
    find_column (columns (strip_columns raw)) "Amount" = Some (ObjCol (map CStr texts)) ->
    Forall2 (fun x q => Parse.parse_float (Str.remove_commas x) = Some q) texts amounts ->
    find_column (columns (strip_columns raw)) "Date" = Some (ObjCol (map CStr days)) ->
    Forall2 (fun x day => Parse.parse_date x = Some day) days dates ->
    find_column (columns (strip_columns raw)) "Details" = Some col ->
    cells col = map CStr details ->
    find_column (columns (strip_columns raw)) "Debit/Credit" = Some kind ->
    let parsed := setitem (setitem (strip_columns raw) "Amount" (NumCol amounts))
                          "Date" (DateCol dates) in
    let df := setitem parsed "Category"
                      (ObjCol (map CStr (map (classify_details d) details))) in
    let debits := select df (eq_mask kind "Debit") in
    let credits := select df (eq_mask kind "Credit") in
    exists totals,
      category_totals debits = Ok totals /\
      script inp s
      = (mkState (Some d) (Some debits) (Some credits) (category_file s)
                 [StWrite parsed; StDataframe totals;
                  StMetric (Series_sum (mask_filter (eq_mask kind "Credit") amounts));
                  StWrite credits],
         Ok tt).
Proof.
  intros inp s raw d texts amounts days dates col kind details
         Hfile Hadd Hsave Hcons Hd Hwf Hamount Hparse Hdate Hdays Hdet Hcells Hkind
         parsed df debits credits.
  assert (Hc_amount : find_column (columns df) "Amount" = Some (NumCol amounts)).
  { unfold df, parsed, setitem. cbn [columns].
    rewrite !find_column_set_ne by discriminate. apply find_column_set_eq. }
  assert (Hc_date : find_column (columns df) "Date" = Some (DateCol dates)).
  { unfold df, parsed, setitem. cbn [columns].
    rewrite find_column_set_ne by discriminate. apply find_column_set_eq. }
  assert (Hc_det : find_column (columns df) "Details" = Some col).
  { unfold df, parsed, setitem. cbn [columns].
    now rewrite !find_column_set_ne by discriminate. }
  assert (Hc_kind : find_column (columns df) "Debit/Credit" = Some kind).
  { unfold df, parsed, setitem. cbn [columns].
    now rewrite !find_column_set_ne by discriminate. }
  assert (Hc_cat : find_column (columns df) "Category"
                   = Some (ObjCol (map CStr (map (classify_details d) details)))).
  { unfold df, setitem. cbn [columns]. apply find_column_set_eq. }
  assert (Htotals : exists totals, category_totals debits = Ok totals).
  { unfold category_totals, debits.
    rewrite (getitem_select df _ "Category" _ Hc_cat).
    rewrite (getitem_select df _ "Amount" _ Hc_amount).
    cbn [obind filter_column]. unfold names_of. cbn [cells].
    rewrite all_strings_mask. cbn [obind amounts_of]. eexists. reflexivity. }
  destruct Htotals as [totals Htotals]. exists totals. split; [exact Htotals|].
  assert (Hcons0 : consistent (fst (clear_page s))) by exact Hcons.
  cbn [clear_page fst] in Hcons0.
  unfold script. unfold bind at 1. cbn [clear_page].
  unfold bind at 1. rewrite (init_consistent _ Hcons0).
  unfold main. rewrite Hfile. unfold bind at 1.
  rewrite (load_transactions_parsed raw _ d texts amounts days dates col details)
    by assumption.
  fold parsed. fold df.
  unfold bind at 1. unfold lift at 1. unfold getitem at 1. rewrite Hc_kind.
  unfold bind at 1. unfold lift at 1. unfold getitem at 1. rewrite Hc_kind.
  fold debits. fold credits.
  unfold bind at 1. cbn [put_debits_df].
  unfold bind at 1. cbn [put_credits_df].
  rewrite Hadd. unfold add_category at 1. cbn [andb].
  unfold bind at 1. cbn [ret].
  unfold bind at 1. unfold get_debits_df at 1. cbn [ss_debits_df].
  unfold bind at 1. unfold lift at 1.
  unfold select_columns, debits.
  cbn [traverse].
  rewrite (getitem_select df _ "Date" _ Hc_date).
  rewrite (getitem_select df _ "Details" _ Hc_det).
  rewrite (getitem_select df _ "Amount" _ Hc_amount).
  rewrite (getitem_select df _ "Category" _ Hc_cat).
  cbn [obind]. fold debits.
  rewrite Hsave. unfold apply_changes at 1.
  unfold bind at 1. cbn [ret].
  unfold bind at 1. unfold get_debits_df at 1. cbn [ss_debits_df].
  unfold bind at 1. unfold lift at 1. rewrite Htotals.
  unfold bind at 1. cbn [show].
  unfold bind at 1. unfold lift at 1. unfold credits at 1.
  rewrite (getitem_select df _ "Amount" _ Hc_amount). fold credits.
  unfold bind at 1. unfold lift at 1. cbn [filter_column amounts_of].
  unfold bind at 1. cbn [show].
  unfold with_page. cbn. now rewrite Hd.
Qed.

Lemma ordinary_run_witness :
  let parsed := setitem (setitem (strip_columns table_with_kind)
                                 "Amount" (NumCol [1234.5; 12]%float))
                        "Date" (DateCol [mkDate 2024 1 5; mkDate 2024 1 9]) in
  let df := setitem parsed "Category"
                    (ObjCol (map CStr (map (classify_details groceries_store)
                                           ["WHOLE FOODS 123"; "RENT"]))) in
  let debits := select df (eq_mask (ObjCol [CStr "Debit"; CStr "Credit"]) "Debit") in
  let credits := select df (eq_mask (ObjCol [CStr "Debit"; CStr "Credit"]) "Credit") in
  exists totals,
    category_totals (pandas := left_to_right) debits = Ok totals /\
    script (pandas := left_to_right) (upload table_with_kind) groceries_state
    = (mkState (Some groceries_store) (Some debits) (Some credits)
               (category_file groceries_state)
               [StWrite parsed; StDataframe totals;
                StMetric (Series_sum (Pandas := left_to_right)
                            (mask_filter
                               (eq_mask (ObjCol [CStr "Debit"; CStr "Credit"]) "Credit")
                               [1234.5; 12]%float));
                StWrite credits],
       Ok tt).
Proof.
  apply (ordinary_run (pandas := left_to_right)
           (upload table_with_kind) groceries_state table_with_kind
           groceries_store
           ["1,234.50"; "12"] [1234.5; 12]%float
           ["05 Jan 2024"; "09 Jan 2024"] [mkDate 2024 1 5; mkDate 2024 1 9]
           (ObjCol [CStr "WHOLE FOODS 123"; CStr "RENT"])
           (ObjCol [CStr "Debit"; CStr "Credit"])
           ["WHOLE FOODS 123"; "RENT"]).
  - reflexivity.
  - reflexivity.
  - reflexivity.
  - apply groceries_state_consistent.
  - reflexivity.
  - split; [repeat constructor; simpl; intuition discriminate|].
    repeat constructor.
  - reflexivity.
  - repeat constructor.
  - reflexivity.
  - repeat constructor.
  - reflexivity.
  - reflexivity.
  - reflexivity.
Defined.
